(** * gsout: a verification development for [gsout.py]

    The program exports a user's Gradescope submissions: it lists the
    courses, inspects each one, locates the files of every graded
    assignment, downloads them into a staging directory next to a generated
    README.md and zips the directory.

    The development is a shallow embedding of [src/gsout.py].  Strings are
    Python [str] values over the code points 0..255.  The remote server, the
    operating system and the two libraries that parse text (json and the
    HTML parser) are parameters of the section [Gsout]; everything the
    program itself computes is a definition below. *)

From Stdlib Require Import ZArith Lia String Ascii List.
From Stdlib Require Import DecimalString DecimalNat DecimalFacts.
From stdpp Require Import base option list sorting strings gmap.

Open Scope string_scope.
Open Scope list_scope.

(** ** Python strings *)

Module PyStr.

(** [str.isspace] on one character (Py_UNICODE_ISSPACE below 256): the
    characters on which [str.split()] and [str.strip()] cut. *)
Definition isspace (c : ascii) : bool :=
  let n := nat_of_ascii c in
  ((9 <=? n) && (n <=? 13) || (28 <=? n) && (n <=? 32)
   || (n =? 133) || (n =? 160))%nat.

(** [s.split()]: the maximal runs of non-space characters, in order. *)
Fixpoint split_ws_go (cur : string) (s : string) : list string :=
  match s with
  | EmptyString => match cur with EmptyString => [] | _ => [cur] end
  | String c rest =>
      if isspace c
      then match cur with
           | EmptyString => split_ws_go "" rest
           | _ => cur :: split_ws_go "" rest
           end
      else split_ws_go (cur +:+ String c "") rest
  end.

Definition split_ws (s : string) : list string := split_ws_go "" s.

(** [s.lstrip()], [s.rstrip()] and [s.strip()]. *)
Fixpoint lstrip (s : string) : string :=
  match s with
  | String c rest => if isspace c then lstrip rest else s
  | EmptyString => ""
  end.

Fixpoint rstrip (s : string) : string :=
  match s with
  | EmptyString => ""
  | String c rest =>
      match rstrip rest with
      | EmptyString => if isspace c then "" else String c ""
      | r => String c r
      end
  end.

Definition strip (s : string) : string := rstrip (lstrip s).

(** [s.split(sep)] for a non-empty [sep]: cut at the occurrences of [sep]
    found left to right without overlap.  [skip] counts the characters of
    the separator just matched that are still to be passed over. *)
Fixpoint split_go (sep : string) (skip : nat) (cur : string) (s : string)
  : list string :=
  match s with
  | EmptyString => [cur]
  | String c rest =>
      match skip with
      | S k => split_go sep k cur rest
      | O =>
          if String.prefix sep s
          then cur :: split_go sep (String.length sep - 1) "" rest
          else split_go sep 0 (cur +:+ String c "") rest
      end
  end.

Definition split (sep s : string) : list string := split_go sep 0 "" s.

(** [''.join(l)]. *)
Definition join (l : list string) : string := String.concat "" l.

(** [sub in s] for strings: [sub] occurs in [s]. *)
Fixpoint contains (sub s : string) : bool :=
  String.prefix sub s ||
  match s with
  | EmptyString => false
  | String _ rest => contains sub rest
  end.

(** [s.endswith(suffix)] and [s.removesuffix(suffix)]. *)
Definition endswith (s suffix : string) : bool :=
  (String.length suffix <=? String.length s)%nat &&
  String.eqb (String.substring (String.length s - String.length suffix)
                               (String.length suffix) s) suffix.

Definition removesuffix (s suffix : string) : string :=
  if negb (String.eqb suffix "") && endswith s suffix
  then String.substring 0 (String.length s - String.length suffix) s
  else s.

(** [str(n)] for a non-negative [int]. *)
Definition of_nat (n : nat) : string := NilZero.string_of_uint (Nat.to_uint n).

(** [l[-k]] for [k >= 1]: the k-th element from the end. *)
Definition nth_from_end {A} (l : list A) (k : nat) : option A :=
  if ((1 <=? k) && (k <=? length l))%nat then l !! (length l - k) else None.

End PyStr.

(** ** Python [int(str)] in base 10 *)

Module PyInt.

(** The whitespace [int()] strips around the literal: the C locale's below
    127, and the two Unicode spaces above it, which CPython maps to a blank
    before parsing. *)
Definition isspace (c : ascii) : bool :=
  let n := nat_of_ascii c in
  ((9 <=? n) && (n <=? 13) || (n =? 32) || (n =? 133) || (n =? 160))%nat.

Fixpoint lstrip (s : string) : string :=
  match s with
  | String c rest => if isspace c then lstrip rest else s
  | EmptyString => ""
  end.

Fixpoint rstrip (s : string) : string :=
  match s with
  | EmptyString => ""
  | String c rest =>
      match rstrip rest with
      | EmptyString => if isspace c then "" else String c ""
      | r => String c r
      end
  end.

Definition digit (c : ascii) : option Z :=
  let n := nat_of_ascii c in
  if ((48 <=? n) && (n <=? 57))%nat then Some (Z.of_nat (n - 48)) else None.

(** sys.get_int_max_str_digits(), at its default. *)
Definition max_str_digits : nat := 4300.

(** The digits of the literal: single underscores may separate digits, and
    the literal neither starts nor ends with one.  [prev_us] holds at the
    start and after an underscore.  Returns the value and the number of
    digits read. *)
Fixpoint digits (prev_us : bool) (acc : Z) (n : nat) (s : string)
  : option (Z * nat) :=
  match s with
  | EmptyString => if prev_us then None else Some (acc, n)
  | String c rest =>
      if Ascii.eqb c "_"
      then if prev_us then None else digits true acc n rest
      else match digit c with
           | Some d => digits false (10 * acc + d)%Z (S n) rest
           | None => None
           end
  end.

Definition unsigned (s : string) : option Z :=
  match digits true 0%Z 0 s with
  | Some (v, n) => if (n <=? max_str_digits)%nat then Some v else None
  | None => None
  end.

(** [int(s)]: [None] stands for ValueError. *)
Definition parse (s : string) : option Z :=
  match rstrip (lstrip s) with
  | String "+" rest => unsigned rest
  | String "-" rest => Z.opp <$> unsigned rest
  | body => unsigned body
  end.

End PyInt.

(** ** Exceptions and results *)

(** The exceptions (instances of [Exception]) the program can meet: the
    ones its own expressions raise, and [Foreign] for whatever the
    environment raises (requests, the operating system, json, the HTML
    parser), by class name and message. *)
Inductive Exn : Type :=
| ValueError
| KeyError (key : string)
| TypeError
| IndexError
| ArgumentTypeError (msg : string)
| Foreign (cls msg : string).

Inductive Result (A : Type) : Type :=
| Ok (a : A)
| Raise (e : Exn).
Arguments Ok {A} a.
Arguments Raise {A} e.

(** ** Data model *)

(** A value [json.loads] can return.  A number keeps its literal: the
    program only subscripts the value and tests membership in it. *)
#[warnings="-register-all"]
Inductive pyval : Type :=
| PNone
| PBool (b : bool)
| PNum (literal : string)
| PStr (s : string)
| PList (items : list pyval)
| PDict (items : list (string * pyval)).

Record InspectedAssignmentFromCourse := {
  asg_slug : string;
  asg_name : string;
  asg_grade : string;
  asg_submission : string;
}.

Record InspectedCourse := {
  crs_slug : string;
  crs_short_name : string;
  crs_long_name : string;
  crs_term : string;
  crs_instructors : list string;
  crs_assignments : list InspectedAssignmentFromCourse;
}.

(** [url] is annotated [str], but the locator stores whatever
    [data["pdf_attachment"]["url"]] held, so it is a [pyval]. *)
Record SubmissionFile := {
  sf_url : pyval;
  sf_ext : string;
}.

Record InspectedSubmission := {
  sub_slug : string;
  sub_files : list SubmissionFile;
}.

Record DownloadedFile := {
  df_index : nat;
  df_path : string;
  df_ext : string;
}.

Definition BASE_URL : string := "https://www.gradescope.com".

Definition SEASON_ORDER : list (string * Z) :=
  [("Spring", 0%Z); ("Summer", 1%Z); ("Fall", 2%Z)].

(** ** Dictionaries that keep insertion order *)

Module Dict.

Definition t (V : Type) : Type := list (string * V).

Fixpoint get {V} (d : t V) (k : string) : option V :=
  match d with
  | [] => None
  | (k', v) :: d' => if String.eqb k' k then Some v else get d' k
  end.

(** [d[k] = v]: a key already present keeps its place. *)
Fixpoint set {V} (d : t V) (k : string) (v : V) : t V :=
  match d with
  | [] => [(k, v)]
  | (k', v') :: d' =>
      if String.eqb k' k then (k', v) :: d' else (k', v') :: set d' k v
  end.

End Dict.

(** ** What the program reads from and writes to *)

(** What [requests] hands back: the status, the decoded body, and the body
    as [iter_content] streams it (the chunks, then possibly an error). *)
Record Response := {
  status_code : Z;
  text : string;
  chunks : list string;
  stream_error : option Exn;
}.

(** An [a] element: its [href] attribute, when it has one, and its text. *)
Record Anchor := {
  a_href : option string;
  a_text : string;
}.

(** A [tr] of the assignments table as [inspect_course] looks at it: its
    first link and the text of its score cell, when they exist. *)
Record Row := {
  row_a : option Anchor;
  row_score : option string;
}.

(** The elements [inspect_course] looks up in a course page; [None] where
    [find] returns None. *)
Record CoursePage := {
  pg_rows : option (list Row);
  pg_short_name : option string;
  pg_long_name : option string;
  pg_term : option string;
  pg_roster : option (list string);
}.

(** A file of the disk: plain bytes, or a zip archive with its entries
    (name in the archive, bytes). *)
Inductive File : Type :=
| Regular (data : string)
| Archive (entries : list (string * string)).

(** The operations of the operating system that the environment may fail. *)
Inductive Syscall : Type :=
| OpenW (path : string)
| Write (path : string) (data : string).

(** One constructor per [print] call of the source. *)
Inductive Printed : Type :=
| PBanner
| PInspecting
| PCourse (i total n_assignments n_instructors : nat) (short_name : string)
| PDownloading
| PAssignment (i_assignment n_assignments : nat) (short_name name grade : string)
| PSubmission (i total : nat) (slug : string)
| PFileCount (n : nat)
| PWarning (e : Exn)
| PException (e : Exn).

(** One constructor per [readme.write] call of the source. *)
Inductive ReadmeChunk : Type :=
| RHeader
| RTerm (term : string)
| RCourse (course : InspectedCourse)
| RAssignment (name grade : string)
| RNoFiles (slug : string)
| RSubmission (slug : string)
| RLink (file : DownloadedFile)
| RNewline.

Definition nl : string := String (ascii_of_nat 10) "".

(** [os.path.join(a, b)] of posixpath. *)
Definition path_join (a b : string) : string :=
  if String.prefix "/" b then b
  else if String.eqb a "" || PyStr.endswith a "/" then a +:+ b
  else a +:+ "/" +:+ b.

Fixpoint has_char (c : ascii) (s : string) : bool :=
  match s with
  | EmptyString => false
  | String c' rest => Ascii.eqb c' c || has_char c rest
  end.

(** The name of [path] inside the directory [root], when [path] is a file
    directly in it. *)
Definition child_name (root path : string) : option string :=
  let dir := path_join root "" in
  if String.prefix dir path
  then let name := String.substring (String.length dir)
                     (String.length path - String.length dir) path in
       if String.eqb name "" || has_char "/" name then None else Some name
  else None.

(** The entries [shutil.make_archive(_, 'zip', root)] stores: the program
    never creates a directory inside [root], so these are the regular files
    directly in it, under their names. *)
Definition dir_entries (root : string) (d : gmap string File)
  : list (string * string) :=
  omap (fun pf : string * File =>
          match pf.2 with
          | Regular data => (fun name => (name, data)) <$> child_name root pf.1
          | Archive _ => None
          end)
       (map_to_list d).

(** [shutil.make_archive(base_name, 'zip', _)] names the archive so. *)
Definition archive_name (base_name : string) : string := base_name +:+ ".zip".


(** ** The pure parts of the program *)

(** [zip_file_argument], the type of the [--output] argument. *)
Definition zip_file_argument (arg : string) : Result string :=
  if PyStr.endswith arg ".zip"
  then Ok (PyStr.removesuffix arg ".zip")
  else Raise (ArgumentTypeError "ZIP file path must have the .zip extension").

(** [l[-k]], raising IndexError out of range. *)
Definition index_from_end {A} (l : list A) (k : nat) : Result A :=
  match PyStr.nth_from_end l k with
  | Some x => Ok x
  | None => Raise IndexError
  end.

(** [tag['href']]: a tag without the attribute raises KeyError. *)
Definition href (a : Anchor) : Result string :=
  match a_href a with
  | Some h => Ok h
  | None => Raise (KeyError "href")
  end.

(** [find(...).attr] on a lookup that may have found nothing: [find]
    returns None then, and reading the attribute [attr] of None raises
    AttributeError with the message of CPython. *)
Definition found {A} (attr : string) (o : option A) : Result A :=
  match o with
  | Some x => Ok x
  | None =>
      Raise (Foreign "AttributeError"
               ("'NoneType' object has no attribute '" +:+ attr +:+ "'"))
  end.

(** [v[key]] for a string [key], and [needle in v]. *)
Definition py_getitem (v : pyval) (key : string) : Result pyval :=
  match v with
  | PDict items =>
      match Dict.get items key with
      | Some x => Ok x
      | None => Raise (KeyError key)
      end
  | _ => Raise TypeError
  end.

Definition py_contains (needle : string) (v : pyval) : Result bool :=
  match v with
  | PStr s => Ok (PyStr.contains needle s)
  | PList items =>
      Ok (existsb (fun x => match x with
                            | PStr s => String.eqb s needle
                            | _ => false
                            end) items)
  | PDict items => Ok (existsb (fun kv => String.eqb kv.1 needle) items)
  | _ => Raise TypeError
  end.

Definition UPLOADS : string := "https://production-gradescope-uploads".

(** The [except:] branch of the locator, line 148 of the source. *)
Definition fallback_link (response_text : string) : string :=
  default ""
    (head (PyStr.split "&quot"
             (UPLOADS +:+ PyStr.join (tail (PyStr.split UPLOADS response_text))))).

(** The link as the specification words the fallback: the text from the
    first occurrence of the upload host's prefix up to the next "&quot"
    (to the end when there is none); [None] when the prefix does not
    occur. *)
Fixpoint from_first (sub s : string) : option string :=
  if String.prefix sub s then Some s
  else match s with
       | EmptyString => None
       | String _ rest => from_first sub rest
       end.

Fixpoint until_first (sub s : string) : string :=
  if String.prefix sub s then ""
  else match s with
       | EmptyString => ""
       | String c rest => String c (until_first sub rest)
       end.

Definition spec_fallback_link (response_text : string) : option string :=
  until_first "&quot" <$> from_first UPLOADS response_text.

Definition submission_url (course : InspectedCourse)
    (assignment : InspectedAssignmentFromCourse) : string :=
  BASE_URL +:+ "/courses/" +:+ crs_slug course
    +:+ "/assignments/" +:+ asg_slug assignment
    +:+ "/submissions/" +:+ asg_submission assignment.

(** The body of [term_chrono_index]'s [try]. *)
Definition parse_term (term : string) : Result (Z * Z) :=
  match PyStr.split_ws term with
  | [season; year] =>
      match PyInt.parse year with
      | None => Raise ValueError
      | Some y =>
          match Dict.get SEASON_ORDER season with
          | Some rank => Ok (y, rank)
          | None => Raise (KeyError season)
          end
      end
  | _ => Raise ValueError
  end.

(** The key a term is sorted by. *)
Definition term_key (term : string) : Z * Z :=
  match parse_term term with
  | Ok k => k
  | Raise _ => (0, 0)%Z
  end.

(** The order of Python on pairs of integers. *)
Definition key_lt (a b : Z * Z) : bool :=
  (a.1 <? b.1)%Z || ((a.1 =? b.1)%Z && (a.2 <? b.2)%Z).

Definition key_le (a b : Z * Z) : Prop := key_lt b a = false.

Definition keyed_le {A} (x y : (Z * Z) * A) : Prop := key_le x.1 y.1.

(** [sorted] is stable: among equal keys the input order stays.  An
    element goes in front of the first one whose key is not smaller. *)
Fixpoint insert_keyed {A} (x : (Z * Z) * A) (l : list ((Z * Z) * A))
  : list ((Z * Z) * A) :=
  match l with
  | [] => [x]
  | y :: l' => if key_lt y.1 x.1 then y :: insert_keyed x l' else x :: l
  end.

Definition sort_keyed {A} (l : list ((Z * Z) * A)) : list ((Z * Z) * A) :=
  foldr insert_keyed [] l.

(** The first loop of [sort_courses]. *)
Definition group_by_term (courses : list InspectedCourse)
  : Dict.t (list InspectedCourse) :=
  foldl (fun by_term course =>
           Dict.set by_term (crs_term course)
             (default [] (Dict.get by_term (crs_term course)) ++ [course]))
        [] courses.

(** The name [download] gives a file. *)
Definition filename_of (course assignment slug : string) (index : nat)
    (ext : string) : string :=
  course +:+ "-" +:+ assignment +:+ "-" +:+ slug +:+ "-"
    +:+ PyStr.of_nat (index + 1) +:+ "." +:+ ext.

(** The text each [readme.write] adds. *)
Definition render_link (file : DownloadedFile) : string :=
  "[" +:+ df_ext file +:+ "-" +:+ PyStr.of_nat (df_index file) +:+ "]("
    +:+ df_path file +:+ ") ".

Definition render_chunk (version stamp : string) (c : ReadmeChunk) : string :=
  match c with
  | RHeader =>
      "# Gradescope Submissions" +:+ nl +:+ nl
      +:+ "[henryleberre/gsout](https://github.com/henryleberre/gsout) version "
      +:+ version +:+ nl
      +:+ "exported your gradescope submissions on " +:+ stamp +:+ "." +:+ nl +:+ nl
  | RTerm term => "## " +:+ term +:+ nl +:+ nl
  | RCourse course =>
      "### [" +:+ crs_short_name course +:+ "](" +:+ BASE_URL +:+ "/courses/"
      +:+ crs_slug course +:+ "): " +:+ crs_long_name course +:+ nl +:+ nl
      +:+ "**Instructors:**" +:+ nl +:+ nl
      +:+ String.concat nl (map (fun r => "- " +:+ r) (crs_instructors course))
      +:+ nl +:+ nl +:+ "**Assignments:**" +:+ nl
  | RAssignment name grade => "- " +:+ name +:+ " (" +:+ grade +:+ ")" +:+ nl
  | RNoFiles slug => "  * Submission: " +:+ slug +:+ " (no files)" +:+ nl
  | RSubmission slug => "  * Submission: " +:+ slug +:+ " "
  | RLink file => render_link file
  | RNewline => nl
  end.

Definition render_readme (version stamp : string) (cs : list ReadmeChunk)
  : string :=
  PyStr.join (map (render_chunk version stamp) cs).

(** The files the README links to. *)
Definition readme_links (cs : list ReadmeChunk) : list DownloadedFile :=
  omap (fun c => match c with RLink f => Some f | _ => None end) cs.

(** The [(i_assignment, n_assignments)] of the per-assignment progress
    lines of an output. *)
Definition progress_lines (out : list Printed) : list (nat * nat) :=
  omap (fun p => match p with
                 | PAssignment i n _ _ _ => Some (i, n)
                 | _ => None
                 end) out.

(** ** The world

    The state a run reads and changes: the environment (the server and the
    operating system), the files of the disk by path, what was printed, and
    what was written to the README that is open. *)

Record World (Env : Type) := mkWorld {
  env : Env;
  disk : gmap string File;
  stdout : list Printed;
  readme : list ReadmeChunk;
}.
Arguments mkWorld {Env} env disk stdout readme.
Arguments env {Env} w.
Arguments disk {Env} w.
Arguments stdout {Env} w.
Arguments readme {Env} w.

(** ** A scripted environment

    A server that answers the requests with a fixed list of results, in the
    order the requests arrive, and an operating system that fails the
    system calls a second list names.  It runs the program on concrete
    inputs. *)

Module Script.

Record Env := {
  answers : list (Result Response);
  faults : list (option Exn);
}.

Definition requests_get (_ : pyval) (_ : bool) (e : Env)
  : Result Response * Env :=
  match answers e with
  | [] => (Raise (Foreign "ConnectionError" "no answer"), e)
  | r :: rest => (r, {| answers := rest; faults := faults e |})
  end.

Definition os_fault (_ : Syscall) (e : Env) : option Exn * Env :=
  match faults e with
  | [] => (None, e)
  | f :: rest => (f, {| answers := answers e; faults := rest |})
  end.

Definition quote : string := String (ascii_of_nat 34) "".

(** One JSON document, and a decoder that knows it and a second one whose
    [url] is a number. *)
Definition attachment_json (url : string) : string :=
  "{" +:+ quote +:+ "pdf_attachment" +:+ quote +:+ ": {" +:+ quote +:+ "url"
  +:+ quote +:+ ": " +:+ quote +:+ url +:+ quote +:+ "}}".

Definition S3_PDF : string :=
  "https://production-gradescope-uploads.s3.amazonaws.com/file.pdf".

Definition json_loads (s : string) : Result pyval :=
  if String.eqb s (attachment_json S3_PDF)
  then Ok (PDict [("pdf_attachment", PDict [("url", PStr S3_PDF)])])
  else if String.eqb s "{}" then Ok (PDict [])
  else if String.eqb s "7" then Ok (PNum "7")
  else Raise (Foreign "JSONDecodeError" "Expecting value").

Definition page (body : string) : Response :=
  {| status_code := 200; text := body; chunks := [body]; stream_error := None |}.

Definition not_found : Response :=
  {| status_code := 404; text := "Not Found"; chunks := ["Not Found"];
     stream_error := None |}.

Definition world (answers : list (Result Response))
    (faults : list (option Exn)) : World Env :=
  mkWorld {| answers := answers; faults := faults |} ∅ [] [].

Definition course (slug term : string)
    (assignments : list InspectedAssignmentFromCourse) : InspectedCourse :=
  {| crs_slug := slug; crs_short_name := slug; crs_long_name := slug;
     crs_term := term; crs_instructors := []; crs_assignments := assignments |}.

Definition assignment (slug submission : string)
  : InspectedAssignmentFromCourse :=
  {| asg_slug := slug; asg_name := slug; asg_grade := "1 / 1";
     asg_submission := submission |}.

Definition candidate (url ext : string) : SubmissionFile :=
  {| sf_url := PStr url; sf_ext := ext |}.

(** A dashboard with one course, whose page lists one graded assignment
    and a header row. *)
Definition soup_course_boxes (html : string) : list Anchor :=
  if String.eqb html "dashboard"
  then [ {| a_href := Some "/courses/101"; a_text := "CS 101" |} ]
  else [].

Definition soup_course_page (html : string) : CoursePage :=
  if String.eqb html "course 101"
  then {| pg_rows := Some
            [ {| row_a := None; row_score := None |};
              {| row_a := Some
                   {| a_href := Some "/courses/101/assignments/7/submissions/55";
                      a_text := " Homework 1 " |};
                 row_score := Some "10.0 / 10.0" |} ];
          pg_short_name := Some "CS 101";
          pg_long_name := Some "Introduction";
          pg_term := Some " Fall 2023 ";
          pg_roster := Some ["Ada"; "Ada"] |}
  else {| pg_rows := None; pg_short_name := None; pg_long_name := None;
          pg_term := None; pg_roster := None |}.

(** The answers of a whole run: the dashboard, the course page, the
    submission page, then the three candidates: missing, served, timed
    out. *)
Definition session : list (Result Response) :=
  [Ok (page "dashboard"); Ok (page "course 101");
   Ok (page (attachment_json S3_PDF));
   Ok not_found; Ok (page "zipdata"); Raise (Foreign "Timeout" "timed out")].

(** Sample data: three courses over two terms and one with a term that
    does not parse, an assignment, and a submission with three
    candidates. *)
Definition algorithms : InspectedCourse := course "algorithms" "Fall 2023" [].
Definition databases : InspectedCourse := course "databases" "Fall 2023" [].
Definition calculus : InspectedCourse := course "calculus" "Spring 2022" [].
Definition seminar : InspectedCourse := course "seminar" "Autumn 2023" [].

Definition homework : InspectedAssignmentFromCourse := assignment "7" "55".

Definition three_candidates : InspectedSubmission :=
  {| sub_slug := "55";
     sub_files := [candidate "https://host/55.pdf" "pdf";
                   candidate "https://host/55.zip" "zip";
                   candidate "https://host/extra.pdf" "pdf"] |}.

Definition timeout : Exn := Foreign "Timeout" "timed out".

End Script.

Section Gsout.

Set Default Proof Using "Type".

(** The environment: the state of the server and of the operating system,
    and how a request or a system call reads and changes it. *)
Context {Env : Type}.
Variable requests_get : pyval -> bool -> Env -> Result Response * Env.
Variable os_fault : Syscall -> Env -> option Exn * Env.

(** [json.loads], and the lookups of the HTML parser on the dashboard (the
    [a] elements of class courseBox) and on a course page. *)
Variable json_loads : string -> Result pyval.
Variable soup_course_boxes : string -> list Anchor.
Variable soup_course_page : string -> CoursePage.

(** The order in which a [set] built from the given additions iterates. *)
Variable set_elements : list string -> list string.

(** The package version, the time stamp of the README's header, the
    staging directory [tempfile] creates and [args.output]. *)
Variable VERSION : string.
Variable stamp : string.
Variable tmpdir : string.
Variable output : string.

(** Computations that read and change the world and may raise. *)
Definition M (A : Type) : Type := World Env -> Result A * World Env.

#[local] Instance M_ret : MRet M := fun A a w => (Ok a, w).

#[local] Instance M_bind : MBind M := fun A B f m w =>
  match m w with
  | (Ok a, w') => f a w'
  | (Raise e, w') => (Raise e, w')
  end.

Definition raise {A} (e : Exn) : M A := fun w => (Raise e, w).

Definition lift {A} (r : Result A) : M A := fun w => (r, w).

(** [try: body except: handler]. *)
Definition try_except {A} (body : M A) (handler : Exn -> M A) : M A :=
  fun w =>
    match body w with
    | (Ok a, w') => (Ok a, w')
    | (Raise e, w') => handler e w'
    end.

(** [for x in l: s = body(s, x)], and the same over [enumerate(l)]
    counting from [i]. *)
Fixpoint for_each {A St} (l : list A) (s : St) (body : St -> A -> M St)
  : M St :=
  match l with
  | [] => mret s
  | x :: l' => s' ← body s x; for_each l' s' body
  end.

Fixpoint for_enumerate {A St} (i : nat) (l : list A) (s : St)
    (body : St -> nat -> A -> M St) : M St :=
  match l with
  | [] => mret s
  | x :: l' => s' ← body s i x; for_enumerate (S i) l' s' body
  end.

Definition print (p : Printed) : M unit := fun w =>
  (Ok tt, mkWorld (env w) (disk w) (stdout w ++ [p]) (readme w)).

Definition readme_write (c : ReadmeChunk) : M unit := fun w =>
  (Ok tt, mkWorld (env w) (disk w) (stdout w) (readme w ++ [c])).

Definition session_get (url : pyval) (stream : bool) : M Response := fun w =>
  let (r, e) := requests_get url stream (env w) in
  (r, mkWorld e (disk w) (stdout w) (readme w)).

(** A system call: the environment decides whether it raises; when it does
    not, the disk changes by [effect]. *)
Definition syscall (c : Syscall)
    (effect : gmap string File -> gmap string File) : M unit := fun w =>
  match os_fault c (env w) with
  | (Some e, en) => (Raise e, mkWorld en (disk w) (stdout w) (readme w))
  | (None, en) => (Ok tt, mkWorld en (effect (disk w)) (stdout w) (readme w))
  end.

(** [open(path, 'wb')] creates or empties the file; [file.write(data)]
    appends to it. *)
Definition open_w (path : string) : M unit :=
  syscall (OpenW path) (fun d => <[path := Regular ""]> d).

Definition file_write (path data : string) : M unit :=
  syscall (Write path data)
    (fun d => match d !! path with
              | Some (Regular old) => <[path := Regular (old +:+ data)]> d
              | _ => d
              end).

(** ** The program *)

Definition list_courses : M (list string) :=
  response ← session_get (PStr BASE_URL) false;
  let webpage := soup_course_boxes (text response) in
  results ← for_each webpage [] (fun results class_link =>
    h ← lift (href class_link);
    last ← lift (index_from_end (PyStr.split "/" h) 1);
    mret (results ++ [PyStr.strip last]));
  mret (set_elements results).

Definition inspect_row (assignments : list InspectedAssignmentFromCourse)
    (row : Row) : M (list InspectedAssignmentFromCourse) :=
  match row_a row, row_score row with
  | Some a, Some score =>
      h ← lift (href a);
      slug ← lift (index_from_end (PyStr.split "/" h) 3);
      submission ← lift (index_from_end (PyStr.split "/" h) 1);
      mret (assignments ++ [ {| asg_slug := PyStr.strip slug;
                                asg_name := PyStr.strip (a_text a);
                                asg_grade := PyStr.strip score;
                                asg_submission := PyStr.strip submission |} ])
  | _, _ => mret assignments
  end.

Definition inspect_course (slug : string) : M InspectedCourse :=
  response ← session_get (PStr (BASE_URL +:+ "/courses/" +:+ slug)) false;
  let webpage := soup_course_page (text response) in
  rows ← lift (found "find_all" (pg_rows webpage));
  assignments ← for_each rows [] inspect_row;
  short_name ← lift (found "text" (pg_short_name webpage));
  long_name ← lift (found "text" (pg_long_name webpage));
  term ← lift (found "text" (pg_term webpage));
  roster ← lift (found "find_all" (pg_roster webpage));
  mret {| crs_slug := slug;
          crs_short_name := PyStr.strip short_name;
          crs_long_name := PyStr.strip long_name;
          crs_term := PyStr.strip term;
          crs_instructors := set_elements (map PyStr.strip roster);
          crs_assignments := assignments |}.

(** The two candidates built from the naming convention. *)
Definition guess (course : InspectedCourse)
    (assignment : InspectedAssignmentFromCourse) (ext : string)
  : SubmissionFile :=
  {| sf_url := PStr (submission_url course assignment +:+ "." +:+ ext);
     sf_ext := ext |}.

(** Lines 145 and 146: the link read from the JSON. *)
Definition json_link (response_text : string) : Result pyval :=
  match json_loads response_text with
  | Ok data =>
      match py_getitem data "pdf_attachment" with
      | Ok attachment => py_getitem attachment "url"
      | Raise e => Raise e
      end
  | Raise e => Raise e
  end.

(** Lines 144 to 148: the link from the JSON, or else from the raw text. *)
Definition extract_link (response : Response) : M pyval :=
  try_except (lift (json_link (text response)))
    (fun _ => mret (PStr (fallback_link (text response)))).

(** Lines 142 to 154: the body of the outer [try]. *)
Definition extra_link (course : InspectedCourse)
    (assignment : InspectedAssignmentFromCourse)
    (files : list SubmissionFile) : M (list SubmissionFile) :=
  response ← session_get (PStr (submission_url course assignment)) false;
  link ← extract_link response;
  is_pdf ← lift (py_contains "pdf" link);
  if is_pdf : bool
  then mret (files ++ [ {| sf_url := link; sf_ext := "pdf" |} ])
  else mret files.

Definition list_submissions (course : InspectedCourse)
    (assignment : InspectedAssignmentFromCourse)
  : M (list InspectedSubmission) :=
  files ← for_each ["pdf"; "zip"] [] (fun files ext =>
    mret (files ++ [guess course assignment ext]));
  files ← try_except (extra_link course assignment files)
    (fun e => print (PException e);; mret files);
  mret [ {| sub_slug := asg_submission assignment; sub_files := files |} ].

(** Lines 180 to 182: the body streamed to a new file. *)
Definition save_body (path : string) (response : Response) : M unit :=
  open_w path;;
  for_each (chunks response) tt (fun _ chunk => file_write path chunk);;
  match stream_error response with
  | Some e => raise e
  | None => mret tt
  end.

(** Lines 175 to 188: the body of [download]'s [try]. *)
Definition fetch (out_dir course assignment : string)
    (submission : InspectedSubmission) (filenames : list DownloadedFile)
    (index : nat) (link : SubmissionFile) : M (list DownloadedFile) :=
  let filename :=
    filename_of course assignment (sub_slug submission) index (sf_ext link) in
  response ← session_get (sf_url link) true;
  if negb (status_code response =? 200)%Z
  then mret filenames
  else
    save_body (path_join out_dir filename) response;;
    mret (filenames ++ [ {| df_index := index + 1;
                            df_path := filename;
                            df_ext := sf_ext link |} ]).

Definition download_step (out_dir course assignment : string)
    (submission : InspectedSubmission) (filenames : list DownloadedFile)
    (index : nat) (link : SubmissionFile) : M (list DownloadedFile) :=
  try_except (fetch out_dir course assignment submission filenames index link)
    (fun e => print (PException e);; mret filenames).

Definition download (out_dir course assignment : string)
    (submission : InspectedSubmission) : M (list DownloadedFile) :=
  for_enumerate 0 (sub_files submission) []
    (download_step out_dir course assignment submission).

Definition term_chrono_index (term : string) : M (Z * Z) :=
  try_except (lift (parse_term term))
    (fun e => print (PWarning e);; mret (0, 0)%Z).

(** [sorted(l, key=key)]: the keys are computed first, one call per
    element in order, then the elements are sorted by them. *)
Definition sorted {A} (l : list A) (key : A -> M (Z * Z)) : M (list A) :=
  keys ← for_each l [] (fun keys x => k ← key x; mret (keys ++ [k]));
  mret (map snd (sort_keyed (zip keys l))).

Definition sort_courses (courses : list InspectedCourse)
  : M (list (string * list InspectedCourse)) :=
  let by_term := group_by_term courses in
  sorted by_term (fun item => term_chrono_index item.1).

(** Lines 229 to 233: every course of the dashboard inspected in turn. *)
Definition inspect_all : M (list InspectedCourse) :=
  course_slugs ← list_courses;
  for_enumerate 0 course_slugs [] (fun courses i slug =>
    course ← inspect_course slug;
    print (PCourse (i + 1) (length course_slugs)
             (length (crs_assignments course))
             (length (crs_instructors course)) (crs_short_name course));;
    mret (courses ++ [course])).

(** Line 236. *)
Definition count_assignments (courses : list InspectedCourse) : nat :=
  sum_list (map (fun course => length (crs_assignments course)) courses).

(** Lines 260 to 274: one submission downloaded and reported.  The state
    of the loop is [i_assignment]. *)
Definition export_submission (course : InspectedCourse)
    (assignment : InspectedAssignmentFromCourse) (total : nat)
    (i_assignment i : nat) (submission : InspectedSubmission) : M nat :=
  print (PSubmission (i + 1) total (sub_slug submission));;
  files ← download tmpdir (crs_slug course) (asg_slug assignment) submission;
  print (PFileCount (length files));;
  (if (length files =? 0)%nat
   then readme_write (RNoFiles (sub_slug submission))
   else readme_write (RSubmission (sub_slug submission)));;
  for_each files tt (fun _ file => readme_write (RLink file));;
  readme_write RNewline;;
  mret (i_assignment + 1).

(** Lines 254 to 274. *)
Definition export_assignment (n_assignments : nat) (course : InspectedCourse)
    (i_assignment : nat) (assignment : InspectedAssignmentFromCourse)
  : M nat :=
  print (PAssignment i_assignment n_assignments (crs_short_name course)
           (asg_name assignment) (asg_grade assignment));;
  readme_write (RAssignment (asg_name assignment) (asg_grade assignment));;
  submissions ← list_submissions course assignment;
  for_enumerate 0 submissions i_assignment
    (export_submission course assignment (length submissions)).

(** Lines 243 to 274. *)
Definition export_course (n_assignments : nat) (i_assignment : nat)
    (course : InspectedCourse) : M nat :=
  readme_write (RCourse course);;
  for_each (crs_assignments course) i_assignment
    (export_assignment n_assignments course).

(** Lines 240 to 274. *)
Definition export_term (n_assignments : nat) (i_assignment : nat)
    (group : string * list InspectedCourse) : M nat :=
  readme_write (RTerm group.1);;
  for_each group.2 i_assignment (export_course n_assignments).

(** Lines 235 to 274; returns the final [i_assignment]. *)
Definition export_all (courses : list InspectedCourse) : M nat :=
  let i_assignment := 1 in
  let n_assignments := count_assignments courses in
  print PDownloading;;
  groups ← sort_courses courses;
  for_each groups i_assignment (export_term n_assignments).

Definition readme_path : string := path_join tmpdir "README.md".

(** Leaving [with open(...) as readme]: the text written so far is the
    file's content. *)
Definition readme_close : M unit := fun w =>
  (Ok tt, mkWorld (env w)
            (<[readme_path := Regular (render_readme VERSION stamp (readme w))]>
               (disk w))
            (stdout w) (readme w)).

(** [shutil.make_archive(base_name, 'zip', root_dir)]: the archive file is
    created with the files of [root_dir] as they are at the call.  The call
    returns the path of the archive, which [main] does not use; the model
    returns nothing. *)
Definition make_archive (base_name root_dir : string) : M unit := fun w =>
  let entries := dir_entries root_dir (disk w) in
  syscall (OpenW (archive_name base_name))
    (fun d => <[archive_name base_name := Archive entries]> d) w.

(** [open(readme_path, "w")]: the file is created or emptied, and nothing
    is written yet. *)
Definition readme_open : M unit := fun w =>
  match open_w readme_path w with
  | (Ok _, w') => (Ok tt, mkWorld (env w') (disk w') (stdout w') [])
  | (Raise e, w') => (Raise e, w')
  end.

(** [body] followed by [cleanup], also when [body] raises: what leaving a
    [with] block does. *)
Definition finally {A} (body : M A) (cleanup : M unit) : M A := fun w =>
  let (r, w1) := body w in
  match cleanup w1 with
  | (Ok _, w2) => (r, w2)
  | (Raise e, w2) => (Raise e, w2)
  end.

(** [with open(readme_path, "w") as readme: body]: the file is closed when
    the block is left, by its end or by an exception. *)
Definition with_readme {A} (body : M A) : M A :=
  readme_open;; finally body readme_close.

(** Lines 216 to 228, up to the listing of the courses. *)
Definition startup : M unit :=
  print PBanner;;
  readme_open;;
  readme_write RHeader;;
  print PInspecting.

Definition main : M unit :=
  print PBanner;;
  with_readme (
    readme_write RHeader;;
    print PInspecting;;
    courses ← inspect_all;
    export_all courses);;
  make_archive output tmpdir;;
  mret tt.

(** ** Notions the statements use *)

(** What [sort_courses] returns, without the warnings it prints. *)
Definition sorted_groups (courses : list InspectedCourse)
  : list (string * list InspectedCourse) :=
  map snd (sort_keyed (map (fun item => (term_key item.1, item))
                           (group_by_term courses))).

(** The warning [term_chrono_index] prints for a term, if any. *)
Definition term_warning (term : string) : list Printed :=
  match parse_term term with
  | Ok _ => []
  | Raise e => [PWarning e]
  end.

Definition term_warnings (courses : list InspectedCourse) : list Printed :=
  concat (map (fun item : string * list InspectedCourse => term_warning item.1)
              (group_by_term courses)).

Definition add_stdout (w : World Env) (log : list Printed) : World Env :=
  mkWorld (env w) (disk w) (stdout w ++ log) (readme w).

(** Every regular file of [d] is still one in [d']. *)
Definition files_kept (d d' : gmap string File) : Prop :=
  forall path data, d !! path = Some (Regular data) ->
    exists data', d' !! path = Some (Regular data').

(** [w'] comes after [w] in a run that printed no progress line and wrote
    nothing to the README: used for the steps between two progress lines. *)
Record extends (w w' : World Env) : Prop := {
  ext_stdout : exists log, stdout w' = stdout w ++ log /\ progress_lines log = [];
  ext_readme : readme w' = readme w;
  ext_disk : files_kept (disk w) (disk w');
}.

Definition set_env (w : World Env) (e : Env) : World Env :=
  mkWorld e (disk w) (stdout w) (readme w).

(** The link of lines 144 to 148 for a response. *)
Definition located_link (response : Response) : pyval :=
  match json_link (text response) with
  | Ok link => link
  | Raise _ => PStr (fallback_link (text response))
  end.

(** A computation that, whatever its result, prints no progress line,
    writes nothing to the README and keeps the files of the disk. *)
Definition preserves {A} (m : M A) : Prop :=
  forall w r w', m w = (r, w') -> extends w w'.

(** [download]'s loop, resumed at candidate number [i] with the files
    collected so far. *)
Definition download_from (out_dir course assignment : string)
    (submission : InspectedSubmission) (i : nat)
    (links : list SubmissionFile) (filenames : list DownloadedFile)
  : M (list DownloadedFile) :=
  for_enumerate i links filenames
    (download_step out_dir course assignment submission).

(** The file [download] records for the candidate at position [index]. *)
Definition downloaded (course assignment : string)
    (submission : InspectedSubmission) (index : nat) (link : SubmissionFile)
  : DownloadedFile :=
  {| df_index := index + 1;
     df_path := filename_of course assignment (sub_slug submission) index
                  (sf_ext link);
     df_ext := sf_ext link |}.

Definition is_regular (d : gmap string File) (path : string) : Prop :=
  exists data, d !! path = Some (Regular data).

Definition add_readme (w : World Env) (cs : list ReadmeChunk) : World Env :=
  mkWorld (env w) (disk w) (stdout w) (readme w ++ cs).

(** A slug free of "/": a path segment. *)
Definition plain (s : string) : Prop := has_char "/" s = false.

Definition plain_assignment (a : InspectedAssignmentFromCourse) : Prop :=
  plain (asg_slug a) /\ plain (asg_submission a).

Definition plain_course (c : InspectedCourse) : Prop :=
  plain (crs_slug c) /\ Forall plain_assignment (crs_assignments c).

(** Every file the README links to is a regular file of the staging
    directory, under the linked name. *)
Definition links_ok (w : World Env) : Prop :=
  forall f, f ∈ readme_links (readme w) ->
    plain (df_path f) /\ df_path f <> "" /\
    is_regular (disk w) (path_join tmpdir (df_path f)).

(** [w'] comes after [w] in a run that printed the progress lines [lines],
    kept the files, and, when [ok] holds of the slugs involved, linked only
    to files of the staging directory. *)
Record advanced (ok : Prop) (w w' : World Env) (lines : list (nat * nat))
  : Prop := {
  adv_progress : progress_lines (stdout w') = progress_lines (stdout w) ++ lines;
  adv_disk : files_kept (disk w) (disk w');
  adv_links : ok -> links_ok w -> links_ok w';
}.

(** The progress lines of a run over [n] assignments that starts with the
    counter at [i]. *)
Definition lines_from (total i n : nat) : list (nat * nat) :=
  map (fun j => (j, total)) (seq i n).

(** ** Tactics *)

(** Unfolds the binds and returns at the head of a run. *)
Ltac run :=
  repeat (progress (unfold mbind, M_bind, mret, M_ret, lift, raise, try_except;
                    cbn beta iota delta [for_each for_enumerate app])).

(** Two equations with one left-hand side have equal right-hand sides. *)
Ltac same_lhs :=
  simplify_eq;
  repeat (match goal with
          | H1 : ?x = _, H2 : ?x = _ |- _ => rewrite H1 in H2
          end; simplify_eq).


(** ** Further notions: the parts of a run the statements below speak of *)

(** Whether a term parses into a key. *)
Definition parses (term : string) : bool :=
  match parse_term term with
  | Ok _ => true
  | Raise _ => false
  end.

(** [a] stands before [b] in [l]. *)
Definition before {A} (a b : A) (l : list A) : Prop :=
  exists l1 l2 l3, l = l1 ++ a :: l2 ++ b :: l3.

(** [href.split('/')[-1]]. *)
Definition last_segment (h : string) : string :=
  default "" (last (PyStr.split "/" h)).

(** The slug [list_courses] reads off the link of a course box. *)
Definition course_slug (h : string) : string := PyStr.strip (last_segment h).

(** The rows [inspect_course] keeps: those with a link and a score. *)
Definition graded_rows (rows : list Row) : list (Anchor * string) :=
  omap (fun row => match row_a row, row_score row with
                   | Some a, Some score => Some (a, score)
                   | _, _ => None
                   end) rows.

(** The assignment read off a graded row. *)
Definition assignment_of (graded : Anchor * string)
    (assignment : InspectedAssignmentFromCourse) : Prop :=
  exists h slug,
    a_href graded.1 = Some h /\
    index_from_end (PyStr.split "/" h) 3 = Ok slug /\
    assignment = {| asg_slug := PyStr.strip slug;
                    asg_name := PyStr.strip (a_text graded.1);
                    asg_grade := PyStr.strip graded.2;
                    asg_submission := PyStr.strip (last_segment h) |}.

(** The line [main] prints for the course inspected at position [i]. *)
Definition course_line (total i : nat) (course : InspectedCourse) : Printed :=
  PCourse (i + 1) total (length (crs_assignments course))
    (length (crs_instructors course)) (crs_short_name course).

(** A computation that leaves the disk and the README alone, whatever its
    result. *)
Definition requests_only {A} (m : M A) : Prop :=
  forall w r w', m w = (r, w') -> disk w' = disk w /\ readme w' = readme w.

(** A computation that changes nothing at all. *)
Definition effect_free {A} (m : M A) : Prop := forall w, (m w).2 = w.

(** A computation that raises only exceptions of [P]. *)
Definition raises_only {A} (P : Exn -> Prop) (m : M A) : Prop :=
  forall w e w', m w = (Raise e, w') -> P e.

(** What [inspect_course] can raise once its request is answered: the
    AttributeError of a lookup that found nothing, on [find_all] for the
    table and the roster and on [text] for the sidebar texts and the term;
    the KeyError of a link without href; the IndexError of a link with fewer
    than three segments. *)
Definition scraping_error (e : Exn) : Prop :=
  e = Foreign "AttributeError" "'NoneType' object has no attribute 'find_all'"
  \/ e = Foreign "AttributeError" "'NoneType' object has no attribute 'text'"
  \/ e = KeyError "href" \/ e = IndexError.

(** Every character of [s] satisfies [P]. *)
Fixpoint all_chars (P : ascii -> bool) (s : string) : bool :=
  match s with
  | EmptyString => true
  | String c rest => P c && all_chars P rest
  end.

Definition is_digit (c : ascii) : bool :=
  match PyInt.digit c with
  | Some _ => true
  | None => false
  end.

(** The path [download] writes the candidate at position [index] to. *)
Definition candidate_path (out_dir course assignment : string)
    (submission : InspectedSubmission) (index : nat) (link : SubmissionFile)
  : string :=
  path_join out_dir
    (filename_of course assignment (sub_slug submission) index (sf_ext link)).

(** The lines that report a failure: an exception caught, or a term that
    cannot be sorted. *)
Definition is_notice (p : Printed) : bool :=
  match p with
  | PException _ | PWarning _ => true
  | _ => false
  end.

(** The lines that print an exception caught. *)
Definition is_exception (p : Printed) : bool :=
  match p with
  | PException _ => true
  | _ => false
  end.

(** A computation that writes to the paths of [S] at most, prints nothing
    but exceptions it caught and leaves the README alone. *)
Definition writes_only {A} (S : string -> Prop) (m : M A) : Prop :=
  forall w r w', m w = (r, w') ->
    readme w' = readme w /\
    (exists log, stdout w' = stdout w ++ log /\
                 forallb is_exception log = true) /\
    forall q, ~ S q -> disk w' !! q = disk w !! q.

(** The headings of a README: its header, terms, courses and
    assignments. *)
Definition outline (cs : list ReadmeChunk) : list ReadmeChunk :=
  omap (fun c => match c with
                 | RHeader | RTerm _ | RCourse _ | RAssignment _ _ => Some c
                 | _ => None
                 end) cs.

(** The headings [main] writes for a course, and for a term. *)
Definition course_outline (course : InspectedCourse) : list ReadmeChunk :=
  RCourse course
  :: map (fun a => RAssignment (asg_name a) (asg_grade a))
       (crs_assignments course).

Definition term_outline (group : string * list InspectedCourse)
  : list ReadmeChunk :=
  RTerm group.1 :: concat (map course_outline group.2).

(** The assignments of the groups, in the order [main] exports them. *)
Definition exported_assignments (groups : list (string * list InspectedCourse))
  : list InspectedAssignmentFromCourse :=
  concat (map crs_assignments (concat groups.*2)).

(** The submission lines of an output, and the numbers of files it
    reports. *)
Definition submission_lines (out : list Printed) : list (nat * nat * string) :=
  omap (fun p => match p with
                 | PSubmission i total slug => Some (i, total, slug)
                 | _ => None
                 end) out.

Definition file_counts (out : list Printed) : list nat :=
  omap (fun p => match p with
                 | PFileCount n => Some n
                 | _ => None
                 end) out.

(** The number of links at the head of a piece of README. *)
Fixpoint links_ahead (cs : list ReadmeChunk) : nat :=
  match cs with
  | RLink _ :: cs' => S (links_ahead cs')
  | _ => 0
  end.

(** The entries of the submissions in a README: the submission, whether
    the entry says "(no files)", and the number of links that follow it. *)
Fixpoint submission_entries (cs : list ReadmeChunk)
  : list (string * bool * nat) :=
  match cs with
  | [] => []
  | RNoFiles slug :: cs' =>
      (slug, true, links_ahead cs') :: submission_entries cs'
  | RSubmission slug :: cs' =>
      (slug, false, links_ahead cs') :: submission_entries cs'
  | _ :: cs' => submission_entries cs'
  end.

(** [w'] comes after [w] in a run that wrote the headings [heads] and
    reported the submissions [subs], each on a line numbered 1 of 1 and each
    with a README entry that agrees with the number of files printed. *)
Definition reported (w w' : World Env) (heads : list ReadmeChunk)
    (subs : list string) : Prop :=
  exists added log counts,
    readme w' = readme w ++ added /\
    stdout w' = stdout w ++ log /\
    links_ahead added = 0 /\
    outline added = heads /\
    submission_lines log = map (fun slug => (1, 1, slug)) subs /\
    file_counts log = counts /\
    length counts = length subs /\
    submission_entries added
    = zip_with (fun slug n => (slug, (n =? 0)%nat, n)) subs counts.

(** ** The monad's equations *)

Lemma run_bind {A B} (m : M A) (f : A -> M B) (w : World Env) :
  (m ≫= f) w = match m w with
               | (Ok a, w') => f a w'
               | (Raise e, w') => (Raise e, w')
               end.
Proof. reflexivity. Qed.

Lemma run_ret {A} (a : A) (w : World Env) : mret (M := M) a w = (Ok a, w).
Proof. reflexivity. Qed.

Lemma add_stdout_nil (w : World Env) : add_stdout w [] = w.
Proof. destruct w. unfold add_stdout. simpl. by rewrite app_nil_r. Qed.

Lemma add_stdout_app (w : World Env) (l1 l2 : list Printed) :
  add_stdout (add_stdout w l1) l2 = add_stdout w (l1 ++ l2).
Proof. unfold add_stdout. simpl. by rewrite <- app_assoc. Qed.

(** ** The order on keys *)

Lemma key_lt_spec (a b : Z * Z) :
  key_lt a b = true <->
  (a.1 < b.1 \/ (a.1 = b.1 /\ a.2 < b.2))%Z.
Proof.
  unfold key_lt.
  by rewrite orb_true_iff, andb_true_iff, !Z.ltb_lt, Z.eqb_eq.
Qed.

Lemma key_le_spec (a b : Z * Z) :
  key_le a b <-> (a.1 < b.1 \/ (a.1 = b.1 /\ a.2 <= b.2))%Z.
Proof.
  unfold key_le. rewrite <- not_true_iff_false, key_lt_spec. lia.
Qed.

Lemma key_le_trans (a b c : Z * Z) : key_le a b -> key_le b c -> key_le a c.
Proof. rewrite !key_le_spec. lia. Qed.

Lemma key_lt_le (a b : Z * Z) : key_lt a b = true -> key_le a b.
Proof. rewrite key_lt_spec, key_le_spec. lia. Qed.

(** ** [sorted]: a sorted, stable rearrangement *)

Section Sorting.
Context {A : Type}.
Implicit Types (x : (Z * Z) * A) (l : list ((Z * Z) * A)).

Lemma insert_keyed_perm x l : insert_keyed x l ≡ₚ x :: l.
Proof.
  induction l as [|y l IH]; simpl; [done|].
  destruct (key_lt y.1 x.1); [|done].
  rewrite IH. apply Permutation_swap.
Qed.

Lemma sort_keyed_perm l : sort_keyed l ≡ₚ l.
Proof.
  induction l as [|x l IH]; simpl; [done|].
  unfold sort_keyed in *. simpl. by rewrite insert_keyed_perm, IH.
Qed.

Lemma insert_keyed_sorted x l :
  StronglySorted keyed_le l -> StronglySorted keyed_le (insert_keyed x l).
Proof.
  induction 1 as [|y l Hl IH Hy]; simpl.
  - repeat constructor.
  - destruct (key_lt y.1 x.1) eqn:E.
    + constructor; [done|].
      rewrite insert_keyed_perm. constructor; [|done].
      by apply key_lt_le.
    + constructor; [by constructor|].
      constructor; [exact E|].
      eapply Forall_impl; [exact Hy|].
      intros z Hz. eapply key_le_trans; [exact E|exact Hz].
Qed.

Lemma sort_keyed_sorted l : StronglySorted keyed_le (sort_keyed l).
Proof.
  induction l as [|x l IH]; [constructor|].
  by apply insert_keyed_sorted.
Qed.

End Sorting.

(** In a sorted list, an element with a strictly smaller key stands
    before. *)
Lemma sorted_lookup_lt {A} (R : relation A) (l : list A) (i j : nat) (a b : A) :
  StronglySorted R l -> l !! i = Some a -> l !! j = Some b ->
  ~ R b a -> a <> b -> i < j.
Proof.
  intros Hs Hi Hj Hnot Hne.
  destruct (decide (i < j)) as [|Hge]; [done|exfalso].
  destruct (decide (i = j)) as [->|Hij]; [congruence|].
  assert (j < i) as Hlt by lia.
  apply Hnot.
  apply take_drop_middle in Hi as Hsplit.
  rewrite <- Hsplit in Hs, Hj.
  apply (StronglySorted_app_1_elem_of R (take i l) (a :: drop (S i) l)); [done| |left].
  rewrite lookup_app_l in Hj.
  - by eapply list_elem_of_lookup_2.
  - rewrite length_take. apply lookup_lt_Some in Hi. lia.
Qed.

(** ** Dictionaries *)

Lemma dict_get_Some {V} (d : Dict.t V) (k : string) (v : V) :
  Dict.get d k = Some v -> (k, v) ∈ d.
Proof.
  induction d as [|[k' v'] d IH]; simpl; [done|].
  destruct (String.eqb_spec k' k) as [->|_].
  - intros [= ->]. left.
  - intros H. right. auto.
Qed.

Lemma dict_get_None {V} (d : Dict.t V) (k : string) :
  Dict.get d k = None -> k ∉ d.*1.
Proof.
  induction d as [|[k' v'] d IH]; simpl.
  - intros _. apply not_elem_of_nil.
  - destruct (String.eqb_spec k' k) as [->|Hne]; [done|].
    intros H. apply not_elem_of_cons. split; [congruence|auto].
Qed.

Lemma dict_set_keys {V} (d : Dict.t V) (k : string) (v : V) :
  (Dict.set d k v).*1 = if decide (k ∈ d.*1) then d.*1 else d.*1 ++ [k].
Proof.
  induction d as [|[k' v'] d IH]; [done|].
  cbn [Dict.set]. rewrite fmap_cons. cbn [fst].
  destruct (String.eqb_spec k' k) as [->|Hne].
  - rewrite fmap_cons. cbn [fst].
    destruct (decide (k ∈ k :: d.*1)) as [|H]; [reflexivity|].
    exfalso. apply H. left.
  - rewrite fmap_cons, IH. cbn [fst].
    destruct (decide (k ∈ d.*1)) as [Hin|Hout];
      destruct (decide (k ∈ k' :: d.*1)) as [Hin'|Hout']; try reflexivity.
    + exfalso. apply Hout'. by right.
    + exfalso. apply elem_of_cons in Hin' as [->|?]; done.
Qed.

Lemma dict_set_elem {V} (d : Dict.t V) (k : string) (v : V) k' v' :
  NoDup d.*1 ->
  (k', v') ∈ Dict.set d k v ->
  (k' = k /\ v' = v) \/ (k' <> k /\ (k', v') ∈ d).
Proof.
  induction d as [|[k0 v0] d IH]; simpl.
  - intros _ [= -> ->]%list_elem_of_singleton. by left.
  - intros [Hk0 Hnd]%NoDup_cons.
    destruct (String.eqb_spec k0 k) as [->|Hne].
    + intros [[= -> ->]|Hin]%elem_of_cons; [by left|].
      right. split; [|by right].
      intros ->. apply Hk0. apply list_elem_of_fmap. by exists (k, v').
    + intros [[= -> ->]|Hin]%elem_of_cons.
      * right. split; [done|left].
      * destruct (IH Hnd Hin) as [?|[? ?]]; [by left|].
        right. split; [done|by right].
Qed.

Lemma dict_set_NoDup {V} (d : Dict.t V) (k : string) (v : V) :
  NoDup d.*1 -> NoDup (Dict.set d k v).*1.
Proof.
  intros Hnd. rewrite dict_set_keys.
  destruct (decide (k ∈ d.*1)); [done|].
  apply NoDup_app. split; [done|]. split.
  - intros x Hx Hx'%list_elem_of_singleton. by subst x.
  - apply NoDup_singleton.
Qed.

(** ** [group_by_term]: each term once, with its courses as they arrived *)

Lemma filter_none {A} (P : A -> Prop) `{forall x, Decision (P x)} (l : list A) :
  (forall x, x ∈ l -> ~ P x) -> filter P l = [].
Proof.
  intros Hnone. destruct (filter P l) as [|x l'] eqn:E; [done|exfalso].
  assert (x ∈ filter P l) as [HP Hin]%list_elem_of_filter by (rewrite E; left).
  by apply (Hnone x).
Qed.

Lemma group_by_term_step (processed : list InspectedCourse)
    (d : Dict.t (list InspectedCourse)) (course : InspectedCourse) :
  let d' := Dict.set d (crs_term course)
              (default [] (Dict.get d (crs_term course)) ++ [course]) in
  NoDup d.*1 ->
  (forall t cs, (t, cs) ∈ d -> cs = filter (fun c => crs_term c = t) processed) ->
  (forall c, c ∈ processed -> crs_term c ∈ d.*1) ->
  NoDup d'.*1 /\
  (forall t cs, (t, cs) ∈ d' ->
     cs = filter (fun c => crs_term c = t) (processed ++ [course])) /\
  (forall c, c ∈ processed ++ [course] -> crs_term c ∈ d'.*1).
Proof.
  intros d' Hnd Hgroups Hkeys. subst d'.
  split; [by apply dict_set_NoDup|]. split.
  - intros t cs Hin. rewrite filter_app.
    apply dict_set_elem in Hin; [|done].
    destruct Hin as [[-> ->]|[Hne Hin]].
    + rewrite filter_cons_True, filter_nil by done. f_equal.
      destruct (Dict.get d (crs_term course)) as [cs|] eqn:Hget; simpl.
      * by apply Hgroups, dict_get_Some.
      * apply dict_get_None in Hget. symmetry. apply filter_none.
        intros c Hc Heq. apply Hget. rewrite <- Heq. by apply Hkeys.
    + rewrite filter_cons_False, filter_nil, app_nil_r by done. by apply Hgroups.
  - intros c Hc. rewrite dict_set_keys.
    apply elem_of_app in Hc as [Hc|Hc%list_elem_of_singleton].
    + destruct (decide _); [|apply elem_of_app; left]; by apply Hkeys.
    + subst c. destruct (decide _); [done|]. apply elem_of_app. right. left.
Qed.

Lemma group_by_term_fold (courses processed : list InspectedCourse)
    (d : Dict.t (list InspectedCourse)) :
  let d' := foldl (fun by_term course =>
              Dict.set by_term (crs_term course)
                (default [] (Dict.get by_term (crs_term course)) ++ [course]))
              d courses in
  NoDup d.*1 ->
  (forall t cs, (t, cs) ∈ d -> cs = filter (fun c => crs_term c = t) processed) ->
  (forall c, c ∈ processed -> crs_term c ∈ d.*1) ->
  NoDup d'.*1 /\
  (forall t cs, (t, cs) ∈ d' ->
     cs = filter (fun c => crs_term c = t) (processed ++ courses)) /\
  (forall c, c ∈ processed ++ courses -> crs_term c ∈ d'.*1).
Proof.
  revert processed d.
  induction courses as [|course courses IH]; intros processed d; simpl.
  - rewrite app_nil_r. intros. by repeat split.
  - intros Hnd Hgroups Hkeys.
    destruct (group_by_term_step processed d course Hnd Hgroups Hkeys)
      as (Hnd' & Hgroups' & Hkeys').
    specialize (IH (processed ++ [course]) _ Hnd' Hgroups' Hkeys').
    by rewrite <- app_assoc in IH.
Qed.

Lemma group_by_term_spec (courses : list InspectedCourse) :
  NoDup (group_by_term courses).*1 /\
  (forall t cs, (t, cs) ∈ group_by_term courses ->
     cs = filter (fun c => crs_term c = t) courses) /\
  (forall c, c ∈ courses -> crs_term c ∈ (group_by_term courses).*1).
Proof.
  apply (group_by_term_fold courses [] []).
  - apply NoDup_nil_2.
  - intros t cs Hin. by apply elem_of_nil in Hin.
  - intros c Hin. by apply elem_of_nil in Hin.
Qed.

(** ** [sort_courses] *)

Lemma term_chrono_index_run (term : string) (w : World Env) :
  term_chrono_index term w = (Ok (term_key term), add_stdout w (term_warning term)).
Proof.
  unfold term_chrono_index, try_except, lift, term_key, term_warning.
  destruct (parse_term term); [|reflexivity].
  by rewrite add_stdout_nil.
Qed.

Lemma sorted_keys_run {A} (f : A -> string) (l : list A) (acc : list (Z * Z))
    (w : World Env) :
  for_each l acc (fun keys x => k ← term_chrono_index (f x); mret (keys ++ [k])) w
  = (Ok (acc ++ map (fun x => term_key (f x)) l),
     add_stdout w (concat (map (fun x => term_warning (f x)) l))).
Proof.
  revert acc w. induction l as [|x l IH]; intros acc w.
  - simpl. by rewrite app_nil_r, add_stdout_nil.
  - cbn [for_each]. rewrite run_bind, run_bind, term_chrono_index_run, run_ret, IH.
    cbn [map concat]. by rewrite <- app_assoc, add_stdout_app.
Qed.

Lemma zip_map_self {A B} (f : A -> B) (l : list A) :
  zip (map f l) l = map (fun x => (f x, x)) l.
Proof. induction l as [|x l IH]; simpl; [done|by rewrite IH]. Qed.

Lemma sort_courses_run (courses : list InspectedCourse) (w : World Env) :
  sort_courses courses w
  = (Ok (sorted_groups courses), add_stdout w (term_warnings courses)).
Proof.
  unfold sort_courses, sorted, sorted_groups, term_warnings.
  rewrite run_bind.
  rewrite (sorted_keys_run (fun item : string * list InspectedCourse => item.1)).
  rewrite run_ret. cbn [app]. by rewrite zip_map_self.
Qed.

Lemma sorted_groups_perm (courses : list InspectedCourse) :
  sorted_groups courses ≡ₚ group_by_term courses.
Proof.
  unfold sorted_groups. rewrite sort_keyed_perm.
  rewrite <- list_fmap_compose.
  induction (group_by_term courses) as [|x l IH]; [done|].
  simpl. by rewrite IH.
Qed.

Lemma sorted_groups_sorted (courses : list InspectedCourse) :
  StronglySorted (fun g1 g2 : string * list InspectedCourse =>
                    key_le (term_key g1.1) (term_key g2.1))
    (sorted_groups courses).
Proof.
  unfold sorted_groups.
  set (keyed := map _ (group_by_term courses)).
  assert (Forall (fun x : Z * Z * (string * list InspectedCourse) =>
                    x.1 = term_key x.2.1) (sort_keyed keyed)) as Hkeys.
  { rewrite sort_keyed_perm. subst keyed. apply Forall_forall.
    intros x (item & -> & _)%list_elem_of_fmap. done. }
  pose proof (sort_keyed_sorted keyed) as Hsorted.
  induction Hsorted as [|x l Hl IH Hx]; [constructor|].
  apply Forall_cons in Hkeys as [Hkx Hkl].
  cbn [map]. constructor; [by apply IH|].
  apply Forall_fmap. apply Forall_forall. intros y Hy. simpl.
  rewrite Forall_forall in Hx, Hkl.
  specialize (Hx y Hy). unfold keyed_le in Hx.
  by rewrite Hkx, (Hkl y Hy) in Hx.
Qed.

Lemma term_key_parsed (term : string) :
  term_key term =
  match PyStr.split_ws term with
  | [season; year] =>
      match PyInt.parse year, Dict.get SEASON_ORDER season with
      | Some y, Some rank => (y, rank)
      | _, _ => (0, 0)%Z
      end
  | _ => (0, 0)%Z
  end.
Proof.
  unfold term_key, parse_term.
  destruct (PyStr.split_ws term) as [|season [|year [|? ?]]]; try done.
  destruct (PyInt.parse year); [|done].
  by destruct (Dict.get SEASON_ORDER season).
Qed.

Lemma season_order_spec (season : string) (rank : Z) :
  Dict.get SEASON_ORDER season = Some rank <->
  (season = "Spring" /\ rank = 0%Z) \/ (season = "Summer" /\ rank = 1%Z)
  \/ (season = "Fall" /\ rank = 2%Z).
Proof.
  unfold SEASON_ORDER. cbn [Dict.get].
  destruct (String.eqb_spec "Spring" season) as [<-|H1].
  { split; [intros [= <-]; by left|]. intros [[_ H]|[[? _]|[? _]]]; by subst. }
  destruct (String.eqb_spec "Summer" season) as [<-|H2].
  { split; [intros [= <-]; right; by left|].
    intros [[? _]|[[_ H]|[? _]]]; by subst. }
  destruct (String.eqb_spec "Fall" season) as [<-|H3].
  { split; [intros [= <-]; right; by right|].
    intros [[? _]|[[? _]|[_ H]]]; by subst. }
  split; [done|]. intros [[? _]|[[? _]|[? _]]]; congruence.
Qed.

(** C1: [sort_courses] returns the groups in the order of their keys, year
    first and season rank second; the key of a term is read off its two
    words, the season's rank being 0 for Spring, 1 for Summer and 2 for Fall,
    and is (0, 0) for a term that does not parse; so a term that does not
    parse stands before every term that parses to a positive year. *)
Theorem sort_courses_chronological (courses : list InspectedCourse)
    (w : World Env) :
  exists groups w',
    sort_courses courses w = (Ok groups, w') /\
    StronglySorted (fun g1 g2 : string * list InspectedCourse =>
                      key_le (term_key g1.1) (term_key g2.1)) groups /\
    (forall a b : Z * Z,
       key_le a b <-> (a.1 < b.1 \/ (a.1 = b.1 /\ a.2 <= b.2))%Z) /\
    (forall term : string,
       term_key term =
       match PyStr.split_ws term with
       | [season; year] =>
           match PyInt.parse year, Dict.get SEASON_ORDER season with
           | Some y, Some rank => (y, rank)
           | _, _ => (0, 0)%Z
           end
       | _ => (0, 0)%Z
       end) /\
    (forall (season : string) (rank : Z),
       Dict.get SEASON_ORDER season = Some rank <->
       (season = "Spring" /\ rank = 0%Z) \/ (season = "Summer" /\ rank = 1%Z)
       \/ (season = "Fall" /\ rank = 2%Z)) /\
    (forall (i j : nat) (g1 g2 : string * list InspectedCourse) (y rank : Z),
       groups !! i = Some g1 -> groups !! j = Some g2 ->
       (forall k, parse_term g1.1 <> Ok k) ->
       parse_term g2.1 = Ok (y, rank) -> (0 < y)%Z ->
       term_key g1.1 = (0, 0)%Z /\ i < j).
Proof.
  exists (sorted_groups courses), (add_stdout w (term_warnings courses)).
  split; [apply sort_courses_run|].
  split; [apply sorted_groups_sorted|].
  split; [apply key_le_spec|].
  split; [apply term_key_parsed|].
  split; [apply season_order_spec|].
  intros i j g1 g2 y rank Hi Hj Hfail Hparse Hy.
  assert (term_key g1.1 = (0, 0)%Z) as Hk1.
  { unfold term_key. destruct (parse_term g1.1) as [k|e] eqn:E; [|done].
    by destruct (Hfail k). }
  assert (term_key g2.1 = (y, rank)) as Hk2.
  { unfold term_key. by rewrite Hparse. }
  split; [done|].
  eapply sorted_lookup_lt; [apply sorted_groups_sorted|exact Hi|exact Hj| |].
  - simpl. rewrite Hk1, Hk2, key_le_spec. simpl. lia.
  - intros ->. by apply (Hfail (y, rank)).
Qed.

(** C2: inside each group the courses stand in the order they arrived in;
    two courses of term "Fall 2023" and one of term "Spring 2022" come out as
    the Spring group followed by the Fall group with the two courses in
    their input order. *)
Theorem sort_courses_keeps_arrival_order (courses : list InspectedCourse)
    (w : World Env) :
  exists groups w',
    sort_courses courses w = (Ok groups, w') /\
    (forall term cs, (term, cs) ∈ groups ->
       cs = filter (fun c => crs_term c = term) courses) /\
    (forall c1 c2 c3 : InspectedCourse,
       crs_term c1 = "Fall 2023" -> crs_term c2 = "Fall 2023" ->
       crs_term c3 = "Spring 2022" ->
       courses = [c1; c2; c3] \/ courses = [c1; c3; c2]
       \/ courses = [c3; c1; c2] ->
       groups = [("Spring 2022", [c3]); ("Fall 2023", [c1; c2])]).
Proof.
  exists (sorted_groups courses), (add_stdout w (term_warnings courses)).
  split; [apply sort_courses_run|]. split.
  - intros term cs Hin. rewrite sorted_groups_perm in Hin.
    by apply group_by_term_spec.
  - intros [] [] [] H1 H2 H3 Hcourses. simpl in H1, H2, H3. subst.
    destruct Hcourses as [ -> | [ -> | -> ] ]; vm_compute; reflexivity.
Qed.

(** ** The output argument *)

Lemma string_app_cons (c : ascii) (s1 s2 : string) :
  String c s1 +:+ s2 = String c (s1 +:+ s2).
Proof. reflexivity. Qed.

Lemma string_app_nil_l (s : string) : "" +:+ s = s.
Proof. reflexivity. Qed.

Lemma string_app_nil_r (s : string) : s +:+ "" = s.
Proof.
  induction s as [|c s IH]; [done|]. by rewrite string_app_cons, IH.
Qed.

Lemma string_app_assoc (s1 s2 s3 : string) :
  (s1 +:+ s2) +:+ s3 = s1 +:+ (s2 +:+ s3).
Proof.
  induction s1 as [|c s1 IH]; [done|]. by rewrite !string_app_cons, IH.
Qed.

Lemma substring_zero_length (s : string) :
  String.substring 0 (String.length s) s = s.
Proof. induction s as [|c s IH]; simpl; [done|by rewrite IH]. Qed.

Lemma substring_split (s : string) (n : nat) :
  n <= String.length s ->
  String.substring 0 n s +:+ String.substring n (String.length s - n) s = s.
Proof.
  revert n. induction s as [|c s IH]; intros [|n] Hn; simpl in *; try lia.
  - done.
  - by rewrite substring_zero_length.
  - rewrite string_app_cons. f_equal. apply IH. lia.
Qed.

Lemma substring_app_r (p s : string) :
  String.substring (String.length p) (String.length s) (p +:+ s) = s.
Proof.
  induction p as [|c p IH]; [apply substring_zero_length|].
  rewrite string_app_cons. exact IH.
Qed.

Lemma string_app_length (p s : string) :
  String.length (p +:+ s) = String.length p + String.length s.
Proof.
  induction p as [|c p IH]; [done|]. rewrite string_app_cons. simpl.
  by rewrite IH.
Qed.

Lemma substring_app_l (p s : string) :
  String.substring 0 (String.length p) (p +:+ s) = p.
Proof.
  induction p as [|c p IH]; [by destruct s|].
  rewrite string_app_cons. simpl. by rewrite IH.
Qed.

Lemma endswith_spec (s suffix : string) :
  PyStr.endswith s suffix = true <-> exists p, s = p +:+ suffix.
Proof.
  unfold PyStr.endswith. rewrite andb_true_iff, Nat.leb_le, String.eqb_eq.
  split.
  - intros [Hlen Hsub].
    exists (String.substring 0 (String.length s - String.length suffix) s).
    pose proof (substring_split s (String.length s - String.length suffix))
      as Hsplit.
    replace (String.length s - (String.length s - String.length suffix))
      with (String.length suffix) in Hsplit by lia.
    rewrite Hsub in Hsplit. symmetry. apply Hsplit. lia.
  - intros [p ->]. rewrite string_app_length. split; [lia|].
    replace (String.length p + String.length suffix - String.length suffix)
      with (String.length p) by lia.
    apply substring_app_r.
Qed.

Lemma removesuffix_app (p suffix : string) :
  suffix <> "" -> PyStr.removesuffix (p +:+ suffix) suffix = p.
Proof.
  intros Hne. unfold PyStr.removesuffix.
  assert (PyStr.endswith (p +:+ suffix) suffix = true) as ->
    by (apply endswith_spec; eauto).
  apply String.eqb_neq in Hne as ->. simpl.
  rewrite string_app_length.
  replace (String.length p + String.length suffix - String.length suffix)
    with (String.length p) by lia.
  apply substring_app_l.
Qed.

Lemma make_archive_path (base_name root_dir : string) (w w' : World Env) :
  make_archive base_name root_dir w = (Ok tt, w') ->
  disk w' !! archive_name base_name
  = Some (Archive (dir_entries root_dir (disk w))).
Proof.
  unfold make_archive, syscall.
  destruct (os_fault _ (env w)) as [[e|] en]; intros [= <-].
  simpl. apply lookup_insert_eq.
Qed.

(** C8: the output argument is accepted exactly when it ends with ".zip";
    it is then kept without that suffix, and the archive is created under
    the kept name with ".zip" appended, which is the argument as the user
    gave it: once [make_archive] has run, the disk holds the archive of the
    staging directory at that path; any other argument is refused with an
    argument type error. *)
Theorem zip_file_argument_round_trip (arg : string) :
  (PyStr.endswith arg ".zip" = true <-> exists base, arg = base +:+ ".zip") /\
  (if PyStr.endswith arg ".zip"
   then exists base,
          zip_file_argument arg = Ok base /\
          base +:+ ".zip" = arg /\
          archive_name base = arg /\
          forall (root_dir : string) (w w' : World Env),
            make_archive base root_dir w = (Ok tt, w') ->
            disk w' !! arg = Some (Archive (dir_entries root_dir (disk w)))
   else zip_file_argument arg
        = Raise (ArgumentTypeError "ZIP file path must have the .zip extension")).
Proof.
  split; [apply endswith_spec|].
  unfold zip_file_argument.
  destruct (PyStr.endswith arg ".zip") eqn:E; [|done].
  apply endswith_spec in E as [base ->].
  exists base. rewrite removesuffix_app by done.
  split; [done|]. split; [done|]. split; [done|].
  intros root_dir w w' Hdisk%make_archive_path.
  exact Hdisk.
Qed.

(** ** The submission locator *)

Lemma list_submissions_run (course : InspectedCourse)
    (assignment : InspectedAssignmentFromCourse) (w : World Env) :
  let guesses := [guess course assignment "pdf"; guess course assignment "zip"] in
  let found files :=
    [ {| sub_slug := asg_submission assignment; sub_files := files |} ] in
  list_submissions course assignment w =
  match requests_get (PStr (submission_url course assignment)) false (env w) with
  | (Raise e, e1) => (Ok (found guesses), add_stdout (set_env w e1) [PException e])
  | (Ok response, e1) =>
      match py_contains "pdf" (located_link response) with
      | Ok true =>
          (Ok (found (guesses ++ [ {| sf_url := located_link response;
                                      sf_ext := "pdf" |} ])),
           set_env w e1)
      | Ok false => (Ok (found guesses), set_env w e1)
      | Raise e =>
          (Ok (found guesses), add_stdout (set_env w e1) [PException e])
      end
  end.
Proof.
  intros guesses found.
  unfold list_submissions, extra_link, extract_link, located_link.
  unfold session_get, print, add_stdout, set_env. run.
  destruct (requests_get _ false (env w)) as [[response|e] e1]; [|reflexivity].
  destruct (json_link (text response)) as [link|e];
    (destruct (py_contains "pdf" _) as [[]|e']; reflexivity).
Qed.

(** C3: the locator returns one submission, named by the assignment's
    submission identifier, with two or three files.  The first two are the
    guesses of the naming convention: the address of the submission, which
    is BASE_URL/courses/<course>/assignments/<assignment>/submissions/<id>,
    with ".pdf" and with ".zip" appended, and the extensions "pdf" and "zip".
    There are three files, the last being the extracted link with extension
    "pdf", when the page is JSON whose pdf_attachment.url contains "pdf";
    two when neither the JSON nor the raw text yields a link that contains
    "pdf". *)
Theorem list_submissions_files (course : InspectedCourse)
    (assignment : InspectedAssignmentFromCourse) (w : World Env) :
  let url := "https://www.gradescope.com/courses/" +:+ crs_slug course
             +:+ "/assignments/" +:+ asg_slug assignment
             +:+ "/submissions/" +:+ asg_submission assignment in
  let pdf := {| sf_url := PStr (url +:+ ".pdf"); sf_ext := "pdf" |} in
  let zip := {| sf_url := PStr (url +:+ ".zip"); sf_ext := "zip" |} in
  exists files w',
    list_submissions course assignment w
    = (Ok [ {| sub_slug := asg_submission assignment; sub_files := files |} ], w') /\
    (length files = 2 \/ length files = 3) /\
    take 2 files = [pdf; zip] /\
    (forall response e1 link,
       requests_get (PStr url) false (env w) = (Ok response, e1) ->
       json_link (text response) = Ok link ->
       py_contains "pdf" link = Ok true ->
       files = [pdf; zip; {| sf_url := link; sf_ext := "pdf" |}]) /\
    (forall response e1,
       requests_get (PStr url) false (env w) = (Ok response, e1) ->
       (forall link, json_link (text response) = Ok link ->
                     py_contains "pdf" link <> Ok true) ->
       PyStr.contains "pdf" (fallback_link (text response)) = false ->
       files = [pdf; zip]).
Proof.
  intros url pdf zip.
  pose proof (list_submissions_run course assignment w) as Hrun.
  cbv zeta in Hrun.
  change (guess course assignment "pdf") with pdf in Hrun.
  change (guess course assignment "zip") with zip in Hrun.
  change (submission_url course assignment) with url in Hrun.
  clearbody pdf zip url.
  destruct (requests_get _ false (env w)) as [[response|e] e1] eqn:Hget.
  - unfold located_link in Hrun.
    destruct (json_link (text response)) as [link|e] eqn:Hjson.
    + destruct (py_contains "pdf" link) as [[]|e'] eqn:Hpdf;
        eexists _, _; (split; [exact Hrun|]); (split; [simpl; auto|]);
        (split; [done|]);
        split; intros r e2 **; same_lhs; try done;
        exfalso;
        match goal with
        | H : forall l : pyval, _ -> _ <> _ |- _ => eapply H; eassumption
        end.
    + cbn [py_contains] in Hrun.
      destruct (PyStr.contains "pdf" (fallback_link (text response))) eqn:Hpdf;
        eexists _, _; (split; [exact Hrun|]); (split; [simpl; auto|]);
        (split; [done|]);
        split; intros r e2 **; same_lhs; try done.
  - eexists _, _. split; [exact Hrun|]. split; [simpl; auto|].
    split; [done|].
    split; intros r e2 **; same_lhs.
Qed.

(** C4: an exception of the extra-link step never leaves the locator.  The
    result always starts with the two files of the naming convention, the
    address of the submission with ".pdf" and with ".zip" appended; when the
    request or the "pdf" test raises, the exception is printed and these two
    are the whole result; when reading the JSON raises, the link comes from
    the raw text instead. *)
Theorem list_submissions_catches (course : InspectedCourse)
    (assignment : InspectedAssignmentFromCourse) (w : World Env) :
  let url := "https://www.gradescope.com/courses/" +:+ crs_slug course
             +:+ "/assignments/" +:+ asg_slug assignment
             +:+ "/submissions/" +:+ asg_submission assignment in
  let pdf := {| sf_url := PStr (url +:+ ".pdf"); sf_ext := "pdf" |} in
  let zip := {| sf_url := PStr (url +:+ ".zip"); sf_ext := "zip" |} in
  exists files w',
    list_submissions course assignment w
    = (Ok [ {| sub_slug := asg_submission assignment; sub_files := files |} ], w') /\
    take 2 files = [pdf; zip] /\
    (forall e e1,
       requests_get (PStr url) false (env w) = (Raise e, e1) ->
       files = [pdf; zip] /\
       stdout w' = stdout w ++ [PException e]) /\
    (forall response e1 e,
       requests_get (PStr url) false (env w) = (Ok response, e1) ->
       json_link (text response) = Raise e ->
       stdout w' = stdout w /\
       files = [pdf; zip]
               ++ (if PyStr.contains "pdf" (fallback_link (text response))
                   then [ {| sf_url := PStr (fallback_link (text response));
                             sf_ext := "pdf" |} ]
                   else [])) /\
    (forall response e1 link e,
       requests_get (PStr url) false (env w) = (Ok response, e1) ->
       json_link (text response) = Ok link ->
       py_contains "pdf" link = Raise e ->
       files = [pdf; zip] /\
       stdout w' = stdout w ++ [PException e]).
Proof.
  intros url pdf zip.
  pose proof (list_submissions_run course assignment w) as Hrun.
  cbv zeta in Hrun.
  change (guess course assignment "pdf") with pdf in Hrun.
  change (guess course assignment "zip") with zip in Hrun.
  change (submission_url course assignment) with url in Hrun.
  clearbody pdf zip url.
  destruct (requests_get _ false (env w)) as [[response|e] e1] eqn:Hget.
  - unfold located_link in Hrun.
    destruct (json_link (text response)) as [link|e] eqn:Hjson.
    + destruct (py_contains "pdf" link) as [[]|e'] eqn:Hpdf;
        eexists _, _; (split; [exact Hrun|]); (split; [done|]);
        repeat split; intros; same_lhs; by simplify_list_eq.
    + cbn [py_contains] in Hrun.
      destruct (PyStr.contains "pdf" (fallback_link (text response))) eqn:Hpdf;
        eexists _, _; (split; [exact Hrun|]); (split; [done|]);
        repeat split; intros; same_lhs; rewrite ?Hpdf; by simplify_list_eq.
  - eexists _, _. split; [exact Hrun|]. split; [done|].
    repeat split; intros; same_lhs; by simplify_list_eq.
Qed.

(** ** The link read off the raw text *)

Lemma prefix_split (p s : string) :
  String.prefix p s = true -> exists t, s = p +:+ t.
Proof.
  revert s. induction p as [|c p IH]; intros s; [by exists s|].
  destruct s as [|c' s]; [done|]. simpl.
  destruct (ascii_dec c c') as [<-|]; [|done].
  intros [t ->]%IH. by exists t.
Qed.

Lemma prefix_app_true (s t : string) : String.prefix s (s +:+ t) = true.
Proof.
  induction s as [|c s IH]; [by destruct t|].
  rewrite string_app_cons. simpl. by destruct (ascii_dec c c).
Qed.

(** Whether [q] starts a string is read off its first [length q]
    characters. *)
Lemma prefix_ext (q v a b : string) :
  String.length q <= String.length v ->
  String.prefix q (v +:+ a) = String.prefix q (v +:+ b).
Proof.
  revert v. induction q as [|c q IH]; intros v Hlen.
  - by destruct (v +:+ a), (v +:+ b).
  - destruct v as [|c' v]; simpl in Hlen; [lia|].
    rewrite !string_app_cons. simpl.
    destruct (ascii_dec c c'); [apply IH; lia|done].
Qed.

Lemma until_first_eq (sub s : string) :
  until_first sub s =
  if String.prefix sub s then ""
  else match s with
       | EmptyString => ""
       | String c rest => String c (until_first sub rest)
       end.
Proof. by destruct s. Qed.

Lemma until_first_split (sub s : string) :
  exists z, s = until_first sub s +:+ z /\ (z = "" \/ String.prefix sub z = true).
Proof.
  induction s as [|c s (z & Hs & Hz)]; rewrite until_first_eq.
  - exists "". destruct (String.prefix sub ""); auto.
  - destruct (String.prefix sub (String c s)) eqn:E.
    + exists (String c s). auto.
    + exists z. rewrite string_app_cons, <- Hs. auto.
Qed.

(** What follows the first occurrence of [sub] does not change where the
    text before it ends. *)
Lemma until_first_ext (sub y a b : string) :
  until_first sub (y +:+ sub +:+ a) = until_first sub (y +:+ sub +:+ b).
Proof.
  induction y as [|c y IH].
  - rewrite !string_app_nil_l, (until_first_eq sub (sub +:+ a)),
      (until_first_eq sub (sub +:+ b)).
    by rewrite !prefix_app_true.
  - rewrite !string_app_cons,
      (until_first_eq sub (String c (y +:+ sub +:+ a))),
      (until_first_eq sub (String c (y +:+ sub +:+ b))).
    assert (String.prefix sub (String c (y +:+ sub +:+ a))
            = String.prefix sub (String c (y +:+ sub +:+ b))) as ->.
    { rewrite <- !string_app_cons, <- !string_app_assoc.
      apply prefix_ext. rewrite string_app_length. lia. }
    destruct (String.prefix sub _); [done|]. by rewrite IH.
Qed.

Lemma split_go_skip (sep cur x y : string) :
  PyStr.split_go sep (String.length x) cur (x +:+ y)
  = PyStr.split_go sep 0 cur y.
Proof.
  induction x as [|c x IH]; [done|]. rewrite string_app_cons. exact IH.
Qed.

Lemma join_cons (x : string) (l : list string) :
  PyStr.join (x :: l) = x +:+ PyStr.join l.
Proof.
  unfold PyStr.join. destruct l as [|y l]; simpl; [|done].
  by rewrite string_app_nil_r.
Qed.

Lemma join_split_cur (sep : string) (k : nat) (cur s : string) :
  PyStr.join (PyStr.split_go sep k cur s)
  = cur +:+ PyStr.join (PyStr.split_go sep k "" s).
Proof.
  revert k cur. induction s as [|c s IH]; intros k cur.
  - cbn [PyStr.split_go]. by rewrite !join_cons, string_app_nil_l.
  - cbn [PyStr.split_go]. destruct k as [|k]; [|apply IH].
    destruct (String.prefix sep (String c s)).
    + by rewrite !join_cons, string_app_nil_l.
    + rewrite (IH 0 (cur +:+ String c "")), (IH 0 ("" +:+ String c "")).
      by rewrite string_app_nil_l, string_app_assoc.
Qed.

Lemma head_split (sep cur s : string) :
  head (PyStr.split_go sep 0 cur s) = Some (cur +:+ until_first sep s).
Proof.
  revert cur. induction s as [|c s IH]; intros cur;
    rewrite until_first_eq; cbn [PyStr.split_go].
  - destruct (String.prefix sep ""); by rewrite string_app_nil_r.
  - destruct (String.prefix sep (String c s)).
    + by rewrite string_app_nil_r.
    + by rewrite IH, string_app_assoc.
Qed.

(** The pieces after the first occurrence of the separator are the pieces
    of the text that follows it. *)
Lemma tail_split_first (sep text rest cur : string) :
  sep <> "" ->
  from_first sep text = Some (sep +:+ rest) ->
  tail (PyStr.split_go sep 0 cur text) = PyStr.split_go sep 0 "" rest.
Proof.
  intros Hsep. revert cur.
  induction text as [|c text IH]; intros cur; cbn [from_first PyStr.split_go].
  - destruct sep; done.
  - destruct (String.prefix sep (String c text)); [|by apply IH].
    intros [= Htext]. cbn [tail].
    destruct sep as [|c' sep]; [done|].
    rewrite string_app_cons in Htext. injection Htext as -> ->.
    cbn [String.length].
    replace (S (String.length sep) - 1) with (String.length sep) by lia.
    apply split_go_skip.
Qed.

Lemma split_none (sep text cur : string) :
  from_first sep text = None -> PyStr.split_go sep 0 cur text = [cur +:+ text].
Proof.
  revert cur. induction text as [|c text IH]; intros cur;
    cbn [from_first PyStr.split_go].
  - by rewrite string_app_nil_r.
  - destruct (String.prefix sep (String c text)); [done|].
    intros H. by rewrite IH, string_app_assoc.
Qed.

(** A string free of [c] that starts [u +:+ z], with [z] empty or starting
    with [c], starts [u]. *)
Lemma prefix_before (c : ascii) (p u z : string) :
  has_char c p = false ->
  z = "" \/ (exists z', z = String c z') ->
  String.prefix p (u +:+ z) = true -> String.prefix p u = true.
Proof.
  revert u. induction p as [|c' p IH]; intros u Hp Hz; [by destruct u|].
  simpl in Hp. apply orb_false_elim in Hp as [Hc Hp].
  destruct u as [|c'' u].
  - rewrite string_app_nil_l. destruct Hz as [->|[z' ->]]; [done|]. simpl.
    destruct (ascii_dec c' c) as [->|]; [|done].
    by rewrite Ascii.eqb_refl in Hc.
  - rewrite string_app_cons. simpl.
    destruct (ascii_dec c' c''); [by apply IH|done].
Qed.

(** Where the prefix does not occur, cutting at it and joining again
    changes nothing. *)
Lemma join_split_clean (c : ascii) (sep y z : string) :
  has_char c sep = false ->
  PyStr.contains sep y = false ->
  z = "" \/ (exists z', z = String c z') ->
  PyStr.join (PyStr.split_go sep 0 "" (y +:+ z))
  = y +:+ PyStr.join (PyStr.split_go sep 0 "" z).
Proof.
  intros Hsep Hy Hz. induction y as [|c' y IH]; [done|].
  cbn [PyStr.contains] in Hy. apply orb_false_elim in Hy as [Hhere Hy].
  rewrite string_app_cons. cbn [PyStr.split_go].
  destruct (String.prefix sep (String c' (y +:+ z))) eqn:E.
  - rewrite <- string_app_cons in E.
    apply (prefix_before c sep (String c' y) z Hsep Hz) in E. congruence.
  - rewrite join_split_cur, IH by done. by rewrite string_app_nil_l.
Qed.

(** The link of line 148 when the prefix does not occur again before the
    first "&quot" after its first occurrence. *)
Lemma fallback_link_clean (rest : string) :
  PyStr.contains UPLOADS (until_first "&quot" rest) = false ->
  until_first "&quot" (PyStr.join (PyStr.split_go UPLOADS 0 "" rest))
  = until_first "&quot" rest.
Proof.
  intros Hclean.
  destruct (until_first_split "&quot" rest) as (z & Hrest & Hz).
  remember (until_first "&quot" rest) as y eqn:Hy.
  destruct Hz as [->|[z0 ->]%prefix_split].
  - rewrite string_app_nil_r in Hrest. subst rest.
    pose proof (join_split_clean "&" UPLOADS y "" eq_refl Hclean
                  (or_introl eq_refl)) as Hjoin.
    cbn [PyStr.split_go] in Hjoin.
    rewrite join_cons, !string_app_nil_r in Hjoin.
    rewrite Hjoin. by symmetry.
  - subst rest.
    rewrite (join_split_clean "&" UPLOADS y ("&quot" +:+ z0)) by eauto.
    change (PyStr.split_go UPLOADS 0 "" ("&quot" +:+ z0))
      with (PyStr.split_go UPLOADS 0 "&quot" z0).
    rewrite join_split_cur, (until_first_ext "&quot" y _ z0).
    by symmetry.
Qed.

Lemma fallback_link_found (text rest : string) :
  from_first UPLOADS text = Some (UPLOADS +:+ rest) ->
  PyStr.contains UPLOADS (until_first "&quot" rest) = false ->
  fallback_link text = UPLOADS +:+ until_first "&quot" rest.
Proof.
  intros Hfirst Hclean. unfold fallback_link, PyStr.split.
  rewrite (tail_split_first UPLOADS text rest "") by done.
  rewrite head_split, string_app_nil_l. cbn [default].
  change (until_first "&quot" (UPLOADS +:+ ?s))
    with (UPLOADS +:+ until_first "&quot" s).
  by rewrite fallback_link_clean.
Qed.

Lemma fallback_link_missing (text : string) :
  from_first UPLOADS text = None -> fallback_link text = UPLOADS.
Proof.
  intros Hnone. unfold fallback_link, PyStr.split.
  rewrite (split_none UPLOADS text "") by done. cbn [tail].
  reflexivity.
Qed.

(** C7 fails where the prefix occurs twice before the first "&quot": the
    code drops the second occurrence from the link, while the text from the
    first occurrence up to "&quot" keeps it. *)
Lemma fallback_link_drops_later_prefixes :
  let page := "<a href=" +:+ UPLOADS +:+ "/a.pdf>" +:+ UPLOADS +:+ "/b&quot;" in
  fallback_link page = UPLOADS +:+ "/a.pdf>/b" /\
  spec_fallback_link page = Some (UPLOADS +:+ "/a.pdf>" +:+ UPLOADS +:+ "/b") /\
  Some (fallback_link page) <> spec_fallback_link page.
Proof. vm_compute. repeat split; discriminate. Qed.

(** C7, as amended: for a page that is not JSON with a pdf_attachment.url,
    when the prefix of the upload host occurs in the raw text and does not
    occur again before the next "&quot" (before the end of the text when no
    "&quot" follows), the link is the text from that first occurrence up to
    just before that "&quot" (up to the end when there is none); when the
    prefix does not occur, the link is the bare prefix; and a link that does
    not contain "pdf" adds no third file. *)
Theorem fallback_link_is_first_upload_url (course : InspectedCourse)
    (assignment : InspectedAssignmentFromCourse) (w : World Env)
    (response : Response) (e1 : Env) (e : Exn) :
  requests_get (PStr (submission_url course assignment)) false (env w)
  = (Ok response, e1) ->
  json_link (text response) = Raise e ->
  (forall rest,
     from_first UPLOADS (text response) = Some (UPLOADS +:+ rest) ->
     PyStr.contains UPLOADS (until_first "&quot" rest) = false ->
     fallback_link (text response) = UPLOADS +:+ until_first "&quot" rest /\
     spec_fallback_link (text response) = Some (fallback_link (text response))) /\
  (from_first UPLOADS (text response) = None ->
   fallback_link (text response) = UPLOADS) /\
  exists w',
    list_submissions course assignment w
    = (Ok [ {| sub_slug := asg_submission assignment;
               sub_files :=
                 [guess course assignment "pdf"; guess course assignment "zip"]
                 ++ (if PyStr.contains "pdf" (fallback_link (text response))
                     then [ {| sf_url := PStr (fallback_link (text response));
                               sf_ext := "pdf" |} ]
                     else []) |} ], w').
Proof.
  intros Hget Hjson. split; [|split].
  - intros rest Hfirst Hclean.
    pose proof (fallback_link_found _ _ Hfirst Hclean) as Hlink.
    split; [exact Hlink|].
    unfold spec_fallback_link. rewrite Hfirst, Hlink. reflexivity.
  - apply fallback_link_missing.
  - pose proof (list_submissions_run course assignment w) as Hrun.
    cbv zeta in Hrun. rewrite Hget in Hrun.
    unfold located_link in Hrun. rewrite Hjson in Hrun.
    cbn [py_contains] in Hrun.
    destruct (PyStr.contains "pdf" (fallback_link (text response)));
      eexists; exact Hrun.
Qed.

(** ** Steps that keep the files, the README and the progress lines *)

Lemma files_kept_refl (d : gmap string File) : files_kept d d.
Proof. intros path data H. eauto. Qed.

Lemma files_kept_trans (d1 d2 d3 : gmap string File) :
  files_kept d1 d2 -> files_kept d2 d3 -> files_kept d1 d3.
Proof.
  intros H12 H23 path data H1.
  destruct (H12 _ _ H1) as [data2 H2]. eauto.
Qed.

Lemma files_kept_insert (d : gmap string File) (path data : string) :
  files_kept d (<[path := Regular data]> d).
Proof.
  intros p old Hp. destruct (decide (path = p)) as [->|Hne].
  - exists data. apply lookup_insert_eq.
  - exists old. by rewrite lookup_insert_ne.
Qed.

Lemma is_regular_kept (d d' : gmap string File) (path : string) :
  files_kept d d' -> is_regular d path -> is_regular d' path.
Proof. intros Hkept [data H]. exact (Hkept _ _ H). Qed.

Lemma progress_lines_app (l1 l2 : list Printed) :
  progress_lines (l1 ++ l2) = progress_lines l1 ++ progress_lines l2.
Proof. apply omap_app. Qed.

Lemma extends_refl (w : World Env) : extends w w.
Proof.
  split; [exists []; by rewrite app_nil_r|done|apply files_kept_refl].
Qed.

Lemma extends_trans (w1 w2 w3 : World Env) :
  extends w1 w2 -> extends w2 w3 -> extends w1 w3.
Proof.
  intros [[l1 [Ho1 Hp1]] Hr1 Hd1] [[l2 [Ho2 Hp2]] Hr2 Hd2]. split.
  - exists (l1 ++ l2). rewrite Ho2, Ho1, app_assoc. split; [done|].
    by rewrite progress_lines_app, Hp1, Hp2.
  - congruence.
  - by eapply files_kept_trans.
Qed.

Lemma bind_inv {A B} (m : M A) (f : A -> M B) (w w' : World Env)
    (r : Result B) :
  (m ≫= f) w = (r, w') ->
  (exists a w1, m w = (Ok a, w1) /\ f a w1 = (r, w')) \/
  (exists e, m w = (Raise e, w') /\ r = Raise e).
Proof.
  rewrite run_bind. destruct (m w) as [[a|e] w1]; [left; eauto|].
  intros [= <- <-]. right. eauto.
Qed.

Lemma bind_ok_inv {A B} (m : M A) (f : A -> M B) (w w' : World Env) (b : B) :
  (m ≫= f) w = (Ok b, w') ->
  exists a w1, m w = (Ok a, w1) /\ f a w1 = (Ok b, w').
Proof.
  intros [H|(e & _ & [=])]%bind_inv. exact H.
Qed.

Lemma preserves_ret {A} (a : A) : preserves (mret a).
Proof. intros w r w' [= <- <-]. apply extends_refl. Qed.

Lemma preserves_raise {A} (e : Exn) : preserves (raise (A := A) e).
Proof. intros w r w' [= <- <-]. apply extends_refl. Qed.

Lemma preserves_lift {A} (x : Result A) : preserves (lift x).
Proof. intros w r w' [= <- <-]. apply extends_refl. Qed.

Lemma preserves_bind {A B} (m : M A) (f : A -> M B) :
  preserves m -> (forall a, preserves (f a)) -> preserves (m ≫= f).
Proof.
  intros Hm Hf w r w' [(a & w1 & H1 & H2)|(e & H1 & _)]%bind_inv.
  - eapply extends_trans; [by eapply Hm|by eapply Hf].
  - by eapply Hm.
Qed.

Lemma preserves_try_except {A} (body : M A) (handler : Exn -> M A) :
  preserves body -> (forall e, preserves (handler e)) ->
  preserves (try_except body handler).
Proof.
  intros Hb Hh w r w'. unfold try_except.
  destruct (body w) as [[a|e] w1] eqn:Hbody.
  - intros [= <- <-]. by eapply Hb.
  - intros H. eapply extends_trans; [by eapply Hb|by eapply Hh].
Qed.

Lemma preserves_for_each {A St} (l : list A) (s : St) (body : St -> A -> M St) :
  (forall s x, preserves (body s x)) -> preserves (for_each l s body).
Proof.
  intros Hbody. revert s. induction l as [|x l IH]; intros s; cbn [for_each].
  - apply preserves_ret.
  - apply preserves_bind; [apply Hbody|]. intros s'. apply IH.
Qed.

Lemma preserves_for_enumerate {A St} (i : nat) (l : list A) (s : St)
    (body : St -> nat -> A -> M St) :
  (forall s i x, preserves (body s i x)) -> preserves (for_enumerate i l s body).
Proof.
  intros Hbody. revert i s.
  induction l as [|x l IH]; intros i s; cbn [for_enumerate].
  - apply preserves_ret.
  - apply preserves_bind; [apply Hbody|]. intros s'. apply IH.
Qed.

Lemma preserves_print (p : Printed) :
  progress_lines [p] = [] -> preserves (print p).
Proof.
  intros Hp w r w' [= <- <-]. split; simpl; [eauto|done|apply files_kept_refl].
Qed.

Lemma preserves_session_get (url : pyval) (stream : bool) :
  preserves (session_get url stream).
Proof.
  intros w r w'. unfold session_get.
  destruct (requests_get url stream (env w)) as [r1 e1]. intros [= <- <-].
  split; simpl; [exists []; by rewrite app_nil_r|done|apply files_kept_refl].
Qed.

Lemma preserves_syscall (c : Syscall)
    (effect : gmap string File -> gmap string File) :
  (forall d, files_kept d (effect d)) -> preserves (syscall c effect).
Proof.
  intros Heff w r w'. unfold syscall.
  destruct (os_fault c (env w)) as [[e|] e1]; intros [= <- <-];
    (split; simpl; [exists []; by rewrite app_nil_r|done|]).
  - apply files_kept_refl.
  - apply Heff.
Qed.

Lemma preserves_open_w (path : string) : preserves (open_w path).
Proof. apply preserves_syscall. intros d. apply files_kept_insert. Qed.

Lemma preserves_file_write (path data : string) :
  preserves (file_write path data).
Proof.
  apply preserves_syscall. intros d.
  destruct (d !! path) as [[old|]|]; try apply files_kept_refl.
  apply files_kept_insert.
Qed.

Lemma preserves_save_body (path : string) (response : Response) :
  preserves (save_body path response).
Proof.
  unfold save_body.
  apply preserves_bind; [apply preserves_open_w|]. intros _.
  apply preserves_bind.
  - apply preserves_for_each. intros _ chunk. apply preserves_file_write.
  - intros _. destruct (stream_error response);
      [apply preserves_raise|apply preserves_ret].
Qed.

Lemma preserves_fetch (out_dir course assignment : string)
    (submission : InspectedSubmission) (filenames : list DownloadedFile)
    (index : nat) (link : SubmissionFile) :
  preserves (fetch out_dir course assignment submission filenames index link).
Proof.
  unfold fetch.
  apply preserves_bind; [apply preserves_session_get|]. intros response.
  destruct (negb _); [apply preserves_ret|].
  apply preserves_bind; [apply preserves_save_body|]. intros _.
  apply preserves_ret.
Qed.

Lemma preserves_print_exception {A} (e : Exn) (a : A) :
  preserves (print (PException e);; mret a).
Proof.
  apply preserves_bind; [by apply preserves_print|]. intros _.
  apply preserves_ret.
Qed.

Lemma preserves_download_step (out_dir course assignment : string)
    (submission : InspectedSubmission) (filenames : list DownloadedFile)
    (index : nat) (link : SubmissionFile) :
  preserves (download_step out_dir course assignment submission filenames
               index link).
Proof.
  apply preserves_try_except; [apply preserves_fetch|].
  intros e. apply preserves_print_exception.
Qed.

Lemma preserves_download (out_dir course assignment : string)
    (submission : InspectedSubmission) :
  preserves (download out_dir course assignment submission).
Proof.
  apply preserves_for_enumerate. intros. apply preserves_download_step.
Qed.

Lemma preserves_list_submissions (course : InspectedCourse)
    (assignment : InspectedAssignmentFromCourse) :
  preserves (list_submissions course assignment).
Proof.
  unfold list_submissions.
  apply preserves_bind.
  { apply preserves_for_each. intros. apply preserves_ret. }
  intros files. apply preserves_bind; [|intros; apply preserves_ret].
  apply preserves_try_except; [|intros; apply preserves_print_exception].
  unfold extra_link.
  apply preserves_bind; [apply preserves_session_get|]. intros response.
  apply preserves_bind.
  { unfold extract_link. apply preserves_try_except;
      [apply preserves_lift|intros; apply preserves_ret]. }
  intros link. apply preserves_bind; [apply preserves_lift|].
  intros []; apply preserves_ret.
Qed.

Lemma preserves_sort_courses (courses : list InspectedCourse) :
  preserves (sort_courses courses).
Proof.
  intros w r w'. rewrite sort_courses_run. intros [= <- <-].
  split; simpl; [|done|apply files_kept_refl].
  eexists. split; [done|].
  unfold term_warnings.
  induction (group_by_term courses) as [|item l IH]; [done|].
  cbn [map concat]. rewrite progress_lines_app, IH, app_nil_r.
  unfold term_warning. by destruct (parse_term item.1).
Qed.

(** ** The downloader *)

Lemma save_body_ok (path : string) (response : Response) (w w' : World Env) :
  save_body path response w = (Ok tt, w') -> is_regular (disk w') path.
Proof.
  unfold save_body.
  intros ([] & w1 & Hopen & Hrest)%bind_ok_inv.
  apply bind_ok_inv in Hrest as ([] & w2 & Hwrite & Hend).
  assert (is_regular (disk w1) path) as Hreg.
  { unfold open_w, syscall in Hopen.
    destruct (os_fault _ (env w)) as [[e|] e1]; simplify_eq.
    exists "". apply lookup_insert_eq. }
  assert (extends w1 w2) as Hext.
  { eapply preserves_for_each; [|exact Hwrite].
    intros s chunk. apply preserves_file_write. }
  destruct (stream_error response); [done|].
  injection Hend as <-.
  eapply is_regular_kept; [apply Hext|exact Hreg].
Qed.

Lemma download_step_acc (out_dir course assignment : string)
    (submission : InspectedSubmission) (acc : list DownloadedFile)
    (index : nat) (link : SubmissionFile) (w : World Env) :
  download_step out_dir course assignment submission acc index link w =
  match download_step out_dir course assignment submission [] index link w with
  | (Ok kept, w') => (Ok (acc ++ kept), w')
  | (Raise e, w') => (Raise e, w')
  end.
Proof.
  unfold download_step, fetch, session_get, print. run.
  destruct (requests_get (sf_url link) true (env w)) as [[r|e] e1];
    [|by rewrite app_nil_r].
  destruct (negb _); [by rewrite app_nil_r|].
  destruct (save_body _ r _) as [[[]|e] w2]; [done|by rewrite app_nil_r].
Qed.

(** One candidate: the step never raises; it adds nothing, or the file of
    this candidate, which is then on the disk. *)
Lemma download_step_result (out_dir course assignment : string)
    (submission : InspectedSubmission) (index : nat) (link : SubmissionFile)
    (w : World Env) :
  exists kept w',
    download_step out_dir course assignment submission [] index link w
    = (Ok kept, w') /\
    extends w w' /\
    (kept = [] \/
     (kept = [downloaded course assignment submission index link] /\
      is_regular (disk w')
        (path_join out_dir
           (df_path (downloaded course assignment submission index link))))).
Proof.
  destruct (download_step out_dir course assignment submission [] index link w)
    as [r w'] eqn:Hstep.
  pose proof (preserves_download_step _ _ _ _ _ _ _ _ _ _ Hstep) as Hext.
  revert Hstep. unfold download_step, fetch, session_get, print. run.
  destruct (requests_get (sf_url link) true (env w)) as [[rsp|e] e1];
    [|intros [= <- <-]; eauto 10].
  destruct (negb _); [intros [= <- <-]; eauto 10|].
  destruct (save_body _ rsp _) as [[[]|e] w2] eqn:Hsave;
    intros [= <- <-]; [|eauto 10].
  apply save_body_ok in Hsave. eexists _, _. split; [done|]. split; [done|].
  right. split; [done|]. exact Hsave.
Qed.

Lemma download_from_acc (out_dir course assignment : string)
    (submission : InspectedSubmission) (links : list SubmissionFile)
    (i : nat) (acc : list DownloadedFile) (w : World Env) :
  download_from out_dir course assignment submission i links acc w =
  match download_from out_dir course assignment submission i links [] w with
  | (Ok new, w') => (Ok (acc ++ new), w')
  | (Raise e, w') => (Raise e, w')
  end.
Proof.
  unfold download_from. revert i acc w.
  induction links as [|link links IH]; intros i acc w; cbn [for_enumerate].
  - rewrite !run_ret. by rewrite app_nil_r.
  - rewrite !run_bind, download_step_acc.
    destruct (download_step _ _ _ _ [] i link w) as [[kept|e] w1]; [|done].
    rewrite (IH _ (acc ++ kept)), (IH _ ([] ++ kept)).
    destruct (for_enumerate _ links [] _ w1) as [[new|e] w2]; [|done].
    by rewrite app_assoc.
Qed.

Lemma download_from_cons (out_dir course assignment : string)
    (submission : InspectedSubmission) (link : SubmissionFile)
    (links : list SubmissionFile) (i : nat) (w : World Env) :
  download_from out_dir course assignment submission i (link :: links) [] w =
  match download_step out_dir course assignment submission [] i link w with
  | (Ok kept, w1) =>
      match download_from out_dir course assignment submission (S i) links [] w1 with
      | (Ok new, w') => (Ok (kept ++ new), w')
      | (Raise e, w') => (Raise e, w')
      end
  | (Raise e, w1) => (Raise e, w1)
  end.
Proof.
  unfold download_from at 1. cbn [for_enumerate]. rewrite run_bind.
  destruct (download_step _ _ _ _ [] i link w) as [[kept|e] w1]; [|done].
  apply download_from_acc.
Qed.

Lemma download_from_app (out_dir course assignment : string)
    (submission : InspectedSubmission) (l1 l2 : list SubmissionFile)
    (i : nat) (w : World Env) :
  download_from out_dir course assignment submission i (l1 ++ l2) [] w =
  match download_from out_dir course assignment submission i l1 [] w with
  | (Ok new1, w1) =>
      match download_from out_dir course assignment submission
              (i + length l1) l2 [] w1 with
      | (Ok new2, w') => (Ok (new1 ++ new2), w')
      | (Raise e, w') => (Raise e, w')
      end
  | (Raise e, w1) => (Raise e, w1)
  end.
Proof.
  revert i w. induction l1 as [|link l1 IH]; intros i w.
  - cbn [app length]. rewrite Nat.add_0_r.
    unfold download_from at 2. cbn [for_enumerate]. rewrite run_ret.
    by destruct (download_from _ _ _ _ i l2 [] w) as [[new|e] w'].
  - rewrite <- app_comm_cons, !download_from_cons.
    destruct (download_step _ _ _ _ [] i link w) as [[kept|e] w1]; [|done].
    rewrite IH.
    destruct (download_from _ _ _ _ (S i) l1 [] w1) as [[new1|e] w2]; [|done].
    cbn [length]. replace (i + S (length l1)) with (S i + length l1) by lia.
    destruct (download_from _ _ _ _ (S i + length l1) l2 [] w2)
      as [[new2|e] w3]; [|done].
    by rewrite app_assoc.
Qed.

(** The whole loop from candidate number [i]: it never raises; the files
    it returns are those of some of the candidates, in order, each under
    the number of its candidate and each on the disk. *)
Lemma download_from_spec (out_dir course assignment : string)
    (submission : InspectedSubmission) (links : list SubmissionFile)
    (i : nat) (w : World Env) :
  exists new w',
    download_from out_dir course assignment submission i links [] w
    = (Ok new, w') /\
    extends w w' /\
    StronglySorted lt (map df_index new) /\
    forall f, f ∈ new ->
      exists k link,
        links !! k = Some link /\
        f = downloaded course assignment submission (i + k) link /\
        is_regular (disk w') (path_join out_dir (df_path f)).
Proof.
  revert i w. induction links as [|link links IH]; intros i w.
  - exists [], w. unfold download_from. cbn [for_enumerate].
    split; [done|]. split; [apply extends_refl|]. split; [constructor|].
    intros f Hf. by apply elem_of_nil in Hf.
  - rewrite download_from_cons.
    destruct (download_step_result out_dir course assignment submission i link w)
      as (kept & w1 & -> & Hext1 & Hkept).
    destruct (IH (S i) w1) as (new & w' & -> & Hext2 & Hsorted & Hnew).
    exists (kept ++ new), w'. split; [done|].
    split; [by eapply extends_trans|].
    assert (forall f, f ∈ new -> S i < df_index f) as Hlater.
    { intros f (k & l & _ & -> & _)%Hnew. simpl. lia. }
    split.
    + destruct Hkept as [->|[-> _]]; [done|].
      cbn [app map]. constructor; [done|].
      apply Forall_fmap, Forall_forall. intros f Hf.
      specialize (Hlater f Hf). simpl. lia.
    + intros f [Hf|Hf]%elem_of_app.
      * destruct Hkept as [->|[-> Hreg]]; [by apply elem_of_nil in Hf|].
        apply list_elem_of_singleton in Hf as ->.
        exists 0, link. rewrite Nat.add_0_r. split; [done|]. split; [done|].
        eapply is_regular_kept; [apply Hext2|exact Hreg].
      * destruct (Hnew f Hf) as (k & l & Hk & -> & Hreg).
        exists (S k), l. split; [done|]. split; [|done].
        by replace (i + S k) with (S i + k) by lia.
Qed.

Lemma download_step_not_200 (out_dir course assignment : string)
    (submission : InspectedSubmission) (acc : list DownloadedFile)
    (index : nat) (link : SubmissionFile) (w : World Env)
    (r : Response) (e1 : Env) :
  requests_get (sf_url link) true (env w) = (Ok r, e1) ->
  status_code r <> 200%Z ->
  download_step out_dir course assignment submission acc index link w
  = (Ok acc, set_env w e1).
Proof.
  intros Hget Hstatus. unfold download_step, fetch, session_get. run.
  rewrite Hget. apply Z.eqb_neq in Hstatus as ->. reflexivity.
Qed.

Lemma download_step_raise (out_dir course assignment : string)
    (submission : InspectedSubmission) (acc : list DownloadedFile)
    (index : nat) (link : SubmissionFile) (w w1 : World Env) (e : Exn) :
  fetch out_dir course assignment submission acc index link w = (Raise e, w1) ->
  download_step out_dir course assignment submission acc index link w
  = (Ok acc, add_stdout w1 [PException e]).
Proof.
  intros Hfetch. unfold download_step, try_except. rewrite Hfetch. reflexivity.
Qed.

Lemma fetch_request_raise (out_dir course assignment : string)
    (submission : InspectedSubmission) (acc : list DownloadedFile)
    (index : nat) (link : SubmissionFile) (w : World Env) (e : Exn) (e1 : Env) :
  requests_get (sf_url link) true (env w) = (Raise e, e1) ->
  fetch out_dir course assignment submission acc index link w
  = (Raise e, set_env w e1).
Proof.
  intros Hget. unfold fetch, session_get. run. by rewrite Hget.
Qed.

(** C5: a candidate answered with a status other than 200, or whose
    download raises, is left out of the result and nothing is raised; the
    candidates before it and after it are processed as they would be
    anyway, the later ones from the world this candidate's attempt left. *)
Theorem download_skips_failed_candidates (out_dir course assignment : string)
    (submission : InspectedSubmission) (before after : list SubmissionFile)
    (link : SubmissionFile) (w : World Env) :
  sub_files submission = before ++ link :: after ->
  exists files1 w1 kept w2 files3 w',
    download_from out_dir course assignment submission 0 before [] w
    = (Ok files1, w1) /\
    download_step out_dir course assignment submission [] (length before) link w1
    = (Ok kept, w2) /\
    download_from out_dir course assignment submission (S (length before))
      after [] w2 = (Ok files3, w') /\
    download out_dir course assignment submission w
    = (Ok (files1 ++ kept ++ files3), w') /\
    (forall r e1,
       requests_get (sf_url link) true (env w1) = (Ok r, e1) ->
       status_code r <> 200%Z ->
       kept = [] /\ w2 = set_env w1 e1) /\
    (forall e e1,
       requests_get (sf_url link) true (env w1) = (Raise e, e1) ->
       kept = [] /\ w2 = add_stdout (set_env w1 e1) [PException e]) /\
    (forall e w1',
       fetch out_dir course assignment submission [] (length before) link w1
       = (Raise e, w1') ->
       kept = [] /\ w2 = add_stdout w1' [PException e]) /\
    (kept = [] ->
     forall f, f ∈ files1 ++ kept ++ files3 -> df_index f <> length before + 1).
Proof.
  intros Hfiles.
  destruct (download_from_spec out_dir course assignment submission before 0 w)
    as (files1 & w1 & Hrun1 & _ & _ & Hfiles1).
  destruct (download_step_result out_dir course assignment submission
              (length before) link w1) as (kept & w2 & Hstep & _ & _).
  destruct (download_from_spec out_dir course assignment submission after
              (S (length before)) w2) as (files3 & w' & Hrun3 & _ & _ & Hfiles3).
  exists files1, w1, kept, w2, files3, w'.
  split; [done|]. split; [done|]. split; [done|]. split.
  { change (download out_dir course assignment submission)
      with (download_from out_dir course assignment submission 0
              (sub_files submission) []).
    rewrite Hfiles, download_from_app, Hrun1, download_from_cons.
    cbn [Nat.add]. by rewrite Hstep, Hrun3. }
  split.
  { intros r e1 Hget Hstatus.
    rewrite (download_step_not_200 _ _ _ _ _ _ _ _ _ _ Hget Hstatus) in Hstep.
    by injection Hstep as <- <-. }
  split.
  { intros e e1 Hget.
    apply (fetch_request_raise out_dir course assignment submission []
             (length before)) in Hget.
    rewrite (download_step_raise _ _ _ _ _ _ _ _ _ _ Hget) in Hstep.
    by injection Hstep as <- <-. }
  split.
  { intros e w1' Hfetch.
    rewrite (download_step_raise _ _ _ _ _ _ _ _ _ _ Hfetch) in Hstep.
    by injection Hstep as <- <-. }
  intros -> f [Hf|Hf]%elem_of_app.
  - destruct (Hfiles1 f Hf) as (k & l & Hk & -> & _).
    apply lookup_lt_Some in Hk. simpl. lia.
  - cbn [app] in Hf. destruct (Hfiles3 f Hf) as (k & l & _ & -> & _).
    simpl. lia.
Qed.

(** Increasing positive numbers: the one at rank [k] (from 0) is at least
    [k + 1], and is [k + 1] only when no number below it is missing. *)
Lemma sorted_rank (l : list nat) (b : nat) :
  StronglySorted lt l -> Forall (lt b) l ->
  forall k x, l !! k = Some x ->
    b + k + 1 <= x /\
    (x = b + k + 1 -> forall i, b < i <= x -> i ∈ l).
Proof.
  intros Hsorted. revert b.
  induction Hsorted as [|y l Hl IH Hy]; intros b Hb k x Hk; [done|].
  apply Forall_cons in Hb as [Hby Hbl].
  destruct k as [|k]; simpl in Hk.
  - injection Hk as ->. split; [lia|].
    intros -> i Hi. replace i with (b + 0 + 1) by lia. left.
  - destruct (IH y Hy k x Hk) as [Hle Hfull]. split; [lia|].
    intros -> i Hi. destruct (decide (i = y)) as [->|Hne]; [left|].
    right. apply Hfull; lia.
Qed.

(** C10: the number a downloaded file carries, and that its name ends
    with, is the position of its candidate in the submission's list counted
    from 1, not the count of files downloaded so far: the numbers of the
    result increase strictly, lie between 1 and the number of candidates,
    and a file that comes after a skipped candidate has a number larger than
    its rank among the files downloaded. *)
Theorem download_index_is_position (out_dir course assignment : string)
    (submission : InspectedSubmission) (w : World Env) :
  exists files w',
    download out_dir course assignment submission w = (Ok files, w') /\
    StronglySorted lt (map df_index files) /\
    (forall f, f ∈ files ->
       1 <= df_index f <= length (sub_files submission) /\
       exists link,
         sub_files submission !! (df_index f - 1) = Some link /\
         df_ext f = sf_ext link /\
         df_path f = course +:+ "-" +:+ assignment +:+ "-"
                     +:+ sub_slug submission +:+ "-"
                     +:+ PyStr.of_nat (df_index f) +:+ "." +:+ sf_ext link) /\
    (forall k f, files !! k = Some f ->
       k + 1 <= df_index f /\
       forall i, 1 <= i < df_index f ->
         (forall g, g ∈ files -> df_index g <> i) ->
         k + 1 < df_index f).
Proof.
  destruct (download_from_spec out_dir course assignment submission
              (sub_files submission) 0 w) as (files & w' & Hrun & _ & Hsorted & Hfiles).
  exists files, w'. split; [exact Hrun|]. split; [exact Hsorted|]. split.
  - intros f (k & link & Hk & -> & _)%Hfiles.
    pose proof (lookup_lt_Some _ _ _ Hk) as Hlt.
    unfold downloaded, filename_of. cbn [df_index df_path df_ext].
    rewrite Nat.add_0_l.
    split; [lia|]. exists link.
    replace (k + 1 - 1) with k by lia. done.
  - intros k f Hk.
    assert (Forall (lt 0) (map df_index files)) as Hpos.
    { apply Forall_fmap, Forall_forall.
      intros g (j & l & _ & -> & _)%Hfiles. simpl. lia. }
    assert (map df_index files !! k = Some (df_index f)) as Hk'.
    { by rewrite list_lookup_fmap, Hk. }
    destruct (sorted_rank _ 0 Hsorted Hpos k _ Hk') as [Hle Hfull].
    split; [lia|]. intros i Hi Hmissing.
    destruct (decide (df_index f = 0 + k + 1)) as [Heq|]; [|lia].
    exfalso. assert (i ∈ map df_index files) as Hin by (apply Hfull; lia).
    apply list_elem_of_fmap in Hin as (g & -> & Hg).
    by apply (Hmissing g Hg).
Qed.

(** ** Slugs are path segments *)

Lemma has_char_app (c : ascii) (s1 s2 : string) :
  has_char c (s1 +:+ s2) = has_char c s1 || has_char c s2.
Proof.
  induction s1 as [|c1 s1 IH]; [done|].
  rewrite string_app_cons. simpl. by rewrite IH, orb_assoc.
Qed.

Lemma plain_app (s1 s2 : string) : plain s1 -> plain s2 -> plain (s1 +:+ s2).
Proof. unfold plain. rewrite has_char_app. by intros -> ->. Qed.

Lemma split_slash_plain (cur s : string) :
  plain cur -> Forall plain (PyStr.split_go "/" 0 cur s).
Proof.
  revert cur. induction s as [|c s IH]; intros cur Hcur.
  - by repeat constructor.
  - cbn [PyStr.split_go String.prefix].
    destruct (ascii_dec "/" c) as [<-|Hne].
    + replace (String.prefix "" s) with true by (by destruct s).
      constructor; [done|]. by apply IH.
    + apply IH, plain_app; [done|]. unfold plain. simpl.
      rewrite orb_false_r. apply Ascii.eqb_neq. congruence.
Qed.

Lemma lstrip_plain (s : string) : plain s -> plain (PyStr.lstrip s).
Proof.
  unfold plain. induction s as [|c s IH]; [done|]. simpl.
  intros [Hc Hs]%orb_false_elim. destruct (PyStr.isspace c); [auto|].
  simpl. by rewrite Hc, Hs.
Qed.

Lemma rstrip_plain (s : string) : plain s -> plain (PyStr.rstrip s).
Proof.
  unfold plain. induction s as [|c s IH]; [done|]. simpl.
  intros [Hc Hs]%orb_false_elim. specialize (IH Hs).
  destruct (PyStr.rstrip s) as [|c' s'].
  - destruct (PyStr.isspace c); [done|]. simpl. by rewrite Hc.
  - simpl in *. by rewrite Hc, IH.
Qed.

Lemma strip_plain (s : string) : plain s -> plain (PyStr.strip s).
Proof. intros H. by apply rstrip_plain, lstrip_plain. Qed.

Lemma index_from_end_elem {A} (l : list A) (k : nat) (x : A) :
  index_from_end l k = Ok x -> x ∈ l.
Proof.
  unfold index_from_end, PyStr.nth_from_end.
  destruct (_ && _); [|done].
  destruct (l !! _) as [y|] eqn:E; [|done].
  intros [= ->]. by eapply list_elem_of_lookup_2.
Qed.

(** A slug read off a link: a segment of the path, stripped. *)
Lemma segment_plain (h : string) (k : nat) (x : string) :
  index_from_end (PyStr.split "/" h) k = Ok x -> plain (PyStr.strip x).
Proof.
  intros Hx%index_from_end_elem. apply strip_plain.
  pose proof (split_slash_plain "" h eq_refl) as Hall.
  rewrite Forall_forall in Hall. by apply Hall.
Qed.

Lemma uint_plain (d : Decimal.uint) :
  plain (NilEmpty.string_of_uint d).
Proof. unfold plain. induction d; simpl; done. Qed.

Lemma of_nat_plain (n : nat) : plain (PyStr.of_nat n).
Proof.
  unfold PyStr.of_nat, NilZero.string_of_uint.
  destruct (Nat.to_uint n) eqn:E; try apply uint_plain. done.
Qed.

Lemma filename_of_plain (course assignment slug : string) (index : nat)
    (ext : string) :
  plain course -> plain assignment -> plain slug -> plain ext ->
  plain (filename_of course assignment slug index ext).
Proof.
  intros. unfold filename_of.
  repeat (apply plain_app; [try done|]); try done.
  apply of_nat_plain.
Qed.

Lemma filename_of_nonempty (course assignment slug : string) (index : nat)
    (ext : string) :
  filename_of course assignment slug index ext <> "".
Proof.
  unfold filename_of. destruct course as [|c course].
  - rewrite string_app_nil_l, string_app_cons. discriminate.
  - rewrite string_app_cons. discriminate.
Qed.

(** ** The staging directory and the archive *)

Lemma prefix_app (s t : string) : String.prefix s (s +:+ t) = true.
Proof.
  induction s as [|c s IH]; [by destruct t|].
  rewrite string_app_cons. simpl. by destruct (ascii_dec c c).
Qed.

Lemma path_join_plain (root name : string) :
  plain name -> path_join root name = path_join root "" +:+ name.
Proof.
  intros Hname. unfold path_join.
  assert (String.prefix "/" name = false) as ->.
  { destruct name as [|c name]; [done|]. cbn [String.prefix].
    destruct (ascii_dec "/" c) as [<-|Hc]; [discriminate Hname|done]. }
  cbn [String.prefix]. destruct (String.eqb root "" || PyStr.endswith root "/").
  - by rewrite string_app_nil_r.
  - by rewrite string_app_nil_r, string_app_assoc.
Qed.

Lemma child_name_join (root name : string) :
  plain name -> name <> "" ->
  child_name root (path_join root name) = Some name.
Proof.
  intros Hplain Hne. unfold child_name. cbv zeta.
  rewrite (path_join_plain root name) by done. set (dir := path_join root "").
  rewrite prefix_app, string_app_length.
  replace (String.length dir + String.length name - String.length dir)
    with (String.length name) by lia.
  rewrite substring_app_r. apply String.eqb_neq in Hne as ->.
  cbn [orb]. by rewrite Hplain.
Qed.

Lemma dir_entries_elem (root name data : string) (d : gmap string File) :
  plain name -> name <> "" ->
  d !! path_join root name = Some (Regular data) ->
  (name, data) ∈ dir_entries root d.
Proof.
  intros Hplain Hne Hfile. unfold dir_entries.
  apply list_elem_of_omap. exists (path_join root name, Regular data).
  split; [by apply elem_of_map_to_list|].
  cbn [fst snd]. by rewrite child_name_join.
Qed.

(** ** Listing and inspecting the courses *)

Lemma for_each_ok_inv {A St} (P : St -> Prop) (l : list A)
    (body : St -> A -> M St) :
  (forall s x w s' w', P s -> body s x w = (Ok s', w') -> P s') ->
  forall s w s' w', P s -> for_each l s body w = (Ok s', w') -> P s'.
Proof.
  intros Hbody. induction l as [|x l IH]; intros s w s' w' Hs; cbn [for_each].
  - by intros [= <- <-].
  - intros (s1 & w1 & H1 & H2)%bind_ok_inv. eauto.
Qed.

Lemma for_enumerate_ok_inv {A St} (P : St -> Prop) (Q : A -> Prop)
    (l : list A) (body : St -> nat -> A -> M St) :
  (forall s i x w s' w', Q x -> P s -> body s i x w = (Ok s', w') -> P s') ->
  Forall Q l ->
  forall i s w s' w', P s -> for_enumerate i l s body w = (Ok s', w') -> P s'.
Proof.
  intros Hbody Hl.
  induction Hl as [|x l Hx Hl IH]; intros i s w s' w' Hs; cbn [for_enumerate].
  - by intros [= <- <-].
  - intros (s1 & w1 & H1 & H2)%bind_ok_inv. eauto.
Qed.

Lemma lift_ok_inv {A} (r : Result A) (a : A) (w w' : World Env) :
  lift r w = (Ok a, w') -> r = Ok a /\ w' = w.
Proof. by intros [= -> ->]. Qed.

Lemma list_courses_plain (w w' : World Env) (slugs : list string) :
  (forall l, set_elements l ≡ₚ remove_dups l) ->
  list_courses w = (Ok slugs, w') -> Forall plain slugs.
Proof.
  intros Hset. unfold list_courses.
  intros (response & w1 & _ & Hrest)%bind_ok_inv.
  apply bind_ok_inv in Hrest as (results & w2 & Hloop & [= <- <-]).
  assert (Forall plain results) as Hresults.
  { eapply (for_each_ok_inv (Forall plain)); [|constructor|exact Hloop].
    intros s a v s' v' Hs.
    intros (h & v1 & _ & Hb)%bind_ok_inv.
    apply bind_ok_inv in Hb as (last & v2 & [Hlast _]%lift_ok_inv & [= <- <-]).
    apply Forall_app. split; [done|]. constructor; [|constructor].
    by eapply segment_plain. }
  rewrite Forall_forall in Hresults. apply Forall_forall. intros x Hx.
  apply Hresults. rewrite Hset in Hx. by apply elem_of_remove_dups.
Qed.

Lemma inspect_row_plain (assignments assignments' : list InspectedAssignmentFromCourse)
    (row : Row) (w w' : World Env) :
  Forall plain_assignment assignments ->
  inspect_row assignments row w = (Ok assignments', w') ->
  Forall plain_assignment assignments'.
Proof.
  intros Hplain. unfold inspect_row.
  destruct (row_a row) as [a|]; [|by intros [= <- <-]].
  destruct (row_score row) as [score|]; [|by intros [= <- <-]].
  intros (h & w1 & _ & Hb)%bind_ok_inv.
  apply bind_ok_inv in Hb as (slug & w2 & [Hslug _]%lift_ok_inv & Hb).
  apply bind_ok_inv in Hb as (sub & w3 & [Hsub _]%lift_ok_inv & [= <- <-]).
  apply Forall_app. split; [done|]. constructor; [|constructor].
  split; simpl; by eapply segment_plain.
Qed.

Lemma inspect_course_plain (slug : string) (w w' : World Env)
    (course : InspectedCourse) :
  plain slug -> inspect_course slug w = (Ok course, w') -> plain_course course.
Proof.
  intros Hslug. unfold inspect_course.
  intros (response & w1 & _ & Hb)%bind_ok_inv.
  apply bind_ok_inv in Hb as (rows & w2 & _ & Hb).
  apply bind_ok_inv in Hb as (assignments & w3 & Hrows & Hb).
  apply bind_ok_inv in Hb as (short_name & w4 & _ & Hb).
  apply bind_ok_inv in Hb as (long_name & w5 & _ & Hb).
  apply bind_ok_inv in Hb as (term & w6 & _ & Hb).
  apply bind_ok_inv in Hb as (roster & w7 & _ & [= <- <-]).
  split; [done|]. simpl.
  eapply (for_each_ok_inv (Forall plain_assignment)); [|constructor|exact Hrows].
  intros s x v s' v'. apply inspect_row_plain.
Qed.

Lemma inspect_all_plain (w w' : World Env) (courses : list InspectedCourse) :
  (forall l, set_elements l ≡ₚ remove_dups l) ->
  inspect_all w = (Ok courses, w') -> Forall plain_course courses.
Proof.
  intros Hset. unfold inspect_all.
  intros (slugs & w1 & Hslugs%list_courses_plain & Hloop)%bind_ok_inv; [|done].
  eapply (for_enumerate_ok_inv (Forall plain_course) plain);
    [|exact Hslugs|constructor|exact Hloop].
  intros acc i slug v acc' v' Hslug Hacc.
  intros (course & v1 & Hcourse & Hb)%bind_ok_inv.
  apply bind_ok_inv in Hb as ([] & v2 & _ & [= <- <-]).
  apply Forall_app. split; [done|]. constructor; [|constructor].
  by eapply inspect_course_plain.
Qed.

Lemma preserves_list_courses : preserves list_courses.
Proof.
  unfold list_courses.
  apply preserves_bind; [apply preserves_session_get|]. intros response.
  apply preserves_bind; [|intros; apply preserves_ret].
  apply preserves_for_each. intros results link.
  apply preserves_bind; [apply preserves_lift|]. intros h.
  apply preserves_bind; [apply preserves_lift|]. intros last.
  apply preserves_ret.
Qed.

Lemma preserves_inspect_course (slug : string) :
  preserves (inspect_course slug).
Proof.
  unfold inspect_course.
  apply preserves_bind; [apply preserves_session_get|]. intros response.
  apply preserves_bind; [apply preserves_lift|]. intros rows.
  apply preserves_bind.
  { apply preserves_for_each. intros assignments row. unfold inspect_row.
    destruct (row_a row), (row_score row); try apply preserves_ret.
    repeat (apply preserves_bind; [apply preserves_lift|]; intros ?).
    apply preserves_ret. }
  intros assignments.
  repeat (apply preserves_bind; [apply preserves_lift|]; intros ?).
  apply preserves_ret.
Qed.

Lemma preserves_inspect_all : preserves inspect_all.
Proof.
  unfold inspect_all.
  apply preserves_bind; [apply preserves_list_courses|]. intros slugs.
  apply preserves_for_enumerate. intros courses i slug.
  apply preserves_bind; [apply preserves_inspect_course|]. intros course.
  apply preserves_bind; [by apply preserves_print|]. intros _.
  apply preserves_ret.
Qed.

(** ** The report *)

Lemma print_run (p : Printed) (w : World Env) :
  print p w = (Ok tt, add_stdout w [p]).
Proof. reflexivity. Qed.

Lemma readme_write_run (c : ReadmeChunk) (w : World Env) :
  readme_write c w = (Ok tt, add_readme w [c]).
Proof. reflexivity. Qed.

Lemma add_readme_nil (w : World Env) : add_readme w [] = w.
Proof. destruct w. unfold add_readme. simpl. by rewrite app_nil_r. Qed.

Lemma add_readme_app (w : World Env) (l1 l2 : list ReadmeChunk) :
  add_readme (add_readme w l1) l2 = add_readme w (l1 ++ l2).
Proof. unfold add_readme. simpl. by rewrite <- app_assoc. Qed.

Lemma write_links_run (files : list DownloadedFile) (w : World Env) :
  for_each files tt (fun _ file => readme_write (RLink file)) w
  = (Ok tt, add_readme w (map RLink files)).
Proof.
  revert w. induction files as [|f files IH]; intros w; cbn [for_each map].
  - by rewrite run_ret, add_readme_nil.
  - by rewrite run_bind, readme_write_run, IH, add_readme_app.
Qed.

Lemma readme_links_app (l1 l2 : list ReadmeChunk) :
  readme_links (l1 ++ l2) = readme_links l1 ++ readme_links l2.
Proof. apply omap_app. Qed.

Lemma readme_links_map (files : list DownloadedFile) :
  readme_links (map RLink files) = files.
Proof. induction files as [|f files IH]; simpl; [done|by rewrite IH]. Qed.

Lemma lines_from_app (total i a b : nat) :
  lines_from total i (a + b) = lines_from total i a ++ lines_from total (i + a) b.
Proof. unfold lines_from. by rewrite seq_app, map_app. Qed.

Lemma advanced_refl (ok : Prop) (w : World Env) : advanced ok w w [].
Proof. split; [by rewrite app_nil_r|apply files_kept_refl|done]. Qed.

Lemma advanced_trans (ok : Prop) (w1 w2 w3 : World Env)
    (l1 l2 : list (nat * nat)) :
  advanced ok w1 w2 l1 -> advanced ok w2 w3 l2 -> advanced ok w1 w3 (l1 ++ l2).
Proof.
  intros [Hp1 Hd1 Hl1] [Hp2 Hd2 Hl2]. split.
  - by rewrite Hp2, Hp1, app_assoc.
  - by eapply files_kept_trans.
  - auto.
Qed.

Lemma advanced_weaken (ok ok' : Prop) (w w' : World Env)
    (lines : list (nat * nat)) :
  (ok' -> ok) -> advanced ok w w' lines -> advanced ok' w w' lines.
Proof. intros Hok [Hp Hd Hl]. split; auto. Qed.

Lemma advanced_extends (ok : Prop) (w w' : World Env) :
  extends w w' -> advanced ok w w' [].
Proof.
  intros [(log & Hout & Hlog) Hreadme Hdisk]. split.
  - by rewrite Hout, progress_lines_app, Hlog.
  - done.
  - intros _ Hlinks f Hf. rewrite Hreadme in Hf.
    destruct (Hlinks f Hf) as (? & ? & ?).
    split; [done|]. split; [done|]. by eapply is_regular_kept.
Qed.

Lemma extends_print (p : Printed) (w : World Env) :
  progress_lines [p] = [] -> extends w (add_stdout w [p]).
Proof. intros Hp. by apply (preserves_print p Hp w (Ok tt)). Qed.

Lemma advanced_progress (ok : Prop) (w : World Env) (i n : nat)
    (short_name name grade : string) :
  advanced ok w (add_stdout w [PAssignment i n short_name name grade]) [(i, n)].
Proof.
  split; [simpl; by rewrite progress_lines_app|apply files_kept_refl|done].
Qed.

Lemma advanced_write (ok : Prop) (w : World Env) (c : ReadmeChunk) :
  readme_links [c] = [] -> advanced ok w (add_readme w [c]) [].
Proof.
  intros Hc. split; [simpl; by rewrite app_nil_r|apply files_kept_refl|].
  intros _ Hlinks f. unfold add_readme. cbn [readme disk].
  rewrite readme_links_app, Hc, app_nil_r. apply Hlinks.
Qed.

Lemma advanced_write_links (ok : Prop) (w : World Env)
    (files : list DownloadedFile) :
  (ok -> forall f, f ∈ files ->
     plain (df_path f) /\ df_path f <> "" /\
     is_regular (disk w) (path_join tmpdir (df_path f))) ->
  advanced ok w (add_readme w (map RLink files)) [].
Proof.
  intros Hfiles. split; [simpl; by rewrite app_nil_r|apply files_kept_refl|].
  intros Hok Hlinks f. unfold add_readme. cbn [readme disk].
  rewrite readme_links_app, readme_links_map.
  intros [Hf|Hf]%elem_of_app; [by apply Hlinks|by apply Hfiles].
Qed.

Lemma export_submission_spec (course : InspectedCourse)
    (assignment : InspectedAssignmentFromCourse) (total i_assignment i : nat)
    (submission : InspectedSubmission) (w : World Env) :
  exists w',
    export_submission course assignment total i_assignment i submission w
    = (Ok (i_assignment + 1), w') /\
    advanced (plain (crs_slug course) /\ plain (asg_slug assignment) /\
              plain (sub_slug submission) /\
              Forall (fun link => plain (sf_ext link)) (sub_files submission))
      w w' [].
Proof.
  unfold export_submission. rewrite run_bind, print_run.
  set (w1 := add_stdout w _).
  destruct (download_from_spec tmpdir (crs_slug course) (asg_slug assignment)
              submission (sub_files submission) 0 w1)
    as (files & w2 & Hrun & Hext & _ & Hfiles).
  change (download tmpdir (crs_slug course) (asg_slug assignment) submission)
    with (download_from tmpdir (crs_slug course) (asg_slug assignment)
            submission 0 (sub_files submission) []).
  rewrite run_bind, Hrun, run_bind, print_run, run_bind.
  set (w3 := add_stdout w2 _).
  set (chunk := if (length files =? 0)%nat
                then RNoFiles (sub_slug submission)
                else RSubmission (sub_slug submission)).
  assert ((if (length files =? 0)%nat
           then readme_write (RNoFiles (sub_slug submission))
           else readme_write (RSubmission (sub_slug submission))) w3
          = (Ok tt, add_readme w3 [chunk])) as ->.
  { subst chunk. by destruct (length files =? 0)%nat. }
  rewrite run_bind, write_links_run, run_bind, readme_write_run, run_ret.
  eexists. split; [reflexivity|].
  change (@nil (nat * nat)) with ([] ++ [] ++ [] ++ [] ++ [] ++ @nil (nat * nat)).
  eapply advanced_trans.
  { apply (advanced_extends _ w w1). by apply extends_print. }
  eapply advanced_trans; [by apply (advanced_extends _ w1 w2)|].
  eapply advanced_trans.
  { apply (advanced_extends _ w2 w3). by apply extends_print. }
  eapply advanced_trans.
  { apply (advanced_write _ w3 chunk).
    subst chunk. by destruct (length files =? 0)%nat. }
  eapply advanced_trans; [|by apply advanced_write].
  apply (advanced_write_links _ _ files).
  intros (Hc & Ha & Hs & Hexts) f (k & link & Hk & -> & Hreg)%Hfiles.
  split; [|split; [apply filename_of_nonempty|exact Hreg]].
  apply filename_of_plain; try done.
  rewrite Forall_forall in Hexts. apply Hexts.
  by eapply list_elem_of_lookup_2.
Qed.

Lemma list_submissions_spec (course : InspectedCourse)
    (assignment : InspectedAssignmentFromCourse) (w : World Env) :
  exists files w',
    list_submissions course assignment w
    = (Ok [ {| sub_slug := asg_submission assignment; sub_files := files |} ], w') /\
    extends w w' /\
    Forall (fun link => plain (sf_ext link)) files.
Proof.
  destruct (list_submissions course assignment w) as [r w'] eqn:Hrun.
  pose proof (preserves_list_submissions _ _ _ _ _ Hrun) as Hext.
  rewrite list_submissions_run in Hrun. cbv zeta in Hrun.
  destruct (requests_get _ false (env w)) as [[response|e] e1].
  - destruct (py_contains "pdf" (located_link response)) as [[]|e];
      injection Hrun as <- <-; eexists _, _;
      (split; [done|]); (split; [done|]); by repeat constructor.
  - injection Hrun as <- <-. eexists _, _.
    split; [done|]. split; [done|]. by repeat constructor.
Qed.

Lemma export_assignment_spec (n_assignments : nat) (course : InspectedCourse)
    (i_assignment : nat) (assignment : InspectedAssignmentFromCourse)
    (w : World Env) :
  exists w',
    export_assignment n_assignments course i_assignment assignment w
    = (Ok (i_assignment + 1), w') /\
    advanced (plain (crs_slug course) /\ plain_assignment assignment) w w'
      [(i_assignment, n_assignments)].
Proof.
  unfold export_assignment.
  rewrite run_bind, print_run, run_bind, readme_write_run.
  set (w1 := add_stdout w _). set (w2 := add_readme w1 _).
  destruct (list_submissions_spec course assignment w2)
    as (files & w3 & Hrun & Hext & Hexts).
  rewrite run_bind, Hrun. cbn [for_enumerate length].
  set (submission := {| sub_slug := _; sub_files := files |}).
  destruct (export_submission_spec course assignment 1 i_assignment 0
              submission w3) as (w4 & Hsub & Hadv).
  rewrite run_bind, Hsub, run_ret.
  exists w4. split; [done|].
  change [(i_assignment, n_assignments)]
    with ([(i_assignment, n_assignments)] ++ [] ++ [] ++ @nil (nat * nat)).
  eapply advanced_trans; [apply (advanced_progress _ w)|].
  eapply advanced_trans;
    [by apply (advanced_write _ w1 (RAssignment (asg_name assignment)
                                      (asg_grade assignment)))|].
  eapply advanced_trans; [by apply (advanced_extends _ w2 w3)|].
  eapply advanced_weaken; [|exact Hadv].
  intros (Hc & Ha & Hs). done.
Qed.

Lemma export_assignments_spec (n_assignments : nat) (course : InspectedCourse)
    (assignments : list InspectedAssignmentFromCourse) (i_assignment : nat)
    (w : World Env) :
  exists w',
    for_each assignments i_assignment (export_assignment n_assignments course) w
    = (Ok (i_assignment + length assignments), w') /\
    advanced (plain (crs_slug course) /\ Forall plain_assignment assignments)
      w w' (lines_from n_assignments i_assignment (length assignments)).
Proof.
  revert i_assignment w.
  induction assignments as [|a assignments IH]; intros i w; cbn [for_each length].
  - exists w. rewrite Nat.add_0_r. split; [done|]. apply advanced_refl.
  - destruct (export_assignment_spec n_assignments course i a w)
      as (w1 & Hrun & Hadv).
    destruct (IH (i + 1) w1) as (w2 & Hrest & Hadv').
    exists w2. rewrite run_bind, Hrun, Hrest. split; [f_equal; f_equal; lia|].
    change (S (length assignments)) with (1 + length assignments).
    rewrite lines_from_app.
    eapply advanced_trans.
    + eapply advanced_weaken; [|exact Hadv].
      intros [Hc [Ha _]%Forall_cons]. done.
    + eapply advanced_weaken; [|exact Hadv'].
      intros [Hc [_ Has]%Forall_cons]. done.
Qed.

Lemma export_course_spec (n_assignments i_assignment : nat)
    (course : InspectedCourse) (w : World Env) :
  exists w',
    export_course n_assignments i_assignment course w
    = (Ok (i_assignment + length (crs_assignments course)), w') /\
    advanced (plain_course course) w w'
      (lines_from n_assignments i_assignment (length (crs_assignments course))).
Proof.
  unfold export_course. rewrite run_bind, readme_write_run.
  destruct (export_assignments_spec n_assignments course
              (crs_assignments course) i_assignment
              (add_readme w [RCourse course])) as (w' & Hrun & Hadv).
  exists w'. split; [done|].
  change (lines_from _ _ _) with ([] ++ lines_from n_assignments i_assignment
                                          (length (crs_assignments course))).
  eapply advanced_trans; [by apply (advanced_write _ w (RCourse course))|].
  exact Hadv.
Qed.

Lemma count_assignments_cons (course : InspectedCourse)
    (courses : list InspectedCourse) :
  count_assignments (course :: courses)
  = length (crs_assignments course) + count_assignments courses.
Proof. reflexivity. Qed.

Lemma count_assignments_app (l1 l2 : list InspectedCourse) :
  count_assignments (l1 ++ l2) = count_assignments l1 + count_assignments l2.
Proof.
  induction l1 as [|c l1 IH]; [done|].
  rewrite <- app_comm_cons, !count_assignments_cons, IH. lia.
Qed.

Lemma count_assignments_perm (l1 l2 : list InspectedCourse) :
  l1 ≡ₚ l2 -> count_assignments l1 = count_assignments l2.
Proof.
  induction 1; rewrite ?count_assignments_cons; lia.
Qed.

Lemma export_courses_spec (n_assignments : nat)
    (courses : list InspectedCourse) (i_assignment : nat) (w : World Env) :
  exists w',
    for_each courses i_assignment (export_course n_assignments) w
    = (Ok (i_assignment + count_assignments courses), w') /\
    advanced (Forall plain_course courses) w w'
      (lines_from n_assignments i_assignment (count_assignments courses)).
Proof.
  revert i_assignment w.
  induction courses as [|c courses IH]; intros i w; cbn [for_each].
  - exists w. rewrite Nat.add_0_r. split; [done|]. apply advanced_refl.
  - destruct (export_course_spec n_assignments i c w) as (w1 & Hrun & Hadv).
    destruct (IH (i + length (crs_assignments c)) w1) as (w2 & Hrest & Hadv').
    exists w2. rewrite run_bind, Hrun, Hrest, count_assignments_cons.
    split; [f_equal; f_equal; lia|].
    rewrite lines_from_app.
    eapply advanced_trans.
    + eapply advanced_weaken; [|exact Hadv]. by intros [? _]%Forall_cons.
    + eapply advanced_weaken; [|exact Hadv']. by intros [_ ?]%Forall_cons.
Qed.

Lemma export_term_spec (n_assignments i_assignment : nat)
    (group : string * list InspectedCourse) (w : World Env) :
  exists w',
    export_term n_assignments i_assignment group w
    = (Ok (i_assignment + count_assignments group.2), w') /\
    advanced (Forall plain_course group.2) w w'
      (lines_from n_assignments i_assignment (count_assignments group.2)).
Proof.
  unfold export_term. rewrite run_bind, readme_write_run.
  destruct (export_courses_spec n_assignments group.2 i_assignment
              (add_readme w [RTerm group.1])) as (w' & Hrun & Hadv).
  exists w'. split; [done|].
  change (lines_from _ _ _) with ([] ++ lines_from n_assignments i_assignment
                                          (count_assignments group.2)).
  eapply advanced_trans; [by apply (advanced_write _ w (RTerm group.1))|].
  exact Hadv.
Qed.

Lemma export_terms_spec (n_assignments : nat)
    (groups : list (string * list InspectedCourse)) (i_assignment : nat)
    (w : World Env) :
  exists w',
    for_each groups i_assignment (export_term n_assignments) w
    = (Ok (i_assignment + count_assignments (concat groups.*2)), w') /\
    advanced (Forall plain_course (concat groups.*2)) w w'
      (lines_from n_assignments i_assignment
         (count_assignments (concat groups.*2))).
Proof.
  revert i_assignment w.
  induction groups as [|group groups IH]; intros i w; cbn [for_each].
  - exists w. cbn. rewrite Nat.add_0_r. split; [done|]. apply advanced_refl.
  - destruct (export_term_spec n_assignments i group w) as (w1 & Hrun & Hadv).
    destruct (IH (i + count_assignments group.2) w1) as (w2 & Hrest & Hadv').
    exists w2. rewrite run_bind, Hrun, Hrest.
    rewrite fmap_cons. cbn [concat]. rewrite count_assignments_app.
    split; [f_equal; f_equal; lia|].
    rewrite lines_from_app.
    eapply advanced_trans.
    + eapply advanced_weaken; [|exact Hadv]. by intros [? _]%Forall_app.
    + eapply advanced_weaken; [|exact Hadv']. by intros [_ ?]%Forall_app.
Qed.

Lemma dict_append_perm {V} (d : Dict.t (list V)) (k : string) (v : V) :
  concat (Dict.set d k (default [] (Dict.get d k) ++ [v])).*2
  ≡ₚ v :: concat d.*2.
Proof.
  induction d as [|[k' vs] d IH]; [done|].
  cbn [Dict.set Dict.get]. destruct (String.eqb k' k).
  - rewrite !fmap_cons. cbn [snd concat default].
    rewrite <- app_assoc. cbn [app]. by rewrite <- Permutation_middle.
  - rewrite !fmap_cons. cbn [snd concat]. rewrite IH.
    by rewrite <- Permutation_middle.
Qed.

Lemma group_by_term_perm (courses : list InspectedCourse) :
  concat (group_by_term courses).*2 ≡ₚ courses.
Proof.
  unfold group_by_term.
  assert (forall d : Dict.t (list InspectedCourse),
            concat (foldl (fun by_term course =>
                      Dict.set by_term (crs_term course)
                        (default [] (Dict.get by_term (crs_term course))
                         ++ [course])) d courses).*2
            ≡ₚ concat d.*2 ++ courses) as Hfold.
  { induction courses as [|c courses IH]; intros d; cbn [foldl].
    - by rewrite app_nil_r.
    - rewrite IH, dict_append_perm. by rewrite <- Permutation_middle. }
  apply Hfold.
Qed.

Lemma sorted_groups_courses (courses : list InspectedCourse) :
  concat (sorted_groups courses).*2 ≡ₚ courses.
Proof. by rewrite sorted_groups_perm, group_by_term_perm. Qed.

Lemma export_all_spec (courses : list InspectedCourse) (w : World Env) :
  exists w',
    export_all courses w = (Ok (1 + count_assignments courses), w') /\
    advanced (Forall plain_course courses) w w'
      (lines_from (count_assignments courses) 1 (count_assignments courses)).
Proof.
  unfold export_all. cbv zeta.
  rewrite run_bind, print_run, run_bind, sort_courses_run.
  set (w1 := add_stdout w _). set (w2 := add_stdout w1 _).
  destruct (export_terms_spec (count_assignments courses) (sorted_groups courses)
              1 w2) as (w' & Hrun & Hadv).
  rewrite (count_assignments_perm _ _ (sorted_groups_courses courses)) in Hrun, Hadv.
  exists w'. split; [done|].
  change (lines_from _ _ _)
    with ([] ++ [] ++ lines_from (count_assignments courses) 1
                        (count_assignments courses)).
  eapply advanced_trans.
  { apply (advanced_extends _ w w1). by apply extends_print. }
  eapply advanced_trans.
  { apply (advanced_extends _ w1 w2).
    eapply preserves_sort_courses. apply sort_courses_run. }
  eapply advanced_weaken; [|exact Hadv].
  intros Hplain. by rewrite sorted_groups_courses.
Qed.

(** ** The whole run *)

Lemma startup_ok (w w0 : World Env) :
  startup w = (Ok tt, w0) ->
  stdout w0 = stdout w ++ [PBanner; PInspecting] /\ readme w0 = [RHeader].
Proof.
  unfold startup, readme_open, open_w, syscall, print, readme_write. run.
  cbn [env disk stdout readme].
  destruct (os_fault _ (env w)) as [[e|] e1]; intros [= <-]; simpl.
  by rewrite <- app_assoc.
Qed.

Lemma readme_close_run (w : World Env) :
  readme_close w
  = (Ok tt, mkWorld (env w)
              (<[readme_path := Regular (render_readme VERSION stamp (readme w))]>
                 (disk w))
              (stdout w) (readme w)).
Proof. reflexivity. Qed.

Lemma make_archive_ok (base_name root_dir : string) (w w' : World Env) :
  make_archive base_name root_dir w = (Ok tt, w') ->
  stdout w' = stdout w /\ readme w' = readme w /\
  disk w' = <[archive_name base_name := Archive (dir_entries root_dir (disk w))]>
              (disk w).
Proof.
  unfold make_archive, syscall.
  by destruct (os_fault _ (env w)) as [[e|] e1]; intros [= <-].
Qed.

(** [main] by its steps: the start up to the listing of the courses, the
    inspection and the export, after which the README is closed whether they
    raised or not, and the archive. *)
Lemma main_run (w : World Env) :
  main w
  = match startup w with
    | (Ok _, w0) =>
        match (courses ← inspect_all; export_all courses) w0 with
        | (Ok _, w2) =>
            (make_archive output tmpdir;; mret tt) (readme_close w2).2
        | (Raise e, w2) => (Raise e, (readme_close w2).2)
        end
    | (Raise e, w0) => (Raise e, w0)
    end.
Proof.
  unfold main, with_readme, finally, startup, readme_open, open_w, syscall,
    print, readme_write.
  run. cbn [env disk stdout readme].
  destruct (os_fault _ (env w)) as [[e|] e1]; [done|].
  cbn [env disk stdout readme].
  match goal with
  | |- context [match ?m ?w0 with (_, _) => _ end] =>
      destruct (m w0) as [[courses|e] w1]
  end; [|done].
  by destruct (export_all courses w1) as [[n|e] w2].
Qed.

(** The steps of a run of [main] that ends well. *)
Lemma main_ok (w w' : World Env) :
  main w = (Ok tt, w') ->
  exists courses w0 w1 w2,
    startup w = (Ok tt, w0) /\
    inspect_all w0 = (Ok courses, w1) /\
    export_all courses w1 = (Ok (1 + count_assignments courses), w2) /\
    advanced (Forall plain_course courses) w1 w2
      (lines_from (count_assignments courses) 1 (count_assignments courses)) /\
    make_archive output tmpdir
      (mkWorld (env w2)
         (<[readme_path := Regular (render_readme VERSION stamp (readme w2))]>
            (disk w2))
         (stdout w2) (readme w2))
    = (Ok tt, w').
Proof.
  rewrite main_run.
  destruct (startup w) as [[[]|e] w0]; [|done].
  rewrite run_bind.
  destruct (inspect_all w0) as [[courses|e] w1] eqn:Hinspect; [|done].
  destruct (export_all_spec courses w1) as (w2 & Hexport & Hadv).
  rewrite Hexport, readme_close_run. cbn [snd].
  intros ([] & w3 & Harchive & [= <-])%bind_ok_inv.
  by exists courses, w0, w1, w2.
Qed.

(** C6: in a run of [main] that ends well, the per-assignment progress
    lines are as many as the assignments of the inspected courses, summed
    over the courses; the k-th line shows the counter at k and that total,
    the counter having started at 1 and grown by one per submission. *)
Theorem progress_lines_count_assignments (w w' : World Env) :
  main w = (Ok tt, w') ->
  exists courses w0 w1 w2,
    startup w = (Ok tt, w0) /\
    inspect_all w0 = (Ok courses, w1) /\
    export_all courses w1 = (Ok (1 + count_assignments courses), w2) /\
    count_assignments courses
    = sum_list (map (fun course => length (crs_assignments course)) courses) /\
    progress_lines (stdout w')
    = progress_lines (stdout w)
      ++ map (fun k => (k, count_assignments courses))
             (seq 1 (count_assignments courses)) /\
    length (progress_lines (stdout w'))
    = length (progress_lines (stdout w)) + count_assignments courses.
Proof.
  intros (courses & w0 & w1 & w2 & Hstart & Hinspect & Hexport & Hadv
          & Harchive)%main_ok.
  exists courses, w0, w1, w2.
  split; [done|]. split; [done|]. split; [done|]. split; [done|].
  assert (progress_lines (stdout w')
          = progress_lines (stdout w)
            ++ lines_from (count_assignments courses) 1
                 (count_assignments courses)) as Hlines.
  { apply make_archive_ok in Harchive as (-> & _ & _). cbn [stdout].
    rewrite (adv_progress _ _ _ _ Hadv).
    destruct (preserves_inspect_all _ _ _ Hinspect) as [(log & -> & Hlog) _ _].
    apply startup_ok in Hstart as [-> _].
    rewrite !progress_lines_app, Hlog. cbn [progress_lines omap].
    by rewrite !app_nil_r. }
  split; [exact Hlines|].
  rewrite Hlines, length_app. unfold lines_from.
  by rewrite length_map, length_seq.
Qed.

(** C9: in a run of [main] that ends well, every file name the README
    links to names a regular file of the staging directory, one that
    [download] wrote there, and the archive holds the README and every
    regular file of the staging directory, so each linked name is an entry of
    the archive.  The slugs are path segments because a set iterates over
    the elements added to it. *)
Theorem readme_links_are_archived (w w' : World Env) :
  (forall l, set_elements l ≡ₚ remove_dups l) ->
  main w = (Ok tt, w') ->
  exists (staged : gmap string File) (entries : list (string * string)),
    entries = dir_entries tmpdir staged /\
    disk w' = <[archive_name output := Archive entries]> staged /\
    ("README.md", render_readme VERSION stamp (readme w')) ∈ entries /\
    forall f, f ∈ readme_links (readme w') ->
      exists data,
        staged !! path_join tmpdir (df_path f) = Some (Regular data) /\
        (df_path f, data) ∈ entries.
Proof.
  intros Hset (courses & w0 & w1 & w2 & Hstart & Hinspect & Hexport
               & Hadv & Harchive)%main_ok.
  apply make_archive_ok in Harchive as (_ & Hreadme & Hdisk).
  cbn [disk readme] in Hreadme, Hdisk.
  set (text := render_readme VERSION stamp (readme w2)) in *.
  set (staged := <[readme_path := Regular text]> (disk w2)) in *.
  exists staged, (dir_entries tmpdir staged).
  split; [done|]. split; [done|]. rewrite Hreadme.
  assert (links_ok w2) as Hlinks.
  { apply (adv_links _ _ _ _ Hadv); [by eapply inspect_all_plain|].
    apply (adv_links True w0 w1 []); [|done|].
    - apply advanced_extends. by eapply preserves_inspect_all.
    - intros f Hf. apply startup_ok in Hstart as [_ Hr].
      rewrite Hr in Hf. by apply elem_of_nil in Hf. }
  split.
  - apply dir_entries_elem; [done|done|]. apply lookup_insert_eq.
  - intros f (Hplain & Hne & Hreg)%Hlinks.
    destruct (is_regular_kept _ staged _ (files_kept_insert _ readme_path text)
                Hreg) as [data Hdata].
    exists data. split; [done|]. by apply dir_entries_elem.
Qed.

(** ** More on [sort_courses]: the groups, the warnings, the ties *)

Lemma before_lookup {A} (a b : A) (l : list A) :
  before a b l -> exists i j, i < j /\ l !! i = Some a /\ l !! j = Some b.
Proof.
  intros (l1 & l2 & l3 & ->).
  exists (length l1), (length l1 + S (length l2)). split; [lia|]. split.
  - by apply list_lookup_middle.
  - rewrite lookup_app_r by lia.
    replace (length l1 + S (length l2) - length l1) with (S (length l2)) by lia.
    simpl. by apply list_lookup_middle.
Qed.

Lemma before_cons {A} (a b x : A) (l : list A) :
  before a b l -> before a b (x :: l).
Proof. intros (l1 & l2 & l3 & ->). by exists (x :: l1), l2, l3. Qed.

Lemma before_head {A} (a b : A) (l : list A) : b ∈ l -> before a b (a :: l).
Proof.
  intros (l2 & l3 & ->)%list_elem_of_split. by exists [], l2, l3.
Qed.

Lemma before_cons_inv {A} (a b x : A) (l : list A) :
  before a b (x :: l) -> (a = x /\ b ∈ l) \/ before a b l.
Proof.
  intros ([|y l1] & l2 & l3 & H); simplify_list_eq.
  - left. split; [done|]. apply elem_of_app. right. left.
  - right. by exists l1, l2, l3.
Qed.

Lemma before_snoc_inv {A} (a b x : A) (l : list A) :
  before a b (l ++ [x]) -> before a b l \/ (b = x /\ a ∈ l).
Proof.
  induction l as [|y l IH]; cbn [app].
  - intros [[_ H]|H]%before_cons_inv; [by apply elem_of_nil in H|].
    destruct H as ([|? ?] & ? & ? & ?); simplify_list_eq.
  - intros [[-> Hb]|H]%before_cons_inv.
    + apply elem_of_app in Hb as [Hb|Hb%list_elem_of_singleton].
      * left. by apply before_head.
      * right. split; [done|left].
    + destruct (IH H) as [Hl|[-> Ha]].
      * left. by apply before_cons.
      * right. split; [done|by right].
Qed.

Lemma before_fmap {A B} (f : A -> B) (a b : A) (l : list A) :
  before a b l -> before (f a) (f b) (f <$> l).
Proof.
  intros (l1 & l2 & l3 & ->). exists (f <$> l1), (f <$> l2), (f <$> l3).
  by rewrite fmap_app, fmap_cons, fmap_app, fmap_cons.
Qed.

Lemma before_total {A} (a b : A) (l : list A) :
  a ∈ l -> b ∈ l -> a <> b -> before a b l \/ before b a l.
Proof.
  intros (l1 & l2 & ->)%list_elem_of_split Hb Hne.
  apply elem_of_app in Hb as [Hb|Hb].
  - right. apply list_elem_of_split in Hb as (m1 & m2 & ->).
    exists m1, m2, l2. by rewrite <- app_assoc.
  - apply elem_of_cons in Hb as [->|Hb]; [done|].
    left. apply list_elem_of_split in Hb as (m1 & m2 & ->).
    by exists l1, m1, m2.
Qed.

Lemma before_asym {A} (a b : A) (l : list A) :
  NoDup l -> before a b l -> ~ before b a l.
Proof.
  intros Hnd (i & j & Hij & Hi & Hj)%before_lookup
    (i' & j' & Hij' & Hi' & Hj')%before_lookup.
  pose proof (NoDup_lookup _ _ _ _ Hnd Hi Hj').
  pose proof (NoDup_lookup _ _ _ _ Hnd Hj Hi'). lia.
Qed.

Lemma before_ne {A} (a b : A) (l : list A) : NoDup l -> before a b l -> a <> b.
Proof.
  intros Hnd (i & j & Hij & Hi & Hj)%before_lookup ->.
  pose proof (NoDup_lookup _ _ _ _ Hnd Hi Hj). lia.
Qed.

Lemma before_elem {A} (a b : A) (l : list A) : before a b l -> a ∈ l /\ b ∈ l.
Proof.
  intros (l1 & l2 & l3 & ->). split.
  - apply elem_of_app. right. left.
  - apply elem_of_app. right. right. apply elem_of_app. right. left.
Qed.

(** [sorted] is stable. *)
Section Stable.

Context {A : Type}.
Implicit Types (x a b : (Z * Z) * A) (l : list ((Z * Z) * A)).

Lemma insert_keyed_before_old x l a b :
  before a b l -> before a b (insert_keyed x l).
Proof.
  induction l as [|y l IH]; cbn [insert_keyed].
  - intros ([|? ?] & ? & ? & ?); simplify_list_eq.
  - destruct (key_lt y.1 x.1); [|apply before_cons].
    intros [[-> Hb]|H]%before_cons_inv.
    + apply before_head. by rewrite insert_keyed_perm; right.
    + by apply before_cons, IH.
Qed.

Lemma insert_keyed_before_new x l b :
  b ∈ l -> key_lt b.1 x.1 = false -> before x b (insert_keyed x l).
Proof.
  intros Hb Hkey. induction l as [|y l IH]; cbn [insert_keyed].
  - by apply elem_of_nil in Hb.
  - destruct (key_lt y.1 x.1) eqn:E; [|by apply before_head].
    apply before_cons, IH.
    apply elem_of_cons in Hb as [->|Hb]; [congruence|done].
Qed.

Lemma sort_keyed_stable l a b :
  before a b l -> key_lt b.1 a.1 = false -> before a b (sort_keyed l).
Proof.
  intros Hab Hkey. induction l as [|x l IH].
  - destruct Hab as ([|? ?] & ? & ? & ?); simplify_list_eq.
  - change (sort_keyed (x :: l)) with (insert_keyed x (sort_keyed l)).
    apply before_cons_inv in Hab as [[-> Hb]|Hab].
    + apply insert_keyed_before_new; [by rewrite sort_keyed_perm|done].
    + by apply insert_keyed_before_old, IH.
Qed.

End Stable.

Lemma key_lt_irrefl (k : Z * Z) : key_lt k k = false.
Proof. apply not_true_iff_false. rewrite key_lt_spec. lia. Qed.

(** The keys of the dictionary are the terms of the courses. *)
Lemma group_by_term_snoc (courses : list InspectedCourse)
    (course : InspectedCourse) :
  group_by_term (courses ++ [course])
  = Dict.set (group_by_term courses) (crs_term course)
      (default [] (Dict.get (group_by_term courses) (crs_term course))
       ++ [course]).
Proof. unfold group_by_term. by rewrite foldl_app. Qed.

Lemma group_by_term_keys (courses : list InspectedCourse) (t : string) :
  t ∈ (group_by_term courses).*1 <-> t ∈ map crs_term courses.
Proof.
  split.
  - induction courses as [|c courses IH] using rev_ind.
    + intros H. by apply elem_of_nil in H.
    + rewrite group_by_term_snoc, dict_set_keys, map_app. cbn [map].
      intros Ht. apply elem_of_app.
      destruct (decide _); [left; by apply IH|].
      apply elem_of_app in Ht as [Ht|Ht]; [left; by apply IH|by right].
  - intros (c & -> & Hc)%list_elem_of_fmap.
    by apply group_by_term_spec.
Qed.

Lemma first_occurrence (courses : list InspectedCourse) (t : string) :
  t ∈ map crs_term courses ->
  exists pre c post,
    courses = pre ++ c :: post /\ crs_term c = t /\ (t ∉ map crs_term pre).
Proof.
  induction courses as [|c courses IH]; cbn [map].
  - intros H. by apply elem_of_nil in H.
  - destruct (decide (crs_term c = t)) as [Heq|Hne].
    + intros _. exists [], c, courses. split; [done|]. split; [done|].
      apply not_elem_of_nil.
    + intros [?|Ht]%elem_of_cons; [congruence|].
      destruct (IH Ht) as (pre & c' & post & -> & Hc' & Hpre).
      exists (c :: pre), c', post. split; [done|]. split; [done|].
      cbn [map]. apply not_elem_of_cons. split; [congruence|done].
Qed.

(** The dictionary lists the terms in the order they were first seen. *)
Lemma group_by_term_order (courses : list InspectedCourse) (t1 t2 : string) :
  before t1 t2 (group_by_term courses).*1 ->
  exists pre c post,
    courses = pre ++ c :: post /\ crs_term c = t1 /\
    (t1 ∉ map crs_term pre) /\ (t2 ∉ map crs_term pre).
Proof.
  induction courses as [|course courses IH] using rev_ind.
  - intros ([|? ?] & ? & ? & ?); simplify_list_eq.
  - rewrite group_by_term_snoc, dict_set_keys.
    assert (before t1 t2 (group_by_term courses).*1 ->
            exists pre c post,
              courses ++ [course] = pre ++ c :: post /\ crs_term c = t1 /\
              (t1 ∉ map crs_term pre) /\ (t2 ∉ map crs_term pre)) as Hold.
    { intros (pre & c & post & -> & Hc & H1 & H2)%IH.
      exists pre, c, (post ++ [course]). by rewrite <- app_assoc. }
    destruct (decide _) as [|Hnew]; [exact Hold|].
    intros [H|[-> H1]]%before_snoc_inv; [by apply Hold|].
    apply group_by_term_keys, first_occurrence in H1
      as (pre & c & post & -> & Hc & Hpre).
    exists pre, c, (post ++ [course]). rewrite <- app_assoc.
    split; [done|]. split; [done|]. split; [done|].
    intros Hin. apply Hnew, group_by_term_keys.
    rewrite map_app. apply elem_of_app. by left.
Qed.

Lemma elem_of_concat {A} (x : A) (ls : list (list A)) :
  x ∈ concat ls <-> exists l, x ∈ l /\ l ∈ ls.
Proof.
  induction ls as [|l ls IH]; cbn [concat].
  - split; [intros H; by apply elem_of_nil in H|].
    intros (l & _ & H). by apply elem_of_nil in H.
  - rewrite elem_of_app, IH. split.
    + intros [H|(l' & H & Hl')]; [exists l; split; [done|left]|].
      exists l'. split; [done|by right].
    + intros (l' & H & [->|Hl']%elem_of_cons); [by left|].
      right. by exists l'.
Qed.

Lemma term_warnings_keys (courses : list InspectedCourse) :
  term_warnings courses
  = concat (map term_warning (group_by_term courses).*1).
Proof.
  unfold term_warnings. f_equal.
  induction (group_by_term courses) as [|item d IH]; [done|].
  cbn [map]. rewrite fmap_cons. cbn [map]. by rewrite IH.
Qed.

Lemma term_warning_length (terms : list string) :
  length (concat (map term_warning terms))
  = length (filter (fun t => parses t = false) terms).
Proof.
  induction terms as [|t terms IH]; [done|].
  cbn [map concat]. rewrite length_app, IH, filter_cons.
  unfold term_warning, parses.
  destruct (parse_term t); by destruct (decide _).
Qed.

(** X1: [sort_courses] never raises and returns a partition of the
    courses by term: every term of a course heads exactly one group, a
    group is never empty and holds courses of its own term only, and the
    groups together hold each course as often as the input does. *)
Theorem sort_courses_partitions (courses : list InspectedCourse)
    (w : World Env) :
  exists groups w',
    sort_courses courses w = (Ok groups, w') /\
    NoDup groups.*1 /\
    (forall term, term ∈ groups.*1 <-> term ∈ map crs_term courses) /\
    (forall term cs, (term, cs) ∈ groups ->
       cs <> [] /\ Forall (fun c => crs_term c = term) cs) /\
    concat groups.*2 ≡ₚ courses.
Proof.
  exists (sorted_groups courses), (add_stdout w (term_warnings courses)).
  split; [apply sort_courses_run|].
  destruct (group_by_term_spec courses) as (Hnd & Hgroups & _).
  split; [by rewrite (sorted_groups_perm courses)|].
  split.
  { intros term. rewrite (sorted_groups_perm courses).
    apply group_by_term_keys. }
  split; [|apply sorted_groups_courses].
  intros term cs Hin. rewrite sorted_groups_perm in Hin.
  assert (term ∈ map crs_term courses) as (c & Hterm & Hc)%list_elem_of_fmap.
  { apply group_by_term_keys, list_elem_of_fmap. by exists (term, cs). }
  pose proof (Hgroups term cs Hin) as ->. subst term. split.
  - intros Hnil.
    assert (c ∈ filter (fun c' => crs_term c' = crs_term c) courses) as Hc'
      by (by apply list_elem_of_filter).
    rewrite Hnil in Hc'. by apply elem_of_nil in Hc'.
  - apply Forall_forall. by intros c' [Hc' _]%list_elem_of_filter.
Qed.

(** X2: [sort_courses] changes nothing but the output, to which it adds
    one warning for each distinct term that does not parse, however many
    courses share the term, and nothing for the terms that parse. *)
Theorem sort_courses_warns_once_per_term (courses : list InspectedCourse)
    (w : World Env) :
  exists groups log,
    sort_courses courses w = (Ok groups, add_stdout w log) /\
    (forall p, p ∈ log <->
       exists c e, c ∈ courses /\ parse_term (crs_term c) = Raise e /\
                   p = PWarning e) /\
    length log
    = length (filter (fun t => parses t = false)
                (remove_dups (map crs_term courses))).
Proof.
  exists (sorted_groups courses), (term_warnings courses).
  split; [apply sort_courses_run|].
  rewrite term_warnings_keys. split.
  - intros p. rewrite elem_of_concat. split.
    + intros (l & Hp & (t & -> & Ht)%list_elem_of_fmap).
      apply group_by_term_keys, list_elem_of_fmap in Ht as (c & -> & Hc).
      unfold term_warning in Hp.
      destruct (parse_term (crs_term c)) as [k|e] eqn:E;
        [by apply elem_of_nil in Hp|].
      apply list_elem_of_singleton in Hp as ->. by exists c, e.
    + intros (c & e & Hc & He & ->). exists [PWarning e]. split; [left|].
      apply list_elem_of_fmap. exists (crs_term c).
      unfold term_warning. rewrite He. split; [done|].
      apply group_by_term_keys, list_elem_of_fmap. by exists c.
  - rewrite term_warning_length. apply Permutation_length.
    apply filter_Permutation, NoDup_Permutation.
    + apply group_by_term_spec.
    + apply NoDup_remove_dups.
    + intros t. by rewrite group_by_term_keys, elem_of_remove_dups.
Qed.

(** X3: groups whose terms have equal keys, such as two terms that do not
    parse, stay in the order in which the terms were first seen among the
    courses: the first course of the earlier group comes before every course
    of the later one. *)
Theorem sort_courses_ties_keep_first_seen (courses : list InspectedCourse)
    (w : World Env) :
  exists groups w',
    sort_courses courses w = (Ok groups, w') /\
    forall g1 g2 : string * list InspectedCourse,
      before g1 g2 groups -> term_key g1.1 = term_key g2.1 ->
      exists pre c post,
        courses = pre ++ c :: post /\ crs_term c = g1.1 /\
        (g1.1 ∉ map crs_term pre) /\ (g2.1 ∉ map crs_term pre).
Proof.
  exists (sorted_groups courses), (add_stdout w (term_warnings courses)).
  split; [apply sort_courses_run|].
  intros g1 g2 Hout Hkey.
  destruct (group_by_term_spec courses) as (Hnd & _ & _).
  assert (NoDup (sorted_groups courses)) as Hnd'.
  { rewrite sorted_groups_perm. by eapply NoDup_fmap_1. }
  destruct (before_elem _ _ _ Hout) as [H1 H2].
  rewrite sorted_groups_perm in H1, H2.
  destruct (before_total g1 g2 (group_by_term courses) H1 H2) as [Hin|Hin].
  - by eapply before_ne.
  - apply group_by_term_order. by apply (before_fmap fst) in Hin.
  - exfalso. apply (before_asym _ _ _ Hnd' Hout).
    unfold sorted_groups.
    apply (before_fmap snd ((term_key g2.1, g2)) ((term_key g1.1, g1))).
    apply sort_keyed_stable.
    + by apply (before_fmap
                  (fun item : string * list InspectedCourse =>
                     (term_key item.1, item))) in Hin.
    + cbn [fst]. rewrite Hkey. apply key_lt_irrefl.
Qed.

(** ** More on listing and inspecting the courses *)

Lemma split_go_last (cur s : string) :
  exists seg,
    last (PyStr.split_go "/" 0 cur s) = Some seg /\
    ((plain s /\ seg = cur +:+ s) \/
     (plain seg /\ exists pre, s = pre +:+ "/" +:+ seg)).
Proof.
  revert cur. induction s as [|c s IH]; intros cur.
  - exists cur. split; [done|]. left. by rewrite string_app_nil_r.
  - cbn [PyStr.split_go String.prefix String.length].
    destruct (ascii_dec "/" c) as [<-|Hne].
    + replace (String.prefix "" s) with true by (by destruct s).
      destruct (IH "") as (seg & Hlast & Hseg). exists seg.
      rewrite last_cons. cbn [Nat.sub]. rewrite Hlast. split; [done|]. right.
      destruct Hseg as [[Hs ->]|[Hplain [pre ->]]].
      * split; [done|]. by exists "".
      * split; [done|]. by exists (String "/" pre).
    + destruct (IH (cur +:+ String c "")) as (seg & Hlast & Hseg).
      exists seg. split; [done|].
      destruct Hseg as [[Hs ->]|[Hplain [pre ->]]].
      * left. split; [|by rewrite string_app_assoc].
        unfold plain in *. simpl. rewrite Hs, orb_false_r.
        apply Ascii.eqb_neq. congruence.
      * right. split; [done|]. by exists (String c pre).
Qed.

Lemma index_last_segment (h : string) :
  index_from_end (PyStr.split "/" h) 1 = Ok (last_segment h).
Proof.
  unfold index_from_end, PyStr.nth_from_end, last_segment, PyStr.split.
  destruct (split_go_last "" h) as (seg & Hlast & _). rewrite Hlast.
  destruct (PyStr.split_go "/" 0 "" h) as [|x l] eqn:E; [done|].
  rewrite last_lookup in Hlast. cbn [length Nat.leb andb] in *.
  replace (S (length l) - 1) with (Init.Nat.pred (S (length l))) by lia.
  by rewrite Hlast.
Qed.

(** X4: [h.split('/')[-1]] never raises; it is what follows the last "/"
    of [h], or [h] itself when [h] has no "/". *)
Theorem last_segment_follows_last_slash (h : string) :
  index_from_end (PyStr.split "/" h) 1 = Ok (last_segment h) /\
  plain (last_segment h) /\
  ((plain h /\ last_segment h = h) \/
   exists pre, h = pre +:+ "/" +:+ last_segment h).
Proof.
  split; [apply index_last_segment|].
  unfold last_segment, PyStr.split.
  destruct (split_go_last "" h) as (seg & -> & Hseg). cbn [default].
  destruct Hseg as [[Hh ->]|[Hplain Hpre]].
  - rewrite string_app_nil_l. split; [done|]. by left.
  - split; [done|]. by right.
Qed.

(** Steps that change nothing. *)
Lemma effect_free_ret {A} (a : A) : effect_free (mret a).
Proof. done. Qed.

Lemma effect_free_lift {A} (r : Result A) : effect_free (lift r).
Proof. done. Qed.

Lemma effect_free_bind {A B} (m : M A) (f : A -> M B) :
  effect_free m -> (forall a, effect_free (f a)) -> effect_free (m ≫= f).
Proof.
  intros Hm Hf w. rewrite run_bind. specialize (Hm w).
  destruct (m w) as [[a|e] w1]; simpl in Hm; subst w1; [apply Hf|done].
Qed.

Lemma effect_free_for_each {A St} (l : list A) (s : St)
    (body : St -> A -> M St) :
  (forall s x, effect_free (body s x)) -> effect_free (for_each l s body).
Proof.
  intros Hbody. revert s. induction l as [|x l IH]; intros s; cbn [for_each].
  - apply effect_free_ret.
  - apply effect_free_bind; [apply Hbody|]. intros s'. apply IH.
Qed.

Lemma session_get_run (url : pyval) (stream : bool) (w : World Env) :
  session_get url stream w
  = ((requests_get url stream (env w)).1,
     set_env w (requests_get url stream (env w)).2).
Proof.
  unfold session_get. by destruct (requests_get url stream (env w)).
Qed.

(** The loop of [list_courses] over the course boxes. *)
Lemma list_courses_loop (anchors : list Anchor) (results : list string)
    (w : World Env) :
  for_each anchors results (fun results class_link =>
    h ← lift (href class_link);
    last ← lift (index_from_end (PyStr.split "/" h) 1);
    mret (results ++ [PyStr.strip last])) w
  = match mapM a_href anchors with
    | Some hrefs => (Ok (results ++ map course_slug hrefs), w)
    | None => (Raise (KeyError "href"), w)
    end.
Proof.
  revert results. induction anchors as [|a anchors IH]; intros results.
  - cbn. by rewrite app_nil_r.
  - cbn [for_each]. rewrite run_bind. unfold href at 1. run.
    cbn [mapM]. destruct (a_href a) as [h|]; [|done]. cbn [mbind option_bind].
    rewrite index_last_segment. rewrite IH.
    destruct (mapM a_href anchors) as [hrefs|]; [|done]. cbn.
    by rewrite <- app_assoc.
Qed.

Lemma list_courses_run (w : World Env) :
  list_courses w
  = match requests_get (PStr BASE_URL) false (env w) with
    | (Ok response, e1) =>
        match mapM a_href (soup_course_boxes (text response)) with
        | Some hrefs => (Ok (set_elements (map course_slug hrefs)), set_env w e1)
        | None => (Raise (KeyError "href"), set_env w e1)
        end
    | (Raise e, e1) => (Raise e, set_env w e1)
    end.
Proof.
  unfold list_courses. rewrite run_bind, session_get_run.
  destruct (requests_get (PStr BASE_URL) false (env w)) as [[response|e] e1];
    [|done].
  cbn [fst snd]. rewrite run_bind, list_courses_loop.
  by destruct (mapM a_href (soup_course_boxes (text response))).
Qed.

(** X5: [list_courses] sends one request, for the dashboard, and has no
    other effect.  When every course box has a link it returns the set of
    the slugs read off the links, each the stripped last segment of its
    link; when a box has none it raises KeyError; it raises what the request
    raises; it never raises IndexError. *)
Theorem list_courses_reads_last_segments (w : World Env) :
  list_courses w
  = match requests_get (PStr BASE_URL) false (env w) with
    | (Ok response, e1) =>
        match mapM a_href (soup_course_boxes (text response)) with
        | Some hrefs => (Ok (set_elements (map course_slug hrefs)), set_env w e1)
        | None => (Raise (KeyError "href"), set_env w e1)
        end
    | (Raise e, e1) => (Raise e, set_env w e1)
    end.
Proof. apply list_courses_run. Qed.

Lemma graded_rows_cons (row : Row) (rows : list Row) :
  graded_rows (row :: rows)
  = match row_a row, row_score row with
    | Some a, Some score => (a, score) :: graded_rows rows
    | _, _ => graded_rows rows
    end.
Proof.
  unfold graded_rows. simpl. by destruct (row_a row), (row_score row).
Qed.

(** The loop of [inspect_course] over the rows of the table. *)
Lemma inspect_rows_ok (rows : list Row)
    (acc assignments : list InspectedAssignmentFromCourse) (w w' : World Env) :
  for_each rows acc inspect_row w = (Ok assignments, w') ->
  w' = w /\
  exists new, assignments = acc ++ new /\
              Forall2 assignment_of (graded_rows rows) new.
Proof.
  revert acc w. induction rows as [|row rows IH]; intros acc w; cbn [for_each].
  - intros [= <- <-]. split; [done|]. exists []. by rewrite app_nil_r.
  - intros (acc1 & w1 & Hrow & Hrest)%bind_ok_inv.
    destruct (IH _ _ Hrest) as (-> & new & -> & Hnew).
    rewrite graded_rows_cons. unfold inspect_row in Hrow.
    destruct (row_a row) as [a|]; [destruct (row_score row) as [score|]|];
      try (injection Hrow as <- <-; split; [done|]; by exists new).
    apply bind_ok_inv in Hrow as (h & v1 & [Hh ->]%lift_ok_inv & Hrow).
    apply bind_ok_inv in Hrow as (slug & v2 & [Hslug ->]%lift_ok_inv & Hrow).
    apply bind_ok_inv in Hrow as (sub & v3 & [Hsub ->]%lift_ok_inv & [= <- <-]).
    split; [done|]. eexists (_ :: new). rewrite <- app_assoc.
    split; [reflexivity|]. constructor; [|exact Hnew].
    exists h, slug. cbn [fst snd]. unfold href in Hh.
    destruct (a_href a) as [h'|]; [|done]. injection Hh as ->.
    rewrite index_last_segment in Hsub. injection Hsub as <-. done.
Qed.

Lemma inspect_course_ok (slug : string) (w w' : World Env)
    (course : InspectedCourse) :
  inspect_course slug w = (Ok course, w') ->
  exists response e1 rows short_name long_name term roster,
    requests_get (PStr (BASE_URL +:+ "/courses/" +:+ slug)) false (env w)
    = (Ok response, e1) /\
    w' = set_env w e1 /\
    soup_course_page (text response)
    = {| pg_rows := Some rows; pg_short_name := Some short_name;
         pg_long_name := Some long_name; pg_term := Some term;
         pg_roster := Some roster |} /\
    crs_slug course = slug /\
    crs_short_name course = PyStr.strip short_name /\
    crs_long_name course = PyStr.strip long_name /\
    crs_term course = PyStr.strip term /\
    crs_instructors course = set_elements (map PyStr.strip roster) /\
    Forall2 assignment_of (graded_rows rows) (crs_assignments course).
Proof.
  unfold inspect_course. rewrite run_bind, session_get_run.
  destruct (requests_get _ false (env w)) as [[response|e] e1] eqn:Hget; [|done].
  cbn [fst snd]. destruct (soup_course_page (text response))
    as [rows short_name long_name term roster] eqn:Hpage.
  cbn [pg_rows pg_short_name pg_long_name pg_term pg_roster].
  intros (rows' & w1 & [Hrows ->]%lift_ok_inv & Hb)%bind_ok_inv.
  apply bind_ok_inv in Hb as (assignments & w2 & Hloop & Hb).
  apply bind_ok_inv in Hb as (short' & w3 & [Hshort ->]%lift_ok_inv & Hb).
  apply bind_ok_inv in Hb as (long' & w4 & [Hlong ->]%lift_ok_inv & Hb).
  apply bind_ok_inv in Hb as (term' & w5 & [Hterm ->]%lift_ok_inv & Hb).
  apply bind_ok_inv in Hb as (roster' & w6 & [Hroster ->]%lift_ok_inv & Hb).
  injection Hb as <- <-.
  apply inspect_rows_ok in Hloop as (-> & new & -> & Hnew).
  destruct rows, short_name, long_name, term, roster; simplify_eq/=.
  eexists _, _, _, _, _, _, _. split; [done|]. split; [done|].
  split; [exact Hpage|]. done.
Qed.

(** X6: what [inspect_course] returns.  The course carries the slug it was
    asked for and the stripped texts of the page; its assignments are the
    rows that have both a link and a score, in the order of the table, each
    read off its row: the slug is the third segment from the end of the link,
    the submission its last segment.  Rows without a link or without a score
    are left out.  Nothing but the one request changes the world. *)
Theorem inspect_course_reads_graded_rows (slug : string) (w w' : World Env)
    (course : InspectedCourse) :
  inspect_course slug w = (Ok course, w') ->
  exists response e1 rows short_name long_name term roster,
    requests_get (PStr (BASE_URL +:+ "/courses/" +:+ slug)) false (env w)
    = (Ok response, e1) /\
    w' = set_env w e1 /\
    soup_course_page (text response)
    = {| pg_rows := Some rows; pg_short_name := Some short_name;
         pg_long_name := Some long_name; pg_term := Some term;
         pg_roster := Some roster |} /\
    crs_slug course = slug /\
    crs_short_name course = PyStr.strip short_name /\
    crs_long_name course = PyStr.strip long_name /\
    crs_term course = PyStr.strip term /\
    crs_instructors course = set_elements (map PyStr.strip roster) /\
    Forall2 assignment_of (graded_rows rows) (crs_assignments course).
Proof. apply inspect_course_ok. Qed.

Lemma raises_only_lift {A} (P : Exn -> Prop) (r : Result A) :
  (forall e, r = Raise e -> P e) -> raises_only P (lift r).
Proof. intros Hr w e w' [= -> _]. by apply Hr. Qed.

Lemma raises_only_ret {A} (P : Exn -> Prop) (a : A) :
  raises_only P (mret a).
Proof. by intros w e w'. Qed.

Lemma raises_only_bind {A B} (P : Exn -> Prop) (m : M A) (f : A -> M B) :
  raises_only P m -> (forall a, raises_only P (f a)) -> raises_only P (m ≫= f).
Proof.
  intros Hm Hf w e w' [(a & w1 & H1 & H2)|(e' & H1 & [= ->])]%bind_inv.
  - by eapply Hf.
  - by eapply Hm.
Qed.

Lemma raises_only_for_each {A St} (P : Exn -> Prop) (l : list A) (s : St)
    (body : St -> A -> M St) :
  (forall s x, raises_only P (body s x)) -> raises_only P (for_each l s body).
Proof.
  intros Hbody. revert s. induction l as [|x l IH]; intros s; cbn [for_each].
  - apply raises_only_ret.
  - apply raises_only_bind; [apply Hbody|]. intros s'. apply IH.
Qed.

Lemma found_scraping {A} (attr : string) (o : option A) (e : Exn) :
  attr = "find_all" \/ attr = "text" ->
  found attr o = Raise e -> scraping_error e.
Proof.
  intros [ -> | -> ]; (destruct o; [done|]); intros [= <-];
    [by left|right; by left].
Qed.

Lemma href_scraping (a : Anchor) (e : Exn) :
  href a = Raise e -> scraping_error e.
Proof.
  unfold href. destruct (a_href a); [done|]. intros [= <-].
  right. right. by left.
Qed.

Lemma index_scraping {A} (l : list A) (k : nat) (e : Exn) :
  index_from_end l k = Raise e -> scraping_error e.
Proof.
  unfold index_from_end. destruct (PyStr.nth_from_end l k); [done|].
  intros [= <-]. right. right. by right.
Qed.

Lemma inspect_row_effect_free (assignments : list InspectedAssignmentFromCourse)
    (row : Row) :
  effect_free (inspect_row assignments row).
Proof.
  unfold inspect_row.
  destruct (row_a row), (row_score row); try apply effect_free_ret.
  repeat (apply effect_free_bind; [apply effect_free_lift|]; intros ?).
  apply effect_free_ret.
Qed.

Lemma inspect_row_raises (assignments : list InspectedAssignmentFromCourse)
    (row : Row) :
  raises_only scraping_error (inspect_row assignments row).
Proof.
  unfold inspect_row.
  destruct (row_a row), (row_score row); try apply raises_only_ret.
  apply raises_only_bind; [apply raises_only_lift, href_scraping|]. intros h.
  apply raises_only_bind; [apply raises_only_lift, index_scraping|]. intros ?.
  apply raises_only_bind; [apply raises_only_lift, index_scraping|]. intros ?.
  apply raises_only_ret.
Qed.

(** What follows the request in [inspect_course]. *)
Lemma inspect_course_run (slug : string) (w : World Env) :
  exists scrape : M InspectedCourse,
    effect_free scrape /\ raises_only scraping_error scrape /\
    inspect_course slug w
    = match requests_get (PStr (BASE_URL +:+ "/courses/" +:+ slug)) false
              (env w) with
      | (Ok response, e1) => scrape (set_env w e1)
      | (Raise e, e1) => (Raise e, set_env w e1)
      end.
Proof.
  unfold inspect_course.
  destruct (requests_get _ false (env w)) as [[response|e] e1] eqn:Hget.
  - eexists. split; [|split]; [| |rewrite run_bind, session_get_run, Hget;
                                   cbn [fst snd]; reflexivity].
    + apply effect_free_bind; [apply effect_free_lift|]. intros rows.
      apply effect_free_bind.
      { apply effect_free_for_each, inspect_row_effect_free. }
      intros assignments.
      repeat (apply effect_free_bind; [apply effect_free_lift|]; intros ?).
      apply effect_free_ret.
    + apply raises_only_bind.
      { apply raises_only_lift. intros e. apply found_scraping. by left. }
      intros rows. apply raises_only_bind.
      { apply raises_only_for_each, inspect_row_raises. }
      intros assignments.
      repeat (apply raises_only_bind;
              [apply raises_only_lift; intros e; apply found_scraping; auto|];
              intros ?).
      apply raises_only_ret.
  - exists (mret {| crs_slug := ""; crs_short_name := ""; crs_long_name := "";
                    crs_term := ""; crs_instructors := [];
                    crs_assignments := [] |}).
    split; [apply effect_free_ret|]. split; [apply raises_only_ret|].
    by rewrite run_bind, session_get_run, Hget.
Qed.


(** Steps that leave the disk and the README alone. *)
Lemma requests_only_free {A} (m : M A) : effect_free m -> requests_only m.
Proof.
  intros Hm w r w' Hrun. specialize (Hm w). rewrite Hrun in Hm.
  simpl in Hm. by subst w'.
Qed.

Lemma requests_only_bind {A B} (m : M A) (f : A -> M B) :
  requests_only m -> (forall a, requests_only (f a)) -> requests_only (m ≫= f).
Proof.
  intros Hm Hf w r w' [(a & w1 & H1 & H2)|(e & H1 & _)]%bind_inv.
  - destruct (Hm _ _ _ H1) as [Hd Hr], (Hf _ _ _ _ H2) as [Hd' Hr'].
    split; congruence.
  - by eapply Hm.
Qed.

Lemma requests_only_for_enumerate {A St} (i : nat) (l : list A) (s : St)
    (body : St -> nat -> A -> M St) :
  (forall s i x, requests_only (body s i x)) ->
  requests_only (for_enumerate i l s body).
Proof.
  intros Hbody. revert i s.
  induction l as [|x l IH]; intros i s; cbn [for_enumerate].
  - by apply requests_only_free.
  - apply requests_only_bind; [apply Hbody|]. intros s'. apply IH.
Qed.

Lemma requests_only_print (p : Printed) : requests_only (print p).
Proof. by intros w r w' [= <- <-]. Qed.

Lemma requests_only_list_courses : requests_only list_courses.
Proof.
  intros w r w'. rewrite list_courses_run.
  destruct (requests_get _ false (env w)) as [[response|e] e1];
    [destruct (mapM _ _)|]; by intros [= <- <-].
Qed.

Lemma requests_only_inspect_course (slug : string) :
  requests_only (inspect_course slug).
Proof.
  intros w r w' Hrun.
  destruct (inspect_course_run slug w) as (scrape & Hfree & _ & Heq).
  rewrite Heq in Hrun.
  destruct (requests_get _ false (env w)) as [[response|e] e1].
  - specialize (Hfree (set_env w e1)). rewrite Hrun in Hfree.
    simpl in Hfree. by subst w'.
  - by injection Hrun as <- <-.
Qed.

Lemma requests_only_inspect_all : requests_only inspect_all.
Proof.
  unfold inspect_all.
  apply requests_only_bind; [apply requests_only_list_courses|]. intros slugs.
  apply requests_only_for_enumerate. intros courses i slug.
  apply requests_only_bind; [apply requests_only_inspect_course|].
  intros course.
  apply requests_only_bind; [apply requests_only_print|]. intros _.
  by apply requests_only_free.
Qed.

(** The loop of [main] over the slugs. *)
Lemma inspect_all_loop (total : nat) (slugs : list string) (i : nat)
    (acc courses : list InspectedCourse) (w w' : World Env) :
  for_enumerate i slugs acc (fun courses i slug =>
    course ← inspect_course slug;
    print (PCourse (i + 1) total (length (crs_assignments course))
             (length (crs_instructors course)) (crs_short_name course));;
    mret (courses ++ [course])) w = (Ok courses, w') ->
  exists new,
    courses = acc ++ new /\ map crs_slug new = slugs /\
    stdout w' = stdout w ++ imap (fun k => course_line total (i + k)) new.
Proof.
  revert i acc w.
  induction slugs as [|slug slugs IH]; intros i acc w; cbn [for_enumerate].
  - intros [= <- <-]. exists []. by rewrite !app_nil_r.
  - intros (acc1 & w1 & Hstep & Hrest)%bind_ok_inv.
    apply bind_ok_inv in Hstep as (course & w2 & Hcourse & Hstep).
    apply bind_ok_inv in Hstep as ([] & w3 & [= <-] & [= <- <-]).
    apply inspect_course_ok in Hcourse
      as (? & e1 & ? & ? & ? & ? & ? & _ & -> & _ & Hslug & _).
    destruct (IH _ _ _ Hrest) as (new & -> & Hslugs & Hout).
    exists (course :: new). rewrite <- app_assoc. split; [done|].
    split; [cbn [map]; by rewrite Hslug, Hslugs|].
    rewrite Hout. cbn [stdout set_env]. rewrite <- app_assoc.
    rewrite imap_cons, Nat.add_0_r. cbn [app]. do 2 f_equal.
    apply imap_ext. intros k c _. simpl. f_equal. lia.
Qed.

Lemma inspect_all_ok (w w' : World Env) (courses : list InspectedCourse) :
  inspect_all w = (Ok courses, w') ->
  exists slugs w1,
    list_courses w = (Ok slugs, w1) /\
    map crs_slug courses = slugs /\
    stdout w' = stdout w ++ imap (course_line (length slugs)) courses /\
    disk w' = disk w /\ readme w' = readme w.
Proof.
  intros Hrun.
  destruct (requests_only_inspect_all _ _ _ Hrun) as [Hdisk Hreadme].
  unfold inspect_all in Hrun.
  apply bind_ok_inv in Hrun as (slugs & w1 & Hslugs & Hloop).
  apply inspect_all_loop in Hloop as (new & -> & Hnew & Hout).
  exists slugs, w1. split; [done|]. split; [done|].
  split; [|done]. rewrite Hout.
  assert (stdout w1 = stdout w) as ->.
  { rewrite list_courses_run in Hslugs.
    destruct (requests_get _ false (env w)) as [[response|e] e1];
      [destruct (mapM _ _)|]; by simplify_eq. }
  f_equal.
Qed.

(** X8: when every course can be inspected, [main]'s first loop returns
    one course per slug of [list_courses], in that order and carrying that
    slug, and prints one line per course, numbered from 1 and showing the
    number of slugs; it writes nothing to the disk or to the README. *)
Theorem inspect_all_reports_each_course (w w' : World Env)
    (courses : list InspectedCourse) :
  inspect_all w = (Ok courses, w') ->
  exists slugs w1,
    list_courses w = (Ok slugs, w1) /\
    map crs_slug courses = slugs /\
    stdout w' = stdout w ++ imap (course_line (length slugs)) courses /\
    disk w' = disk w /\ readme w' = readme w.
Proof. apply inspect_all_ok. Qed.

(** ** More on the link read off the raw text *)

Lemma prefix_app_mono (q u z : string) :
  String.prefix q u = true -> String.prefix q (u +:+ z) = true.
Proof.
  intros [t ->]%prefix_split. rewrite string_app_assoc. apply prefix_app_true.
Qed.

(** The text before the first occurrence of [q] holds no occurrence. *)
Lemma until_first_free (q s : string) :
  q <> "" -> PyStr.contains q (until_first q s) = false.
Proof.
  intros Hq.
  assert (String.prefix q "" = false) as Hnil by (by destruct q).
  induction s as [|c s IH]; rewrite until_first_eq.
  - rewrite Hnil. cbn [PyStr.contains]. by rewrite Hnil.
  - destruct (String.prefix q (String c s)) eqn:E.
    + cbn [PyStr.contains]. by rewrite Hnil.
    + cbn [PyStr.contains]. rewrite IH, orb_false_r.
      apply not_true_iff_false. intros Hpre.
      destruct (until_first_split q s) as (z & Hs & _).
      apply (prefix_app_mono _ _ z) in Hpre.
      rewrite string_app_cons, <- Hs in Hpre. congruence.
Qed.

(** An occurrence of a string does not start in a text that lacks its
    first character. *)
Lemma contains_skip (c : ascii) (q p u : string) :
  has_char c p = false ->
  PyStr.contains (String c q) (p +:+ u) = PyStr.contains (String c q) u.
Proof.
  induction p as [|c' p IH]; [done|]. cbn [has_char].
  intros [Hc Hp]%orb_false_elim. rewrite string_app_cons.
  cbn [PyStr.contains String.prefix].
  apply Ascii.eqb_neq in Hc.
  destruct (ascii_dec c c') as [->|_]; [done|]. by apply IH.
Qed.

Lemma fallback_link_cut (response_text : string) :
  fallback_link response_text
  = UPLOADS +:+ until_first "&quot"
                  (PyStr.join (tail (PyStr.split UPLOADS response_text))).
Proof.
  unfold fallback_link, PyStr.split at 1.
  rewrite head_split, string_app_nil_l. reflexivity.
Qed.

(** X9: whatever the page holds, the link read off the raw text starts
    with the prefix of the upload host and holds no "&quot". *)
Theorem fallback_link_shape (response_text : string) :
  String.prefix UPLOADS (fallback_link response_text) = true /\
  PyStr.contains "&quot" (fallback_link response_text) = false.
Proof.
  rewrite fallback_link_cut. split; [apply prefix_app_true|].
  rewrite (contains_skip "&" "quot" UPLOADS) by reflexivity.
  by apply until_first_free.
Qed.

(** ** Numbers written and read: [str] and [int] *)

Lemma is_digit_cases (c : ascii) :
  is_digit c = true ->
  PyStr.isspace c = false /\ PyInt.isspace c = false /\
  Ascii.eqb c "_" = false /\ c <> "+"%char /\ c <> "-"%char /\
  c <> "."%char /\ c <> "/"%char.
Proof.
  destruct c as [[] [] [] [] [] [] [] []]; try discriminate;
    intros _; repeat split; discriminate.
Qed.

Lemma uint_digits (d : Decimal.uint) :
  all_chars is_digit (NilEmpty.string_of_uint d) = true.
Proof. induction d; simpl; done. Qed.

Lemma to_uint_nonnil (n : nat) : Nat.to_uint n <> Decimal.Nil.
Proof.
  rewrite <- (Unsigned.of_to n) at 1. rewrite Unsigned.to_of.
  apply unorm_nonnil.
Qed.

Lemma of_nat_uint (n : nat) :
  PyStr.of_nat n = NilEmpty.string_of_uint (Nat.to_uint n).
Proof.
  unfold PyStr.of_nat, NilZero.string_of_uint.
  pose proof (to_uint_nonnil n). by destruct (Nat.to_uint n).
Qed.

Lemma of_nat_digits (n : nat) : all_chars is_digit (PyStr.of_nat n) = true.
Proof. rewrite of_nat_uint. apply uint_digits. Qed.

Lemma of_nat_nonempty (n : nat) : PyStr.of_nat n <> "".
Proof.
  rewrite of_nat_uint. pose proof (to_uint_nonnil n).
  by destruct (Nat.to_uint n).
Qed.

Lemma of_nat_inj (a b : nat) : PyStr.of_nat a = PyStr.of_nat b -> a = b.
Proof.
  rewrite !of_nat_uint. intros H. apply Unsigned.to_uint_inj.
  apply (f_equal NilEmpty.uint_of_string) in H.
  rewrite !NilEmpty.usu in H. by injection H.
Qed.

Lemma string_app_inv_head (p a b : string) : p +:+ a = p +:+ b -> a = b.
Proof.
  induction p as [|c p IH]; [done|]. rewrite !string_app_cons.
  intros [= H]. by apply IH.
Qed.

(** Two numbers followed by a dot and a rest agree when the wholes do. *)
Lemma digits_dot_inj (d1 d2 x y : string) :
  all_chars is_digit d1 = true -> all_chars is_digit d2 = true ->
  d1 +:+ "." +:+ x = d2 +:+ "." +:+ y -> d1 = d2 /\ x = y.
Proof.
  revert d2. induction d1 as [|c1 d1 IH]; intros [|c2 d2]; cbn [all_chars].
  - rewrite !string_app_nil_l, !string_app_cons, !string_app_nil_l.
    intros _ _ H. injection H as ->. done.
  - intros _ [Hc _]%andb_prop.
    rewrite !string_app_nil_l, !string_app_cons, !string_app_nil_l.
    intros H. injection H as <- _. discriminate Hc.
  - intros [Hc _]%andb_prop _.
    rewrite !string_app_nil_l, !string_app_cons, !string_app_nil_l.
    intros H. injection H as -> _. discriminate Hc.
  - intros [_ H1]%andb_prop [_ H2]%andb_prop. rewrite !string_app_cons.
    intros [= -> H]. destruct (IH d2 H1 H2 H) as [-> ->]. done.
Qed.

Lemma filename_of_name_distinct (course assignment slug : string) (i j : nat)
    (ext1 ext2 : string) :
  i <> j ->
  filename_of course assignment slug i ext1
  <> filename_of course assignment slug j ext2.
Proof.
  intros Hij Heq. apply Hij. unfold filename_of in Heq.
  do 6 apply string_app_inv_head in Heq.
  apply digits_dot_inj in Heq as [Hn _]; try apply of_nat_digits.
  apply of_nat_inj in Hn. lia.
Qed.

(** X10: the files of one submission have distinct names: candidates at
    different positions never share a file name, so no download overwrites
    another file of its submission. *)
Theorem filename_of_distinct (course assignment slug : string) (i j : nat)
    (ext1 ext2 : string) :
  i <> j ->
  filename_of course assignment slug i ext1
  <> filename_of course assignment slug j ext2.
Proof. apply filename_of_name_distinct. Qed.

Lemma digits_step (c : ascii) (v : Z) (pu : bool) (acc : Z) (k : nat)
    (rest : string) :
  PyInt.digit c = Some v -> Ascii.eqb c "_" = false ->
  PyInt.digits pu acc k (String c rest)
  = PyInt.digits false (10 * acc + v)%Z (S k) rest.
Proof. intros Hv Hc. cbn [PyInt.digits]. by rewrite Hc, Hv. Qed.

(** Reading the digits [str] wrote gives the number back. *)
Lemma digits_uint (d : Decimal.uint) (pu : bool) (a k : nat) :
  d <> Decimal.Nil \/ pu = false ->
  PyInt.digits pu (Z.of_nat a) k (NilEmpty.string_of_uint d)
  = Some (Z.of_nat (Nat.of_uint_acc d a), k + Decimal.nb_digits d).
Proof.
  revert pu a k.
  induction d as [|d IH|d IH|d IH|d IH|d IH|d IH|d IH|d IH|d IH|d IH];
    intros pu a k Hd;
    cbn [NilEmpty.string_of_uint Nat.of_uint_acc Decimal.nb_digits].
  { destruct Hd as [Hd| ->]; [done|]. cbn [PyInt.digits]. by rewrite Nat.add_0_r. }
  all: lazymatch goal with
       | |- PyInt.digits _ _ _ (String ?c _)
            = Some (Z.of_nat (Nat.of_uint_acc _ ?a'), _) =>
           let v := eval vm_compute in (PyInt.digit c) in
           lazymatch v with
           | Some ?z =>
               rewrite (digits_step c z) by reflexivity;
               replace (10 * Z.of_nat a + z)%Z with (Z.of_nat a')
                 by (rewrite Nat.tail_mul_spec; lia);
               rewrite IH by (by right); do 2 f_equal; lia
           end
       end.
Qed.

Lemma string_of_uint_length (d : Decimal.uint) :
  String.length (NilEmpty.string_of_uint d) = Decimal.nb_digits d.
Proof. induction d; simpl; congruence. Qed.

Lemma unsigned_of_nat (n : nat) :
  String.length (PyStr.of_nat n) <= PyInt.max_str_digits ->
  PyInt.unsigned (PyStr.of_nat n) = Some (Z.of_nat n).
Proof.
  rewrite of_nat_uint, string_of_uint_length. intros Hlen.
  unfold PyInt.unsigned.
  rewrite (digits_uint _ true 0 0) by (left; apply to_uint_nonnil).
  apply Nat.leb_le in Hlen. rewrite Nat.add_0_l, Hlen.
  change (Nat.of_uint_acc (Nat.to_uint n) 0) with (Nat.of_uint (Nat.to_uint n)).
  by rewrite Unsigned.of_to.
Qed.

Lemma int_lstrip_digits (s : string) :
  all_chars is_digit s = true -> PyInt.lstrip s = s.
Proof.
  destruct s as [|c s]; [done|]. cbn [all_chars PyInt.lstrip].
  intros [Hc _]%andb_prop. by destruct (is_digit_cases c Hc) as (_ & -> & _).
Qed.

Lemma int_rstrip_digits (s : string) :
  all_chars is_digit s = true -> PyInt.rstrip s = s.
Proof.
  induction s as [|c s IH]; [done|]. cbn [all_chars PyInt.rstrip].
  intros [Hc Hs]%andb_prop. rewrite (IH Hs).
  destruct (is_digit_cases c Hc) as (_ & -> & _). by destruct s.
Qed.

Lemma parse_unsigned (s : string) (c : ascii) (r : string) :
  PyInt.rstrip (PyInt.lstrip s) = String c r ->
  c <> "+"%char -> c <> "-"%char ->
  PyInt.parse s = PyInt.unsigned (String c r).
Proof.
  unfold PyInt.parse. intros -> Hplus Hminus.
  destruct c as [[] [] [] [] [] [] [] []]; done.
Qed.

(** [int(str(n))] is [n], as long as [n] has no more digits than [int]
    accepts. *)
Lemma parse_of_nat (n : nat) :
  String.length (PyStr.of_nat n) <= PyInt.max_str_digits ->
  PyInt.parse (PyStr.of_nat n) = Some (Z.of_nat n).
Proof.
  intros Hlen. rewrite <- (unsigned_of_nat n Hlen).
  pose proof (of_nat_digits n) as Hd. pose proof (of_nat_nonempty n) as Hne.
  destruct (PyStr.of_nat n) as [|c r] eqn:E; [done|].
  apply parse_unsigned.
  - by rewrite int_lstrip_digits, int_rstrip_digits.
  - cbn [all_chars] in Hd. apply andb_prop in Hd as [Hc _].
    by destruct (is_digit_cases c Hc) as (_ & _ & _ & ? & _).
  - cbn [all_chars] in Hd. apply andb_prop in Hd as [Hc _].
    by destruct (is_digit_cases c Hc) as (_ & _ & _ & _ & ? & _).
Qed.

Lemma all_chars_impl (P Q : ascii -> bool) (s : string) :
  (forall c, P c = true -> Q c = true) ->
  all_chars P s = true -> all_chars Q s = true.
Proof.
  intros HPQ. induction s as [|c s IH]; [done|]. cbn [all_chars].
  intros [Hc Hs]%andb_prop. by rewrite (HPQ c Hc), IH.
Qed.

Lemma split_ws_go_word (cur s : string) :
  all_chars (fun c => negb (PyStr.isspace c)) s = true ->
  PyStr.split_ws_go cur s
  = match cur +:+ s with
    | EmptyString => []
    | t => [t]
    end.
Proof.
  revert cur. induction s as [|c s IH]; intros cur; cbn [all_chars].
  - intros _. rewrite string_app_nil_r. by destruct cur.
  - intros [Hc Hs]%andb_prop. apply negb_true_iff in Hc.
    cbn [PyStr.split_ws_go]. rewrite Hc, IH by done.
    by rewrite string_app_assoc.
Qed.

Lemma split_ws_go_space (cur word rest : string) :
  all_chars (fun c => negb (PyStr.isspace c)) word = true ->
  cur +:+ word <> "" ->
  PyStr.split_ws_go cur (word +:+ " " +:+ rest)
  = (cur +:+ word) :: PyStr.split_ws_go "" rest.
Proof.
  revert cur. induction word as [|c word IH]; intros cur; cbn [all_chars].
  - intros _. rewrite string_app_nil_r, string_app_nil_l. intros Hcur.
    rewrite string_app_cons, string_app_nil_l. cbn [PyStr.split_ws_go].
    change (PyStr.isspace " ") with true. by destruct cur.
  - intros [Hc Hs]%andb_prop Hne. apply negb_true_iff in Hc.
    rewrite string_app_cons. cbn [PyStr.split_ws_go]. rewrite Hc.
    rewrite IH; [by rewrite string_app_assoc|done|].
    rewrite string_app_assoc. exact Hne.
Qed.

Lemma parse_term_season_year (season : string) (rank : Z) (n : nat) :
  Dict.get SEASON_ORDER season = Some rank ->
  String.length (PyStr.of_nat n) <= PyInt.max_str_digits ->
  parse_term (season +:+ " " +:+ PyStr.of_nat n) = Ok (Z.of_nat n, rank).
Proof.
  intros Hseason Hlen. unfold parse_term, PyStr.split_ws.
  assert (all_chars (fun c => negb (PyStr.isspace c)) season = true
          /\ season <> "") as [Hword Hne].
  { apply season_order_spec in Hseason
      as [[-> _]|[[-> _]|[-> _]]]; by split. }
  rewrite split_ws_go_space by done.
  rewrite split_ws_go_word.
  - rewrite !string_app_nil_l.
    assert (match PyStr.of_nat n with
            | EmptyString => []
            | t => [t]
            end = [PyStr.of_nat n]) as ->.
    { pose proof (of_nat_nonempty n). by destruct (PyStr.of_nat n). }
    by rewrite parse_of_nat, Hseason.
  - eapply all_chars_impl; [|apply of_nat_digits].
    intros c Hc. by destruct (is_digit_cases c Hc) as (-> & _).
Qed.

(** X11: a term written as a season of the table, a blank and a year in
    decimal is sorted by that year and the season's rank, and no warning is
    printed for it. *)
Theorem term_chrono_index_of_season_and_year (season : string) (rank : Z)
    (n : nat) (w : World Env) :
  Dict.get SEASON_ORDER season = Some rank ->
  String.length (PyStr.of_nat n) <= PyInt.max_str_digits ->
  term_chrono_index (season +:+ " " +:+ PyStr.of_nat n) w
  = (Ok (Z.of_nat n, rank), w).
Proof.
  intros Hseason Hlen. rewrite term_chrono_index_run.
  unfold term_key, term_warning.
  rewrite (parse_term_season_year season rank n Hseason Hlen).
  by rewrite add_stdout_nil.
Qed.

(** ** More on the downloader: what it writes, and where *)

Lemma writes_only_weaken {A} (S S' : string -> Prop) (m : M A) :
  (forall q, S q -> S' q) -> writes_only S m -> writes_only S' m.
Proof.
  intros HS Hm w r w' Hrun. destruct (Hm _ _ _ Hrun) as (Hr & Ho & Hd).
  split; [done|]. split; [done|]. intros q Hq. apply Hd. auto.
Qed.

Lemma writes_only_same {A} (S : string -> Prop) (m : M A) :
  (forall w r w', m w = (r, w') ->
     readme w' = readme w /\ stdout w' = stdout w /\ disk w' = disk w) ->
  writes_only S m.
Proof.
  intros Hm w r w' Hrun. destruct (Hm _ _ _ Hrun) as (Hr & Ho & Hd).
  split; [done|]. split; [exists []; by rewrite app_nil_r|].
  intros q _. by rewrite Hd.
Qed.

Lemma writes_only_ret {A} (S : string -> Prop) (a : A) : writes_only S (mret a).
Proof. apply writes_only_same. by intros w r w' [= <- <-]. Qed.

Lemma writes_only_raise {A} (S : string -> Prop) (e : Exn) :
  writes_only S (raise (A := A) e).
Proof. apply writes_only_same. by intros w r w' [= <- <-]. Qed.

Lemma writes_only_trans (S : string -> Prop) (w1 w2 w3 : World Env) :
  (readme w2 = readme w1 /\
   (exists log, stdout w2 = stdout w1 ++ log /\ forallb is_exception log = true) /\
   forall q, ~ S q -> disk w2 !! q = disk w1 !! q) ->
  (readme w3 = readme w2 /\
   (exists log, stdout w3 = stdout w2 ++ log /\ forallb is_exception log = true) /\
   forall q, ~ S q -> disk w3 !! q = disk w2 !! q) ->
  readme w3 = readme w1 /\
  (exists log, stdout w3 = stdout w1 ++ log /\ forallb is_exception log = true) /\
  forall q, ~ S q -> disk w3 !! q = disk w1 !! q.
Proof.
  intros (Hr & (l1 & Ho & Hl1) & Hd) (Hr' & (l2 & Ho' & Hl2) & Hd').
  split; [congruence|]. split.
  - exists (l1 ++ l2). rewrite Ho', Ho, app_assoc. split; [done|].
    by rewrite forallb_app, Hl1, Hl2.
  - intros q Hq. rewrite Hd', Hd; done.
Qed.

Lemma writes_only_bind {A B} (S : string -> Prop) (m : M A) (f : A -> M B) :
  writes_only S m -> (forall a, writes_only S (f a)) -> writes_only S (m ≫= f).
Proof.
  intros Hm Hf w r w' [(a & w1 & H1 & H2)|(e & H1 & _)]%bind_inv.
  - eapply writes_only_trans; [by eapply Hm|by eapply Hf].
  - by eapply Hm.
Qed.

Lemma writes_only_try_except {A} (S : string -> Prop) (body : M A)
    (handler : Exn -> M A) :
  writes_only S body -> (forall e, writes_only S (handler e)) ->
  writes_only S (try_except body handler).
Proof.
  intros Hb Hh w r w'. unfold try_except.
  destruct (body w) as [[a|e] w1] eqn:Hbody.
  - intros [= <- <-]. by eapply Hb.
  - intros Hrun. eapply writes_only_trans; [by eapply Hb|by eapply Hh].
Qed.

Lemma writes_only_for_each {A St} (S : string -> Prop) (l : list A) (s : St)
    (body : St -> A -> M St) :
  (forall s x, writes_only S (body s x)) -> writes_only S (for_each l s body).
Proof.
  intros Hbody. revert s. induction l as [|x l IH]; intros s; cbn [for_each].
  - apply writes_only_ret.
  - apply writes_only_bind; [apply Hbody|]. intros s'. apply IH.
Qed.

Lemma writes_only_print (S : string -> Prop) (p : Printed) :
  is_exception p = true -> writes_only S (print p).
Proof.
  intros Hp w r w' [= <- <-]. split; [done|]. split; [|done].
  exists [p]. split; [done|]. simpl. by rewrite Hp.
Qed.

Lemma writes_only_session_get (S : string -> Prop) (url : pyval)
    (stream : bool) :
  writes_only S (session_get url stream).
Proof.
  apply writes_only_same. intros w r w'. rewrite session_get_run.
  by intros [= <- <-].
Qed.

Lemma writes_only_syscall (S : string -> Prop) (c : Syscall)
    (effect : gmap string File -> gmap string File) :
  (forall d q, ~ S q -> effect d !! q = d !! q) ->
  writes_only S (syscall c effect).
Proof.
  intros Heff w r w'. unfold syscall.
  destruct (os_fault c (env w)) as [[e|] e1]; intros [= <- <-];
    (split; [done|]); (split; [exists []; by rewrite app_nil_r|]); [done|].
  intros q Hq. by apply Heff.
Qed.

Lemma writes_only_save_body (path : string) (response : Response) :
  writes_only (eq path) (save_body path response).
Proof.
  unfold save_body.
  apply writes_only_bind.
  { apply writes_only_syscall. intros d q Hq. by apply lookup_insert_ne. }
  intros _. apply writes_only_bind.
  { apply writes_only_for_each. intros _ chunk. apply writes_only_syscall.
    intros d q Hq. destruct (d !! path) as [[old|]|]; try done.
    by apply lookup_insert_ne. }
  intros _. destruct (stream_error response);
    [apply writes_only_raise|apply writes_only_ret].
Qed.

Lemma writes_only_download_step (out_dir course assignment : string)
    (submission : InspectedSubmission) (filenames : list DownloadedFile)
    (index : nat) (link : SubmissionFile) :
  writes_only (eq (candidate_path out_dir course assignment submission index link))
    (download_step out_dir course assignment submission filenames index link).
Proof.
  apply writes_only_try_except.
  - unfold fetch.
    apply writes_only_bind; [apply writes_only_session_get|]. intros response.
    destruct (negb _); [apply writes_only_ret|].
    apply writes_only_bind; [apply writes_only_save_body|]. intros _.
    apply writes_only_ret.
  - intros e. apply writes_only_bind; [by apply writes_only_print|]. intros _.
    apply writes_only_ret.
Qed.

Lemma writes_only_download_from (out_dir course assignment : string)
    (submission : InspectedSubmission) (links : list SubmissionFile) (i : nat)
    (filenames : list DownloadedFile) :
  writes_only
    (fun q => exists k link,
       links !! k = Some link /\
       q = candidate_path out_dir course assignment submission (i + k) link)
    (download_from out_dir course assignment submission i links filenames).
Proof.
  unfold download_from. revert i filenames.
  induction links as [|link links IH]; intros i filenames; cbn [for_enumerate].
  - apply writes_only_ret.
  - apply writes_only_bind.
    + eapply writes_only_weaken; [|apply writes_only_download_step].
      intros q <-. exists 0, link. by rewrite Nat.add_0_r.
    + intros filenames'. eapply writes_only_weaken; [|apply IH].
      intros q (k & link' & Hk & ->). exists (S k), link'.
      split; [done|]. f_equal. lia.
Qed.

(** X12: [download] writes to no path but those of its candidates, the
    file names of the submission inside the output directory, prints nothing
    but the exceptions it catches and leaves the README alone; every other
    file of the disk stays as it was, whether the downloads succeed or
    fail. *)
Theorem download_writes_only_candidates (out_dir course assignment : string)
    (submission : InspectedSubmission) (w : World Env) (q : string) :
  (forall i link, sub_files submission !! i = Some link ->
     q <> candidate_path out_dir course assignment submission i link) ->
  let w' := (download out_dir course assignment submission w).2 in
  disk w' !! q = disk w !! q /\
  readme w' = readme w /\
  exists log, stdout w' = stdout w ++ log /\ forallb is_exception log = true.
Proof.
  intros Hq.
  destruct (download out_dir course assignment submission w) as [r w'] eqn:Hrun.
  destruct (writes_only_download_from out_dir course assignment submission
              (sub_files submission) 0 [] _ _ _ Hrun) as (Hreadme & Hout & Hdisk).
  cbn [snd]. split; [|done]. apply Hdisk.
  intros (k & link & Hk & ->). by apply (Hq k link).
Qed.

Lemma syscall_ok (c : Syscall) (effect : gmap string File -> gmap string File)
    (w w' : World Env) :
  syscall c effect w = (Ok tt, w') -> disk w' = effect (disk w).
Proof.
  unfold syscall. by destruct (os_fault c (env w)) as [[e|] e1]; intros [= <-].
Qed.

(** The chunks written one after the other, when every write succeeds. *)
Lemma write_chunks_ok (path : string) (chunks : list string) (old : string)
    (w w' : World Env) :
  for_each chunks tt (fun _ chunk => file_write path chunk) w = (Ok tt, w') ->
  disk w !! path = Some (Regular old) ->
  disk w' !! path = Some (Regular (old +:+ PyStr.join chunks)).
Proof.
  revert old w. induction chunks as [|chunk chunks IH]; intros old w;
    cbn [for_each].
  - intros [= <-] Hold. by rewrite string_app_nil_r.
  - intros ([] & w1 & Hwrite & Hrest)%bind_ok_inv Hold.
    apply syscall_ok in Hwrite. rewrite Hold in Hwrite.
    rewrite join_cons, <- string_app_assoc.
    apply (IH _ _ Hrest). rewrite Hwrite. apply lookup_insert_eq.
Qed.

(** A body saved without an exception is on the disk in full. *)
Lemma save_body_content (path : string) (response : Response)
    (w w' : World Env) :
  save_body path response w = (Ok tt, w') ->
  stream_error response = None /\
  disk w' !! path = Some (Regular (PyStr.join (chunks response))).
Proof.
  unfold save_body.
  intros ([] & w1 & Hopen & Hrest)%bind_ok_inv.
  apply bind_ok_inv in Hrest as ([] & w2 & Hwrite & Hend).
  destruct (stream_error response); [done|]. injection Hend as <-.
  split; [done|].
  apply syscall_ok in Hopen.
  apply (write_chunks_ok _ _ "") in Hwrite; [done|].
  rewrite Hopen. apply lookup_insert_eq.
Qed.

(** One candidate that is recorded: it was answered with status 200, its
    stream ended without an exception, and the file holds the whole body. *)
Lemma download_step_recorded (out_dir course assignment : string)
    (submission : InspectedSubmission) (index : nat) (link : SubmissionFile)
    (w w' : World Env) (kept : list DownloadedFile) :
  download_step out_dir course assignment submission [] index link w
  = (Ok kept, w') ->
  kept <> [] ->
  exists response e1,
    requests_get (sf_url link) true (env w) = (Ok response, e1) /\
    status_code response = 200%Z /\ stream_error response = None /\
    disk w' !! candidate_path out_dir course assignment submission index link
    = Some (Regular (PyStr.join (chunks response))).
Proof.
  unfold download_step, fetch, try_except. rewrite run_bind, session_get_run.
  destruct (requests_get (sf_url link) true (env w)) as [[response|e] e1];
    cbn [fst snd]; [|by intros [= <- <-]].
  destruct (status_code response =? 200)%Z eqn:Hstatus; cbn [negb];
    [|by intros [= <- <-]].
  rewrite run_bind.
  destruct (save_body _ response _) as [[[]|e] w2] eqn:Hsave;
    [|by intros [= <- <-]].
  intros [= <- <-] _. apply save_body_content in Hsave as [Hstream Hdisk].
  apply Z.eqb_eq in Hstatus. by exists response, e1.
Qed.

Lemma prefix_nil (s : string) : String.prefix "" s = true.
Proof. by destruct s. Qed.

Lemma path_join_inj (dir name1 name2 : string) :
  String.prefix "/" name1 = String.prefix "/" name2 ->
  path_join dir name1 = path_join dir name2 -> name1 = name2.
Proof.
  unfold path_join. intros <-.
  destruct (String.prefix "/" name1); [done|].
  destruct (String.eqb dir "" || PyStr.endswith dir "/").
  - apply string_app_inv_head.
  - intros H. by do 2 apply string_app_inv_head in H.
Qed.

Lemma candidate_path_inj (out_dir course assignment : string)
    (submission : InspectedSubmission) (i j : nat) (link1 link2 : SubmissionFile) :
  candidate_path out_dir course assignment submission i link1
  = candidate_path out_dir course assignment submission j link2 ->
  i = j.
Proof.
  unfold candidate_path. intros Heq%path_join_inj.
  - destruct (decide (i = j)) as [|Hne]; [done|].
    by apply filename_of_name_distinct in Heq.
  - unfold filename_of. destruct course as [|c course]; [done|].
    rewrite !string_app_cons. cbn [String.prefix].
    destruct (ascii_dec "/" c); [|done]. by rewrite !prefix_nil.
Qed.

(** X13: a file of [download]'s result holds the whole body of the answer
    to its candidate's request: the answer had status 200, its stream ended
    without an exception, and at the end of [download] the file at the
    candidate's path is the concatenation of the chunks, no later candidate
    having written over it. *)
Theorem download_stores_complete_bodies (out_dir course assignment : string)
    (submission : InspectedSubmission) (before after : list SubmissionFile)
    (link : SubmissionFile) (w w1 w' : World Env)
    (files1 files : list DownloadedFile) :
  sub_files submission = before ++ link :: after ->
  download_from out_dir course assignment submission 0 before [] w
  = (Ok files1, w1) ->
  download out_dir course assignment submission w = (Ok files, w') ->
  downloaded course assignment submission (length before) link ∈ files ->
  exists response e1,
    requests_get (sf_url link) true (env w1) = (Ok response, e1) /\
    status_code response = 200%Z /\ stream_error response = None /\
    disk w' !! candidate_path out_dir course assignment submission
                 (length before) link
    = Some (Regular (PyStr.join (chunks response))).
Proof.
  intros Hfiles Hrun1 Hrun Hin.
  change (download out_dir course assignment submission)
    with (download_from out_dir course assignment submission 0
            (sub_files submission) []) in Hrun.
  rewrite Hfiles, download_from_app, Hrun1, download_from_cons in Hrun.
  cbn [Nat.add] in Hrun.
  destruct (download_from_spec out_dir course assignment submission before 0 w)
    as (files1' & w1' & Hrun1' & _ & _ & Hbefore).
  rewrite Hrun1 in Hrun1'. injection Hrun1' as <- <-.
  destruct (download_step_result out_dir course assignment submission
              (length before) link w1) as (kept & w2 & Hstep & _ & Hkept).
  destruct (download_from_spec out_dir course assignment submission after
              (S (length before)) w2)
    as (files3 & w3 & Hrun3 & _ & _ & Hafter).
  rewrite Hstep, Hrun3 in Hrun. injection Hrun as <- <-.
  assert (kept <> []) as Hne.
  { intros ->. cbn [app] in Hin. apply elem_of_app in Hin as [Hin|Hin].
    - destruct (Hbefore _ Hin) as (k & l & Hk & Heq & _).
      apply lookup_lt_Some in Hk. apply (f_equal df_index) in Heq.
      simpl in Heq. lia.
    - destruct (Hafter _ Hin) as (k & l & _ & Heq & _).
      apply (f_equal df_index) in Heq. simpl in Heq. lia. }
  destruct (download_step_recorded _ _ _ _ _ _ _ _ _ Hstep Hne)
    as (response & e1 & Hget & Hstatus & Hstream & Hdisk).
  exists response, e1. split; [done|]. split; [done|]. split; [done|].
  destruct (writes_only_download_from out_dir course assignment submission
              after (S (length before)) [] _ _ _ Hrun3) as (_ & _ & Hframe).
  rewrite Hframe; [done|].
  intros (k & link' & _ & Heq). apply candidate_path_inj in Heq. lia.
Qed.

Lemma syscall_no_fault (c : Syscall)
    (effect : gmap string File -> gmap string File) (w : World Env) :
  (forall c en, (os_fault c en).1 = None) ->
  syscall c effect w
  = (Ok tt, mkWorld (os_fault c (env w)).2 (effect (disk w)) (stdout w)
              (readme w)).
Proof.
  intros Hos. unfold syscall. specialize (Hos c (env w)).
  destruct (os_fault c (env w)) as [[e|] en]; by simplify_eq/=.
Qed.

Lemma write_chunks_no_fault (path : string) (chunks : list string)
    (old : string) (w : World Env) :
  (forall c en, (os_fault c en).1 = None) ->
  disk w !! path = Some (Regular old) ->
  exists w',
    for_each chunks tt (fun _ chunk => file_write path chunk) w = (Ok tt, w') /\
    disk w' !! path = Some (Regular (old +:+ PyStr.join chunks)) /\
    stdout w' = stdout w /\ readme w' = readme w.
Proof.
  intros Hos. revert old w.
  induction chunks as [|chunk chunks IH]; intros old w Hold; cbn [for_each].
  - exists w. by rewrite string_app_nil_r.
  - rewrite run_bind. unfold file_write. rewrite syscall_no_fault by done.
    rewrite Hold.
    edestruct (IH (old +:+ chunk)) as (w' & -> & Hdisk & Hout & Hreadme);
      [apply lookup_insert_eq|].
    exists w'. split; [done|].
    by rewrite join_cons, <- string_app_assoc.
Qed.

(** X14: on a system whose calls do not fail, a candidate answered with
    status 200 always leaves the chunks it delivered in its file.  The file
    is recorded when the stream ended well; when the stream broke, nothing
    is recorded and the exception is printed, so that the partial file stays
    in the output directory without being part of the result. *)
Theorem download_step_keeps_delivered_chunks (out_dir course assignment : string)
    (submission : InspectedSubmission) (acc : list DownloadedFile)
    (index : nat) (link : SubmissionFile) (w : World Env)
    (response : Response) (e1 : Env) :
  (forall c en, (os_fault c en).1 = None) ->
  requests_get (sf_url link) true (env w) = (Ok response, e1) ->
  status_code response = 200%Z ->
  exists w',
    download_step out_dir course assignment submission acc index link w
    = (Ok (match stream_error response with
           | None => acc ++ [downloaded course assignment submission index link]
           | Some _ => acc
           end), w') /\
    stdout w' = stdout w ++ match stream_error response with
                            | None => []
                            | Some e => [PException e]
                            end /\
    readme w' = readme w /\
    disk w' !! candidate_path out_dir course assignment submission index link
    = Some (Regular (PyStr.join (chunks response))).
Proof.
  intros Hos Hget Hstatus.
  unfold download_step, fetch, try_except, save_body.
  rewrite run_bind, session_get_run, Hget. cbn [fst snd].
  rewrite Hstatus. cbn [Z.eqb Pos.eqb negb].
  rewrite !run_bind. unfold open_w. rewrite syscall_no_fault by done.
  rewrite run_bind.
  match goal with
  | |- context [for_each (chunks response) tt _ ?w1] =>
      destruct (write_chunks_no_fault
                  (path_join out_dir
                     (filename_of course assignment (sub_slug submission)
                        index (sf_ext link)))
                  (chunks response) "" w1 Hos)
        as (w2 & -> & Hdisk & Hout & Hreadme);
        [cbn [disk]; apply lookup_insert_eq|]
  end.
  rewrite string_app_nil_l in Hdisk. cbn [stdout readme set_env] in Hout, Hreadme.
  destruct (stream_error response) as [e|].
  - eexists. split; [reflexivity|]. unfold print. cbn [stdout readme disk].
    by rewrite Hout.
  - eexists. split; [reflexivity|]. by rewrite app_nil_r.
Qed.

(** ** The report as a whole: the README and the output of [main] *)

Lemma outline_app (l1 l2 : list ReadmeChunk) :
  outline (l1 ++ l2) = outline l1 ++ outline l2.
Proof. apply omap_app. Qed.

Lemma submission_lines_app (l1 l2 : list Printed) :
  submission_lines (l1 ++ l2) = submission_lines l1 ++ submission_lines l2.
Proof. apply omap_app. Qed.

Lemma file_counts_app (l1 l2 : list Printed) :
  file_counts (l1 ++ l2) = file_counts l1 ++ file_counts l2.
Proof. apply omap_app. Qed.

Lemma links_ahead_app (l1 l2 : list ReadmeChunk) :
  links_ahead l2 = 0 -> links_ahead (l1 ++ l2) = links_ahead l1.
Proof.
  intros H2. induction l1 as [|c l1 IH]; [done|].
  destruct c; cbn [app links_ahead]; congruence.
Qed.

Lemma submission_entries_app (l1 l2 : list ReadmeChunk) :
  links_ahead l2 = 0 ->
  submission_entries (l1 ++ l2) = submission_entries l1 ++ submission_entries l2.
Proof.
  intros H2. induction l1 as [|c l1 IH]; [done|].
  destruct c; cbn [app submission_entries]; rewrite ?IH, ?links_ahead_app; done.
Qed.

Lemma notices_silent (log : list Printed) :
  forallb is_notice log = true ->
  submission_lines log = [] /\ file_counts log = [].
Proof.
  induction log as [|p log IH]; [done|]. cbn [forallb].
  intros [Hp Hlog]%andb_prop. destruct (IH Hlog) as [Hs Hf].
  destruct p; try discriminate; cbn; by rewrite ?Hs, ?Hf.
Qed.

Lemma exceptions_notices (log : list Printed) :
  forallb is_exception log = true -> forallb is_notice log = true.
Proof.
  induction log as [|p log IH]; [done|]. cbn [forallb].
  intros [Hp Hlog]%andb_prop. rewrite (IH Hlog), andb_true_r.
  by destruct p.
Qed.

Lemma links_ahead_links (files : list DownloadedFile) (rest : list ReadmeChunk) :
  links_ahead (map RLink files ++ rest) = length files + links_ahead rest.
Proof.
  induction files as [|f files IH]; [done|].
  cbn [map app links_ahead length Nat.add]. by rewrite IH.
Qed.

Lemma submission_entries_links (files : list DownloadedFile)
    (rest : list ReadmeChunk) :
  submission_entries (map RLink files ++ rest) = submission_entries rest.
Proof. induction files as [|f files IH]; [done|]. exact IH. Qed.

Lemma outline_links (files : list DownloadedFile) (rest : list ReadmeChunk) :
  outline (map RLink files ++ rest) = outline rest.
Proof. induction files as [|f files IH]; [done|]. exact IH. Qed.

Lemma reported_refl (w : World Env) : reported w w [] [].
Proof. exists [], [], []. by rewrite !app_nil_r. Qed.

Lemma reported_trans (w1 w2 w3 : World Env) (h1 h2 : list ReadmeChunk)
    (s1 s2 : list string) :
  reported w1 w2 h1 s1 -> reported w2 w3 h2 s2 ->
  reported w1 w3 (h1 ++ h2) (s1 ++ s2).
Proof.
  intros (a1 & l1 & c1 & Hr1 & Ho1 & Ha1 & Hh1 & Hs1 & Hc1 & Hn1 & He1)
         (a2 & l2 & c2 & Hr2 & Ho2 & Ha2 & Hh2 & Hs2 & Hc2 & Hn2 & He2).
  exists (a1 ++ a2), (l1 ++ l2), (c1 ++ c2).
  split; [by rewrite Hr2, Hr1, app_assoc|].
  split; [by rewrite Ho2, Ho1, app_assoc|].
  split; [by rewrite links_ahead_app|].
  split; [by rewrite outline_app, Hh1, Hh2|].
  split; [by rewrite submission_lines_app, Hs1, Hs2, map_app|].
  split; [by rewrite file_counts_app, Hc1, Hc2|].
  split; [by rewrite !length_app, Hn1, Hn2|].
  rewrite submission_entries_app, He1, He2 by done.
  by rewrite zip_with_app.
Qed.

Lemma reported_quiet (w w' : World Env) :
  readme w' = readme w ->
  (exists log, stdout w' = stdout w ++ log /\ forallb is_notice log = true) ->
  reported w w' [] [].
Proof.
  intros Hr (log & Ho & [Hs Hf]%notices_silent).
  exists [], log, []. by rewrite app_nil_r.
Qed.

Lemma reported_print (w : World Env) (p : Printed) :
  submission_lines [p] = [] -> file_counts [p] = [] ->
  reported w (add_stdout w [p]) [] [].
Proof. intros Hs Hf. exists [], [p], []. cbn [readme add_stdout]. by rewrite app_nil_r. Qed.

Lemma reported_heading (w : World Env) (c : ReadmeChunk) :
  outline [c] = [c] -> reported w (add_readme w [c]) [c] [].
Proof.
  intros Hc. exists [c], [], []. cbn [stdout add_readme]. rewrite app_nil_r.
  by destruct c.
Qed.

(** One submission: its line, its downloads, the number of files and its
    README entry. *)
Lemma export_submission_reported (course : InspectedCourse)
    (assignment : InspectedAssignmentFromCourse) (i_assignment : nat)
    (submission : InspectedSubmission) (w : World Env) :
  exists w',
    export_submission course assignment 1 i_assignment 0 submission w
    = (Ok (i_assignment + 1), w') /\
    reported w w' [] [sub_slug submission].
Proof.
  unfold export_submission. rewrite run_bind, print_run.
  set (w1 := add_stdout w _).
  destruct (download_from_spec tmpdir (crs_slug course) (asg_slug assignment)
              submission (sub_files submission) 0 w1)
    as (files & w2 & Hrun & _).
  destruct (writes_only_download_from _ _ _ _ _ _ _ _ _ _ Hrun)
    as (Hreadme & (dl & Hout & Hdl) & _).
  change (download tmpdir (crs_slug course) (asg_slug assignment) submission)
    with (download_from tmpdir (crs_slug course) (asg_slug assignment)
            submission 0 (sub_files submission) []).
  rewrite run_bind, Hrun, run_bind, print_run, run_bind.
  set (w3 := add_stdout w2 _).
  set (chunk := if (length files =? 0)%nat
                then RNoFiles (sub_slug submission)
                else RSubmission (sub_slug submission)).
  assert ((if (length files =? 0)%nat
           then readme_write (RNoFiles (sub_slug submission))
           else readme_write (RSubmission (sub_slug submission))) w3
          = (Ok tt, add_readme w3 [chunk])) as ->.
  { subst chunk. by destruct (length files =? 0)%nat. }
  rewrite run_bind, write_links_run, run_bind, readme_write_run, run_ret.
  eexists. split; [reflexivity|].
  destruct (notices_silent dl (exceptions_notices dl Hdl)) as [Hs Hf].
  exists (chunk :: map RLink files ++ [RNewline]),
         (PSubmission 1 1 (sub_slug submission) :: dl ++ [PFileCount (length files)]),
         [length files].
  subst w3 w1. cbn [readme stdout add_readme add_stdout] in *.
  split; [by rewrite Hreadme, <- !app_assoc|].
  split; [by rewrite Hout, <- !app_assoc|].
  split; [subst chunk; by destruct (length files =? 0)%nat|].
  split.
  { change (chunk :: ?l) with ([chunk] ++ l).
    rewrite outline_app, outline_links. subst chunk.
    by destruct (length files =? 0)%nat. }
  split.
  { change (?p :: ?l) with ([p] ++ l).
    by rewrite !submission_lines_app, Hs. }
  split.
  { change (?p :: ?l) with ([p] ++ l).
    by rewrite !file_counts_app, Hf. }
  split; [done|].
  subst chunk. cbn [zip_with].
  destruct (length files =? 0)%nat; cbn [submission_entries];
    by rewrite links_ahead_links, submission_entries_links, Nat.add_0_r.
Qed.

Lemma writes_only_list_submissions (course : InspectedCourse)
    (assignment : InspectedAssignmentFromCourse) :
  writes_only (fun _ => False) (list_submissions course assignment).
Proof.
  intros w r w'. rewrite list_submissions_run. cbv zeta.
  destruct (requests_get _ false (env w)) as [[response|e] e1];
    [destruct (py_contains "pdf" (located_link response)) as [[]|e]|];
    intros [= <- <-]; (split; [done|]); (split; [|done]);
    first [ by (exists []; cbn [stdout set_env]; rewrite app_nil_r)
          | by (exists [PException e]) ].
Qed.

Lemma export_assignment_reported (n_assignments : nat)
    (course : InspectedCourse) (i_assignment : nat)
    (assignment : InspectedAssignmentFromCourse) (w : World Env) :
  exists w',
    export_assignment n_assignments course i_assignment assignment w
    = (Ok (i_assignment + 1), w') /\
    reported w w' [RAssignment (asg_name assignment) (asg_grade assignment)]
      [asg_submission assignment].
Proof.
  unfold export_assignment.
  rewrite run_bind, print_run, run_bind, readme_write_run.
  set (w1 := add_stdout w _). set (w2 := add_readme w1 _).
  destruct (list_submissions_spec course assignment w2)
    as (files & w3 & Hrun & _).
  destruct (writes_only_list_submissions _ _ _ _ _ Hrun)
    as (Hr & (ls & Ho & Hls%exceptions_notices) & _).
  rewrite run_bind, Hrun. cbn [for_enumerate length].
  set (submission := {| sub_slug := _; sub_files := files |}).
  destruct (export_submission_reported course assignment i_assignment
              submission w3) as (w4 & Hsub & Hrep).
  rewrite run_bind, Hsub, run_ret.
  exists w4. split; [done|].
  apply (reported_trans w w1 w4 [] _ [] _); [by apply reported_print|].
  apply (reported_trans w1 w2 w4 [_] _ [] _); [by apply reported_heading|].
  apply (reported_trans w2 w3 w4 [] _ [] _);
    [apply reported_quiet; [done|by exists ls]|].
  exact Hrep.
Qed.

Lemma export_assignments_reported (n_assignments : nat)
    (course : InspectedCourse)
    (assignments : list InspectedAssignmentFromCourse) (i_assignment : nat)
    (w : World Env) :
  exists w' i',
    for_each assignments i_assignment (export_assignment n_assignments course) w
    = (Ok i', w') /\
    reported w w'
      (map (fun a => RAssignment (asg_name a) (asg_grade a)) assignments)
      (map asg_submission assignments).
Proof.
  revert i_assignment w.
  induction assignments as [|a assignments IH]; intros i w; cbn [for_each].
  - exists w, i. split; [done|]. apply reported_refl.
  - destruct (export_assignment_reported n_assignments course i a w)
      as (w1 & Hrun & Hrep).
    destruct (IH (i + 1) w1) as (w2 & i' & Hrest & Hrep').
    exists w2, i'. rewrite run_bind, Hrun. split; [done|].
    apply (reported_trans w w1 w2 [_] _ [_] _ Hrep Hrep').
Qed.

Lemma export_course_reported (n_assignments i_assignment : nat)
    (course : InspectedCourse) (w : World Env) :
  exists w' i',
    export_course n_assignments i_assignment course w = (Ok i', w') /\
    reported w w' (course_outline course)
      (map asg_submission (crs_assignments course)).
Proof.
  unfold export_course. rewrite run_bind, readme_write_run.
  destruct (export_assignments_reported n_assignments course
              (crs_assignments course) i_assignment
              (add_readme w [RCourse course])) as (w' & i' & Hrun & Hrep).
  exists w', i'. split; [done|].
  apply (reported_trans w (add_readme w [RCourse course]) w' [_] _ [] _);
    [by apply reported_heading|done].
Qed.

Lemma export_courses_reported (n_assignments : nat)
    (courses : list InspectedCourse) (i_assignment : nat) (w : World Env) :
  exists w' i',
    for_each courses i_assignment (export_course n_assignments) w = (Ok i', w') /\
    reported w w' (concat (map course_outline courses))
      (map asg_submission (concat (map crs_assignments courses))).
Proof.
  revert i_assignment w.
  induction courses as [|c courses IH]; intros i w; cbn [for_each].
  - exists w, i. split; [done|]. apply reported_refl.
  - destruct (export_course_reported n_assignments i c w)
      as (w1 & i1 & Hrun & Hrep).
    destruct (IH i1 w1) as (w2 & i' & Hrest & Hrep').
    exists w2, i'. rewrite run_bind, Hrun. split; [done|].
    cbn [map concat]. rewrite map_app.
    by eapply reported_trans.
Qed.

Lemma export_term_reported (n_assignments i_assignment : nat)
    (group : string * list InspectedCourse) (w : World Env) :
  exists w' i',
    export_term n_assignments i_assignment group w = (Ok i', w') /\
    reported w w' (term_outline group)
      (map asg_submission (concat (map crs_assignments group.2))).
Proof.
  unfold export_term. rewrite run_bind, readme_write_run.
  destruct (export_courses_reported n_assignments group.2 i_assignment
              (add_readme w [RTerm group.1])) as (w' & i' & Hrun & Hrep).
  exists w', i'. split; [done|].
  apply (reported_trans w (add_readme w [RTerm group.1]) w' [_] _ [] _);
    [by apply reported_heading|done].
Qed.

Lemma export_terms_reported (n_assignments : nat)
    (groups : list (string * list InspectedCourse)) (i_assignment : nat)
    (w : World Env) :
  exists w' i',
    for_each groups i_assignment (export_term n_assignments) w = (Ok i', w') /\
    reported w w' (concat (map term_outline groups))
      (map asg_submission (exported_assignments groups)).
Proof.
  unfold exported_assignments. revert i_assignment w.
  induction groups as [|group groups IH]; intros i w; cbn [for_each].
  - exists w, i. split; [done|]. apply reported_refl.
  - destruct (export_term_reported n_assignments i group w)
      as (w1 & i1 & Hrun & Hrep).
    destruct (IH i1 w1) as (w2 & i' & Hrest & Hrep').
    exists w2, i'. rewrite run_bind, Hrun. split; [done|].
    rewrite !fmap_cons. cbn [concat snd]. rewrite map_app, concat_app, map_app.
    by eapply reported_trans.
Qed.

Lemma term_warnings_notices (courses : list InspectedCourse) :
  forallb is_notice (term_warnings courses) = true.
Proof.
  unfold term_warnings.
  induction (group_by_term courses) as [|item l IH]; [done|].
  cbn [map concat]. rewrite forallb_app, IH, andb_true_r.
  unfold term_warning. by destruct (parse_term item.1).
Qed.

Lemma export_all_reported (courses : list InspectedCourse) (w : World Env) :
  exists w' i',
    export_all courses w = (Ok i', w') /\
    reported w w' (concat (map term_outline (sorted_groups courses)))
      (map asg_submission (exported_assignments (sorted_groups courses))).
Proof.
  unfold export_all. cbv zeta.
  rewrite run_bind, print_run, run_bind, sort_courses_run.
  set (w1 := add_stdout w _). set (w2 := add_stdout w1 _).
  destruct (export_terms_reported (count_assignments courses)
              (sorted_groups courses) 1 w2) as (w' & i' & Hrun & Hrep).
  exists w', i'. split; [done|].
  apply (reported_trans w w1 w' [] _ [] _); [by apply reported_print|].
  apply (reported_trans w1 w2 w' [] _ [] _); [|done].
  apply reported_quiet; [done|].
  eexists. split; [done|]. apply term_warnings_notices.
Qed.

Lemma course_lines_silent (total : nat) (courses : list InspectedCourse)
    (f : nat -> nat) :
  submission_lines (imap (fun k => course_line total (f k)) courses) = [] /\
  file_counts (imap (fun k => course_line total (f k)) courses) = [].
Proof.
  revert f. induction courses as [|c courses IH]; intros f; [done|].
  rewrite imap_cons. destruct (IH (f ∘ S)) as [Hs Hf].
  split; [exact Hs|exact Hf].
Qed.

Lemma course_lines_quiet (total : nat) (courses : list InspectedCourse) :
  submission_lines (imap (course_line total) courses) = [] /\
  file_counts (imap (course_line total) courses) = [].
Proof. exact (course_lines_silent total courses id). Qed.

(** The steps of a run of [main] that ends well, and what they report. *)
Lemma main_reported (w w' : World Env) :
  main w = (Ok tt, w') ->
  exists courses w0 w1 w2,
    startup w = (Ok tt, w0) /\ inspect_all w0 = (Ok courses, w1) /\
    readme w1 = [RHeader] /\
    submission_lines (stdout w1) = submission_lines (stdout w) /\
    file_counts (stdout w1) = file_counts (stdout w) /\
    reported w1 w2 (concat (map term_outline (sorted_groups courses)))
      (map asg_submission (exported_assignments (sorted_groups courses))) /\
    stdout w' = stdout w2 /\ readme w' = readme w2.
Proof.
  intros (courses & w0 & w1 & w2 & Hstart & Hinspect & Hexport & _
          & Harchive)%main_ok.
  destruct (export_all_reported courses w1) as (w2' & i' & Hrun & Hrep).
  rewrite Hexport in Hrun. injection Hrun as _ <-.
  apply make_archive_ok in Harchive as (Hout & Hreadme & _).
  cbn [stdout readme] in Hout, Hreadme.
  exists courses, w0, w1, w2. split; [done|]. split; [done|].
  apply startup_ok in Hstart as Hw0. destruct Hw0 as [Hout0 Hreadme0].
  apply inspect_all_ok in Hinspect as Hw1.
  destruct Hw1 as (slugs & v & _ & _ & Hout1 & _ & Hreadme1).
  destruct (course_lines_quiet (length slugs) courses) as [Hs Hf].
  split; [congruence|].
  split; [by rewrite Hout1, Hout0, !submission_lines_app, Hs, !app_nil_r|].
  split; [by rewrite Hout1, Hout0, !file_counts_app, Hf, !app_nil_r|].
  done.
Qed.

(** X15: in a run of [main] that ends well, the headings of the README
    are its header followed, for each group of [sort_courses] in order, by
    the term, and under it each course of the group followed by each of its
    assignments with its grade: every assignment of every inspected course is
    listed once, whether or not any of its files could be downloaded. *)
Theorem readme_outline_follows_sort_courses (w w' : World Env) :
  main w = (Ok tt, w') ->
  exists courses w0 w1,
    startup w = (Ok tt, w0) /\ inspect_all w0 = (Ok courses, w1) /\
    (forall v, (sort_courses courses v).1 = Ok (sorted_groups courses)) /\
    outline (readme w')
    = RHeader :: concat (map term_outline (sorted_groups courses)).
Proof.
  intros (courses & w0 & w1 & w2 & Hstart & Hinspect & Hheader & _ & _
          & Hrep & _ & Hreadme)%main_reported.
  exists courses, w0, w1. split; [done|]. split; [done|].
  split; [intros v; by rewrite sort_courses_run|].
  destruct Hrep as (added & log & counts & Hr & _ & _ & Hh & _).
  by rewrite Hreadme, Hr, Hheader, outline_app, Hh.
Qed.

(** X16: in a run of [main] that ends well, every assignment is followed
    by exactly one submission line, numbered 1 of 1 and naming the
    assignment's submission, in the order of the export. *)
Theorem submission_lines_are_one_of_one (w w' : World Env) :
  main w = (Ok tt, w') ->
  exists courses w0 w1,
    startup w = (Ok tt, w0) /\ inspect_all w0 = (Ok courses, w1) /\
    submission_lines (stdout w')
    = submission_lines (stdout w)
      ++ map (fun a => (1, 1, asg_submission a))
           (exported_assignments (sorted_groups courses)).
Proof.
  intros (courses & w0 & w1 & w2 & Hstart & Hinspect & _ & Hlines & _
          & Hrep & Hout & _)%main_reported.
  exists courses, w0, w1. split; [done|]. split; [done|].
  destruct Hrep as (added & log & counts & _ & Ho & _ & _ & Hs & _).
  rewrite Hout, Ho, submission_lines_app, Hlines, Hs.
  by rewrite <- list_fmap_compose.
Qed.

(** X17: in a run of [main] that ends well, the README has one entry per
    exported submission, in order; the entry says "(no files)" exactly when
    the number of files printed for the submission is 0, and it is followed
    by as many links as that number. *)
Theorem readme_entries_match_file_counts (w w' : World Env) :
  main w = (Ok tt, w') ->
  exists courses w0 w1 counts,
    startup w = (Ok tt, w0) /\ inspect_all w0 = (Ok courses, w1) /\
    file_counts (stdout w') = file_counts (stdout w) ++ counts /\
    length counts = length (exported_assignments (sorted_groups courses)) /\
    submission_entries (readme w')
    = zip_with (fun slug n => (slug, (n =? 0)%nat, n))
        (map asg_submission (exported_assignments (sorted_groups courses)))
        counts.
Proof.
  intros (courses & w0 & w1 & w2 & Hstart & Hinspect & Hheader & _ & Hcounts
          & Hrep & Hout & Hreadme)%main_reported.
  destruct Hrep as (added & log & counts & Hr & Ho & Ha & _ & _ & Hc & Hn & He).
  exists courses, w0, w1, counts. split; [done|]. split; [done|].
  split; [by rewrite Hout, Ho, file_counts_app, Hcounts, Hc|].
  split; [by rewrite Hn, length_map|].
  by rewrite Hreadme, Hr, Hheader, submission_entries_app, He.
Qed.

(** ** More on the whole run: how it starts, stops and ends *)

Lemma startup_run (w : World Env) :
  startup w
  = match os_fault (OpenW readme_path) (env w) with
    | (None, en) =>
        (Ok tt, mkWorld en (<[readme_path := Regular ""]> (disk w))
                  (stdout w ++ [PBanner; PInspecting]) [RHeader])
    | (Some e, en) =>
        (Raise e, mkWorld en (disk w) (stdout w ++ [PBanner]) (readme w))
    end.
Proof.
  unfold startup, readme_open, open_w, syscall, print, readme_write. run.
  cbn [env disk stdout readme].
  destruct (os_fault _ (env w)) as [[e|] en]; [done|].
  cbn [env disk stdout readme]. by rewrite <- app_assoc.
Qed.

(** X18: when the README cannot be created, [main] stops with the
    exception of [open]: it has printed its banner and nothing else, has sent
    no request and has written no file. *)
Theorem main_stops_when_readme_cannot_be_opened (w : World Env) (e : Exn)
    (en : Env) :
  os_fault (OpenW readme_path) (env w) = (Some e, en) ->
  main w = (Raise e, mkWorld en (disk w) (stdout w ++ [PBanner]) (readme w)).
Proof.
  intros Hopen. by rewrite main_run, startup_run, Hopen.
Qed.

(** X19: when listing the courses or inspecting one of them raises,
    [main] stops with that exception: no assignment is started, nothing but
    the header has been written to the README, which is closed with the
    header in it, no archive is made, and no file other than the README is
    created or changed. *)
Theorem main_stops_when_inspection_fails (w w0 w1 : World Env) (e : Exn) :
  startup w = (Ok tt, w0) ->
  inspect_all w0 = (Raise e, w1) ->
  (main w).1 = Raise e /\
  readme (main w).2 = [RHeader] /\
  disk (main w).2 !! readme_path
  = Some (Regular (render_readme VERSION stamp [RHeader])) /\
  (exists log, stdout (main w).2 = stdout w ++ [PBanner; PInspecting] ++ log /\
               progress_lines log = []) /\
  forall q, q <> readme_path -> disk (main w).2 !! q = disk w !! q.
Proof.
  intros Hstart Hinspect.
  rewrite main_run, Hstart, run_bind, Hinspect, readme_close_run.
  cbn [fst snd stdout disk readme].
  split; [done|].
  destruct (requests_only_inspect_all _ _ _ Hinspect) as [Hdisk Hreadme].
  destruct (preserves_inspect_all _ _ _ Hinspect) as [(log & Hout & Hlog) _ _].
  rewrite startup_run in Hstart.
  destruct (os_fault _ (env w)) as [[e'|] en]; [done|].
  injection Hstart as <-. cbn [stdout disk readme] in *.
  split; [done|]. split; [by rewrite Hreadme, lookup_insert_eq|]. split.
  - exists log. by rewrite Hout, <- app_assoc.
  - intros q Hq. rewrite lookup_insert_ne, Hdisk by done.
    by apply lookup_insert_ne.
Qed.

Lemma make_archive_run (base_name root_dir : string) (w : World Env) :
  make_archive base_name root_dir w
  = match os_fault (OpenW (archive_name base_name)) (env w) with
    | (None, en) =>
        (Ok tt,
         mkWorld en
           (<[archive_name base_name
              := Archive (dir_entries root_dir (disk w))]> (disk w))
           (stdout w) (readme w))
    | (Some e, en) => (Raise e, mkWorld en (disk w) (stdout w) (readme w))
    end.
Proof. reflexivity. Qed.

Lemma main_after_inspection (w w0 w1 w2 : World Env)
    (courses : list InspectedCourse) (n : nat) :
  startup w = (Ok tt, w0) ->
  inspect_all w0 = (Ok courses, w1) ->
  export_all courses w1 = (Ok n, w2) ->
  let staged :=
    <[readme_path := Regular (render_readme VERSION stamp (readme w2))]>
      (disk w2) in
  main w
  = match os_fault (OpenW (archive_name output)) (env w2) with
    | (None, en) =>
        (Ok tt,
         mkWorld en
           (<[archive_name output := Archive (dir_entries tmpdir staged)]>
              staged)
           (stdout w2) (readme w2))
    | (Some e, en) => (Raise e, mkWorld en staged (stdout w2) (readme w2))
    end.
Proof.
  intros Hstart Hinspect Hexport. cbv zeta.
  rewrite main_run, Hstart, run_bind, Hinspect, Hexport, readme_close_run.
  cbn [snd]. rewrite run_bind, make_archive_run.
  cbn [env disk stdout readme].
  by destruct (os_fault _ (env w2)) as [[e|] en].
Qed.

(** X20: once the courses are inspected, no failure of the locator or of
    a download stops the export.  [main] goes on to close the README and to
    make the archive of the staging directory; it returns unless creating the
    archive file raises, and then it raises that exception with the README
    already in place. *)
Theorem main_ends_with_the_archive (w w0 w1 : World Env)
    (courses : list InspectedCourse) :
  startup w = (Ok tt, w0) ->
  inspect_all w0 = (Ok courses, w1) ->
  exists w2 staged,
    export_all courses w1 = (Ok (1 + count_assignments courses), w2) /\
    staged = <[readme_path := Regular (render_readme VERSION stamp (readme w2))]>
               (disk w2) /\
    main w
    = match os_fault (OpenW (archive_name output)) (env w2) with
      | (None, en) =>
          (Ok tt,
           mkWorld en
             (<[archive_name output := Archive (dir_entries tmpdir staged)]>
                staged)
             (stdout w2) (readme w2))
      | (Some e, en) => (Raise e, mkWorld en staged (stdout w2) (readme w2))
      end.
Proof.
  intros Hstart Hinspect.
  destruct (export_all_spec courses w1) as (w2 & Hexport & _).
  exists w2, (<[readme_path := Regular (render_readme VERSION stamp (readme w2))]>
                (disk w2)).
  split; [done|]. split; [done|].
  exact (main_after_inspection w w0 w1 w2 courses _ Hstart Hinspect Hexport).
Qed.

(** The archive of a staging directory that holds one file. *)
Lemma dir_entries_single (root name data : string) (d : gmap string File) :
  plain name -> name <> "" ->
  dir_entries root d = [] ->
  dir_entries root (<[path_join root name := Regular data]> d) = [(name, data)].
Proof.
  intros Hplain Hne Hempty. apply Permutation_singleton_r.
  unfold dir_entries in *.
  rewrite <- insert_delete_eq.
  rewrite map_to_list_insert by apply lookup_delete_eq.
  cbn [omap list_omap fst snd]. rewrite child_name_join by done. cbn [fmap option_fmap option_map].
  constructor.
  match goal with |- ?l ≡ₚ [] => destruct l as [|x l'] eqn:E end; [done|].
  exfalso.
  assert (x ∈ omap (fun pf : string * File =>
                      match pf.2 with
                      | Regular data => (fun name => (name, data)) <$> child_name root pf.1
                      | Archive _ => None
                      end) (map_to_list (delete (path_join root name) d)))
    as Hx by (rewrite E; left).
  apply list_elem_of_omap in Hx as ([p f] & Hin & Hf).
  apply elem_of_map_to_list, lookup_delete_Some in Hin as [_ Hin].
  assert (x ∈ @nil (string * string)) as Hnil.
  { rewrite <- Hempty. apply list_elem_of_omap. exists (p, f).
    split; [by apply elem_of_map_to_list|done]. }
  by apply elem_of_nil in Hnil.
Qed.

(** X21: with an empty dashboard [main] still succeeds.  It prints its
    three headlines, writes a README that holds the header only and makes an
    archive whose only entry is that README. *)
Theorem main_without_courses (w : World Env) (response : Response)
    (en1 en2 en3 : Env) :
  os_fault (OpenW readme_path) (env w) = (None, en1) ->
  requests_get (PStr BASE_URL) false en1 = (Ok response, en2) ->
  soup_course_boxes (text response) = [] ->
  set_elements [] = [] ->
  os_fault (OpenW (archive_name output)) en2 = (None, en3) ->
  dir_entries tmpdir (disk w) = [] ->
  main w
  = (Ok tt,
     mkWorld en3
       (<[archive_name output
          := Archive [("README.md", render_readme VERSION stamp [RHeader])]]>
          (<[readme_path := Regular (render_readme VERSION stamp [RHeader])]>
             (disk w)))
       (stdout w ++ [PBanner; PInspecting; PDownloading]) [RHeader]).
Proof.
  intros Hopen Hget Hboxes Hset Harchive Hfresh.
  set (w0 := mkWorld en1 (<[readme_path := Regular ""]> (disk w))
               (stdout w ++ [PBanner; PInspecting]) [RHeader]).
  assert (startup w = (Ok tt, w0)) as Hstart
    by (by rewrite startup_run, Hopen).
  assert (inspect_all w0 = (Ok [], set_env w0 en2)) as Hinspect.
  { unfold inspect_all. rewrite run_bind, list_courses_run.
    cbn [env w0]. rewrite Hget, Hboxes.
    change (mapM a_href []) with (Some (@nil string)). cbn [map].
    by rewrite Hset. }
  assert (export_all [] (set_env w0 en2)
          = (Ok 1, add_stdout (set_env w0 en2) [PDownloading])) as Hexport.
  { unfold export_all. cbv zeta.
    rewrite run_bind, print_run, run_bind, sort_courses_run.
    change (sorted_groups []) with (@nil (string * list InspectedCourse)).
    change (term_warnings []) with (@nil Printed).
    by rewrite add_stdout_nil. }
  rewrite (main_after_inspection w w0 _ _ [] 1 Hstart Hinspect Hexport).
  cbn [env disk stdout readme set_env add_stdout w0]. rewrite Harchive.
  f_equal. f_equal.
  - rewrite insert_insert_eq. f_equal. f_equal.
    apply dir_entries_single; done.
  - by rewrite <- app_assoc.
Qed.

End Gsout.

(** ** The program at the scripted environment *)

Abbreviation demo_sort_courses := (sort_courses (Env := Script.Env)).
Abbreviation demo_list_submissions :=
  (list_submissions Script.requests_get Script.json_loads).
Abbreviation demo_download := (download Script.requests_get Script.os_fault).
Abbreviation demo_make_archive := (make_archive Script.os_fault).
Abbreviation demo_startup := (startup Script.os_fault "/tmp/gsout").
Abbreviation demo_inspect_all :=
  (inspect_all Script.requests_get Script.soup_course_boxes
     Script.soup_course_page remove_dups).
Abbreviation demo_export_all :=
  (export_all Script.requests_get Script.os_fault Script.json_loads
     "/tmp/gsout").
Abbreviation demo_main :=
  (main Script.requests_get Script.os_fault Script.json_loads
     Script.soup_course_boxes Script.soup_course_page remove_dups
     "1.0" "2024-05-01 at 12:00:00 UTC" "/tmp/gsout" "export").

(** C1 at two courses, one of a term that does not parse. *)
Lemma sort_courses_chronological_witness :
  exists groups w',
    demo_sort_courses [Script.algorithms; Script.seminar] (Script.world [] [])
    = (Ok groups, w') /\
    groups !! 0 = Some ("Autumn 2023", [Script.seminar]) /\
    groups !! 1 = Some ("Fall 2023", [Script.algorithms]) /\
    term_key "Autumn 2023" = (0, 0)%Z /\ 0 < 1.
Proof.
  destruct (sort_courses_chronological (Env := Script.Env)
              [Script.algorithms; Script.seminar] (Script.world [] []))
    as (groups & w' & Hrun & _ & _ & _ & _ & Hbefore).
  exists groups, w'. split; [exact Hrun|].
  assert (groups = [("Autumn 2023", [Script.seminar]);
                    ("Fall 2023", [Script.algorithms])]) as ->.
  { vm_compute in Hrun. by injection Hrun as <- _. }
  split; [reflexivity|]. split; [reflexivity|].
  apply (Hbefore 0 1 ("Autumn 2023", [Script.seminar])
           ("Fall 2023", [Script.algorithms]) 2023%Z 2%Z);
    [reflexivity|reflexivity| |reflexivity|reflexivity].
  intros k. vm_compute. discriminate.
Defined.

(** C2 at the two Fall courses with the Spring course between them. *)
Lemma sort_courses_keeps_arrival_order_witness :
  exists w',
    demo_sort_courses [Script.algorithms; Script.calculus; Script.databases]
      (Script.world [] [])
    = (Ok [("Spring 2022", [Script.calculus]);
           ("Fall 2023", [Script.algorithms; Script.databases])], w').
Proof.
  destruct (sort_courses_keeps_arrival_order (Env := Script.Env)
              [Script.algorithms; Script.calculus; Script.databases]
              (Script.world [] []))
    as (groups & w' & Hrun & _ & Hexample).
  exists w'.
  rewrite <- (Hexample Script.algorithms Script.databases Script.calculus
                eq_refl eq_refl eq_refl (or_intror (or_introl eq_refl))).
  exact Hrun.
Defined.

(** C3 at a page that is JSON with a link to a PDF, and at a page that is
    neither JSON nor holds an upload link. *)
Lemma list_submissions_files_witness :
  (exists w',
     demo_list_submissions Script.algorithms Script.homework
       (Script.world [Ok (Script.page (Script.attachment_json Script.S3_PDF))] [])
     = (Ok [ {| sub_slug := "55";
                sub_files :=
                  [{| sf_url := PStr "https://www.gradescope.com/courses/algorithms/assignments/7/submissions/55.pdf";
                      sf_ext := "pdf" |};
                   {| sf_url := PStr "https://www.gradescope.com/courses/algorithms/assignments/7/submissions/55.zip";
                      sf_ext := "zip" |};
                   {| sf_url := PStr Script.S3_PDF; sf_ext := "pdf" |}] |} ],
        w')) /\
  (exists w',
     demo_list_submissions Script.algorithms Script.homework
       (Script.world [Ok (Script.page "<html>Sign in</html>")] [])
     = (Ok [ {| sub_slug := "55";
                sub_files :=
                  [{| sf_url := PStr "https://www.gradescope.com/courses/algorithms/assignments/7/submissions/55.pdf";
                      sf_ext := "pdf" |};
                   {| sf_url := PStr "https://www.gradescope.com/courses/algorithms/assignments/7/submissions/55.zip";
                      sf_ext := "zip" |}] |} ],
        w')).
Proof.
  split.
  - destruct (list_submissions_files Script.requests_get Script.json_loads
                Script.algorithms Script.homework
                (Script.world
                   [Ok (Script.page (Script.attachment_json Script.S3_PDF))] []))
      as (files & w' & Hrun & _ & _ & Hjson & _).
    exists w'.
    pose proof (Hjson (Script.page (Script.attachment_json Script.S3_PDF))
                  {| Script.answers := []; Script.faults := [] |}
                  (PStr Script.S3_PDF) eq_refl eq_refl eq_refl) as Hfiles.
    subst files. exact Hrun.
  - destruct (list_submissions_files Script.requests_get Script.json_loads
                Script.algorithms Script.homework
                (Script.world [Ok (Script.page "<html>Sign in</html>")] []))
      as (files & w' & Hrun & _ & _ & _ & Hnone).
    exists w'.
    assert (Hfiles := Hnone (Script.page "<html>Sign in</html>")
                        {| Script.answers := []; Script.faults := [] |} eq_refl).
    rewrite Hfiles in Hrun.
    + exact Hrun.
    + intros link Hlink. vm_compute in Hlink. discriminate Hlink.
    + reflexivity.
Defined.

(** C4 at a request that times out. *)
Lemma list_submissions_catches_witness :
  exists w',
    demo_list_submissions Script.algorithms Script.homework
      (Script.world [Raise Script.timeout] [])
    = (Ok [ {| sub_slug := "55";
               sub_files :=
                 [{| sf_url := PStr "https://www.gradescope.com/courses/algorithms/assignments/7/submissions/55.pdf";
                     sf_ext := "pdf" |};
                  {| sf_url := PStr "https://www.gradescope.com/courses/algorithms/assignments/7/submissions/55.zip";
                     sf_ext := "zip" |}] |} ],
       w') /\
    stdout w' = [PException Script.timeout].
Proof.
  destruct (list_submissions_catches Script.requests_get Script.json_loads
              Script.algorithms Script.homework
              (Script.world [Raise Script.timeout] []))
    as (files & w' & Hrun & _ & Hraise & _).
  destruct (Hraise Script.timeout {| Script.answers := []; Script.faults := [] |}
              eq_refl) as [Hfiles Hout].
  exists w'. subst files. split; [exact Hrun|exact Hout].
Defined.

(** C5 at three candidates of which the second is answered 404. *)
Lemma download_skips_failed_candidates_witness :
  exists files w',
    demo_download "/tmp/gsout" "101" "7" Script.three_candidates
      (Script.world [Ok (Script.page "pdfdata"); Ok Script.not_found;
                     Ok (Script.page "more")] [])
    = (Ok files, w') /\
    forall f, f ∈ files -> df_index f <> 2.
Proof.
  destruct (download_skips_failed_candidates Script.requests_get Script.os_fault
              "/tmp/gsout" "101" "7" Script.three_candidates
              [Script.candidate "https://host/55.pdf" "pdf"]
              [Script.candidate "https://host/extra.pdf" "pdf"]
              (Script.candidate "https://host/55.zip" "zip")
              (Script.world [Ok (Script.page "pdfdata"); Ok Script.not_found;
                             Ok (Script.page "more")] [])
              eq_refl)
    as (files1 & w1 & kept & w2 & files3 & w' & Hbefore & _ & _ & Hrun
        & Hstatus & _ & _ & Hindex).
  exists (files1 ++ kept ++ files3), w'. split; [exact Hrun|].
  apply Hindex.
  vm_compute in Hbefore. injection Hbefore as _ <-.
  apply (Hstatus Script.not_found
           {| Script.answers := [Ok (Script.page "more")]; Script.faults := [] |}
           eq_refl).
  discriminate.
Defined.

(** C6 at the scripted run: one course with one assignment. *)
Lemma progress_lines_count_assignments_witness :
  let w := Script.world Script.session [] in
  let w' := (demo_main w).2 in
  exists courses w0 w1 w2,
    demo_startup w = (Ok tt, w0) /\
    demo_inspect_all w0 = (Ok courses, w1) /\
    demo_export_all courses w1 = (Ok (1 + count_assignments courses), w2) /\
    count_assignments courses
    = sum_list (map (fun course => length (crs_assignments course)) courses) /\
    progress_lines (stdout w')
    = progress_lines (stdout w)
      ++ map (fun k => (k, count_assignments courses))
             (seq 1 (count_assignments courses)) /\
    length (progress_lines (stdout w'))
    = length (progress_lines (stdout w)) + count_assignments courses.
Proof.
  intros w w'.
  apply (progress_lines_count_assignments Script.requests_get Script.os_fault
           Script.json_loads Script.soup_course_boxes Script.soup_course_page
           remove_dups "1.0" "2024-05-01 at 12:00:00 UTC" "/tmp/gsout" "export"
           w w').
  vm_compute. reflexivity.
Defined.

(** C7, as amended, at a page that is not JSON and holds one upload
    link. *)
Lemma fallback_link_is_first_upload_url_witness :
  let page := "href=&quot;" +:+ Script.S3_PDF +:+ "&quot; rel=&quot;x&quot;" in
  fallback_link page = Script.S3_PDF /\
  spec_fallback_link page = Some Script.S3_PDF /\
  exists w',
    demo_list_submissions Script.algorithms Script.homework
      (Script.world [Ok (Script.page page)] [])
    = (Ok [ {| sub_slug := "55";
               sub_files := [guess Script.algorithms Script.homework "pdf";
                             guess Script.algorithms Script.homework "zip";
                             {| sf_url := PStr Script.S3_PDF;
                                sf_ext := "pdf" |}] |} ], w').
Proof.
  intros page.
  destruct (fallback_link_is_first_upload_url Script.requests_get
              Script.json_loads Script.algorithms Script.homework
              (Script.world [Ok (Script.page page)] []) (Script.page page)
              {| Script.answers := []; Script.faults := [] |}
              (Foreign "JSONDecodeError" "Expecting value") eq_refl eq_refl)
    as (Hfound & _ & w' & Hrun).
  destruct (Hfound ".s3.amazonaws.com/file.pdf&quot; rel=&quot;x&quot;"
              eq_refl eq_refl) as [Hlink Hspec].
  split; [exact Hlink|].
  split; [exact (eq_trans Hspec (f_equal Some Hlink))|].
  exists w'. exact Hrun.
Defined.

(** C8 at "export.zip" and at "export". *)
Lemma zip_file_argument_round_trip_witness :
  zip_file_argument "export.zip" = Ok "export" /\
  "export" +:+ ".zip" = "export.zip" /\
  disk (demo_make_archive "export" "/tmp/gsout" (Script.world [] [])).2
    !! "export.zip" = Some (Archive []) /\
  zip_file_argument "export"
  = Raise (ArgumentTypeError "ZIP file path must have the .zip extension").
Proof.
  pose proof (zip_file_argument_round_trip Script.os_fault "export.zip")
    as [_ Hyes].
  pose proof (zip_file_argument_round_trip Script.os_fault "export")
    as [_ Hno].
  change (PyStr.endswith "export.zip" ".zip") with true in Hyes.
  change (PyStr.endswith "export" ".zip") with false in Hno.
  cbv iota in Hyes, Hno.
  destruct Hyes as (base & Hbase & Hsuffix & _ & Harchive).
  assert (base = "export") as ->.
  { vm_compute in Hbase. by injection Hbase as <-. }
  split; [exact Hbase|]. split; [exact Hsuffix|]. split; [|exact Hno].
  exact (Harchive "/tmp/gsout" (Script.world [] [])
           (demo_make_archive "export" "/tmp/gsout" (Script.world [] [])).2
           eq_refl).
Defined.

(** C9 at the scripted run. *)
Lemma readme_links_are_archived_witness :
  let w' := (demo_main (Script.world Script.session [])).2 in
  exists (staged : gmap string File) (entries : list (string * string)),
    entries = dir_entries "/tmp/gsout" staged /\
    disk w' = <["export.zip" := Archive entries]> staged /\
    ("README.md",
     render_readme "1.0" "2024-05-01 at 12:00:00 UTC" (readme w')) ∈ entries /\
    forall f, f ∈ readme_links (readme w') ->
      exists data,
        staged !! path_join "/tmp/gsout" (df_path f) = Some (Regular data) /\
        (df_path f, data) ∈ entries.
Proof.
  intros w'.
  apply (readme_links_are_archived Script.requests_get Script.os_fault
           Script.json_loads Script.soup_course_boxes Script.soup_course_page
           remove_dups "1.0" "2024-05-01 at 12:00:00 UTC" "/tmp/gsout" "export"
           (Script.world Script.session []) w').
  - intros l. reflexivity.
  - vm_compute. reflexivity.
Defined.

(** C10 at three candidates of which only the second is served: the one
    file downloaded carries the number 2. *)
Lemma download_index_is_position_witness :
  exists f files w',
    demo_download "/tmp/gsout" "101" "7" Script.three_candidates
      (Script.world [Ok Script.not_found; Ok (Script.page "zipdata");
                     Raise Script.timeout] [])
    = (Ok files, w') /\
    files !! 0 = Some f /\ df_index f = 2 /\ 0 + 1 < df_index f.
Proof.
  destruct (download_index_is_position Script.requests_get Script.os_fault
              "/tmp/gsout" "101" "7" Script.three_candidates
              (Script.world [Ok Script.not_found; Ok (Script.page "zipdata");
                             Raise Script.timeout] []))
    as (files & w' & Hrun & _ & _ & Hrank).
  exists {| df_index := 2; df_path := "101-7-55-2.zip"; df_ext := "zip" |},
    files, w'.
  split; [exact Hrun|].
  assert (files = [ {| df_index := 2; df_path := "101-7-55-2.zip";
                       df_ext := "zip" |} ]) as ->.
  { vm_compute in Hrun. by injection Hrun as <- _. }
  split; [reflexivity|]. split; [reflexivity|].
  destruct (Hrank 0 {| df_index := 2; df_path := "101-7-55-2.zip";
                       df_ext := "zip" |} eq_refl) as [_ Hgap].
  apply (Hgap 1); [cbn; lia|].
  intros g Hg%list_elem_of_singleton. subst g. discriminate.
Defined.

(** ** Further properties at the scripted environment *)

Abbreviation demo_inspect_course :=
  (inspect_course Script.requests_get Script.soup_course_page remove_dups).
Abbreviation demo_download_from :=
  (download_from Script.requests_get Script.os_fault).

(** X2 and X3 at three courses over two terms that do not parse: two
    warnings for three courses, and the term seen first comes first. *)
Lemma sort_courses_warns_once_per_term_witness :
  let courses := [Script.course "a" "Winter 2024" []; Script.seminar;
                  Script.course "b" "Winter 2024" []] in
  exists groups log,
    demo_sort_courses courses (Script.world [] [])
    = (Ok groups, add_stdout (Script.world [] []) log) /\
    length log = 2.
Proof.
  intros courses.
  destruct (sort_courses_warns_once_per_term (Env := Script.Env) courses
              (Script.world [] [])) as (groups & log & Hrun & _ & Hlen).
  exists groups, log. split; [exact Hrun|]. rewrite Hlen.
  vm_compute. reflexivity.
Defined.

Lemma sort_courses_ties_keep_first_seen_witness :
  let courses := [Script.course "a" "Winter 2024" []; Script.seminar;
                  Script.course "b" "Winter 2024" []] in
  (exists w',
     demo_sort_courses courses (Script.world [] [])
     = (Ok [("Winter 2024", [Script.course "a" "Winter 2024" [];
                             Script.course "b" "Winter 2024" []]);
            ("Autumn 2023", [Script.seminar])], w')) /\
  exists pre c post,
    courses = pre ++ c :: post /\ crs_term c = "Winter 2024" /\
    ("Winter 2024" ∉ map crs_term pre) /\ ("Autumn 2023" ∉ map crs_term pre).
Proof.
  intros courses.
  destruct (sort_courses_ties_keep_first_seen (Env := Script.Env) courses
              (Script.world [] [])) as (groups & w' & Hrun & Hties).
  assert (groups = [("Winter 2024", [Script.course "a" "Winter 2024" [];
                                     Script.course "b" "Winter 2024" []]);
                    ("Autumn 2023", [Script.seminar])]) as ->.
  { vm_compute in Hrun. by injection Hrun as <- _. }
  split; [by exists w'|].
  apply (Hties ("Winter 2024", [Script.course "a" "Winter 2024" [];
                                Script.course "b" "Winter 2024" []])
           ("Autumn 2023", [Script.seminar])).
  - by exists [], [], [].
  - vm_compute. reflexivity.
Defined.

(** X6 at the course page of the script: the header row is left out and
    the graded row is read. *)
Lemma inspect_course_reads_graded_rows_witness :
  let w := Script.world [Ok (Script.page "course 101")] [] in
  demo_inspect_course "101" w
  = (Ok {| crs_slug := "101"; crs_short_name := "CS 101";
           crs_long_name := "Introduction"; crs_term := "Fall 2023";
           crs_instructors := ["Ada"];
           crs_assignments := [ {| asg_slug := "7"; asg_name := "Homework 1";
                                   asg_grade := "10.0 / 10.0";
                                   asg_submission := "55" |} ] |},
     Script.world [] []) /\
  exists rows,
    pg_rows (Script.soup_course_page "course 101") = Some rows /\
    length rows = 2 /\ length (graded_rows rows) = 1.
Proof.
  intros w. split; [vm_compute; reflexivity|].
  destruct (inspect_course_reads_graded_rows Script.requests_get
              Script.soup_course_page remove_dups "101" w (Script.world [] [])
              {| crs_slug := "101"; crs_short_name := "CS 101";
                 crs_long_name := "Introduction"; crs_term := "Fall 2023";
                 crs_instructors := ["Ada"];
                 crs_assignments := [ {| asg_slug := "7";
                                         asg_name := "Homework 1";
                                         asg_grade := "10.0 / 10.0";
                                         asg_submission := "55" |} ] |})
    as (response & e1 & rows & short_name & long_name & term & roster
        & Hget & _ & Hpage & _ & _ & _ & _ & _ & Hrows);
    [vm_compute; reflexivity|].
  injection Hget as <- _. exists rows.
  vm_compute in Hpage. injection Hpage as <- _ _ _ _.
  split; [vm_compute; reflexivity|]. split; reflexivity.
Defined.

(** X8 at a dashboard with one course. *)
Lemma inspect_all_reports_each_course_witness :
  let w := Script.world [Ok (Script.page "dashboard");
                         Ok (Script.page "course 101")] [] in
  exists courses w',
    demo_inspect_all w = (Ok courses, w') /\
    map crs_slug courses = ["101"] /\
    stdout w' = [PCourse 1 1 1 1 "CS 101"] /\
    disk w' = disk w /\ readme w' = readme w.
Proof.
  intros w.
  destruct (demo_inspect_all w) as [[courses|e] w'] eqn:Hrun;
    [|vm_compute in Hrun; discriminate Hrun].
  destruct (inspect_all_reports_each_course Script.requests_get
              Script.soup_course_boxes Script.soup_course_page remove_dups
              w w' courses Hrun)
    as (slugs & w1 & Hslugs & Hmap & Hout & Hdisk & Hreadme).
  exists courses, w'. split; [reflexivity|].
  vm_compute in Hslugs. injection Hslugs as <- _.
  split; [exact Hmap|]. split; [|by split].
  rewrite Hout. vm_compute in Hrun. by injection Hrun as <- _.
Defined.

(** X10 at the first and the third candidate of a submission. *)
Lemma filename_of_distinct_witness :
  filename_of "101" "7" "55" 0 "pdf" = "101-7-55-1.pdf" /\
  filename_of "101" "7" "55" 2 "pdf" <> "101-7-55-1.pdf".
Proof.
  split; [reflexivity|].
  apply not_eq_sym.
  apply (filename_of_distinct "101" "7" "55" 0 2 "pdf" "pdf"). discriminate.
Defined.

(** X11 at "Fall 2023". *)
Lemma term_chrono_index_of_season_and_year_witness :
  term_chrono_index ("Fall" +:+ " " +:+ PyStr.of_nat 2023) (Script.world [] [])
  = (Ok (Z.of_nat 2023, 2%Z), Script.world [] []) /\
  "Fall" +:+ " " +:+ PyStr.of_nat 2023 = "Fall 2023".
Proof.
  split; [|reflexivity].
  apply (term_chrono_index_of_season_and_year "Fall" 2%Z 2023
           (Script.world [] [])); [reflexivity|].
  apply Nat.leb_le. vm_compute. reflexivity.
Defined.

(** X12 at three candidates: the README of the staging directory is not
    one of their paths. *)
Lemma download_writes_only_candidates_witness :
  let w := mkWorld {| Script.answers := [Ok (Script.page "pdfdata")];
                      Script.faults := [] |}
             {["/tmp/gsout/README.md" := Regular "# Gradescope"]} [] [] in
  let w' := (demo_download "/tmp/gsout" "101" "7" Script.three_candidates w).2 in
  disk w' !! "/tmp/gsout/README.md" = Some (Regular "# Gradescope") /\
  readme w' = [] /\
  exists log, stdout w' = log /\ forallb is_exception log = true.
Proof.
  intros w w'.
  destruct (download_writes_only_candidates Script.requests_get Script.os_fault
              "/tmp/gsout" "101" "7" Script.three_candidates w
              "/tmp/gsout/README.md") as (Hdisk & Hreadme & log & Hout & Hlog).
  - intros [|[|[|i]]] link Hlink; try discriminate Hlink;
      injection Hlink as <-; vm_compute; discriminate.
  - split; [exact Hdisk|]. split; [exact Hreadme|]. by exists log.
Defined.

(** X13 at three candidates of which the second is missing: the third
    file holds the body of the third answer. *)
Lemma download_stores_complete_bodies_witness :
  let w := Script.world [Ok (Script.page "pdfdata"); Ok Script.not_found;
                         Ok (Script.page "more")] [] in
  let w' := (demo_download "/tmp/gsout" "101" "7" Script.three_candidates w).2 in
  disk w' !! "/tmp/gsout/101-7-55-3.pdf" = Some (Regular "more").
Proof.
  intros w w'.
  destruct (download_stores_complete_bodies Script.requests_get Script.os_fault
              "/tmp/gsout" "101" "7" Script.three_candidates
              [Script.candidate "https://host/55.pdf" "pdf";
               Script.candidate "https://host/55.zip" "zip"] []
              (Script.candidate "https://host/extra.pdf" "pdf")
              w
              (demo_download_from "/tmp/gsout" "101" "7" Script.three_candidates
                 0 [Script.candidate "https://host/55.pdf" "pdf";
                    Script.candidate "https://host/55.zip" "zip"] [] w).2
              w'
              [ {| df_index := 1; df_path := "101-7-55-1.pdf"; df_ext := "pdf" |} ]
              [ {| df_index := 1; df_path := "101-7-55-1.pdf"; df_ext := "pdf" |};
                {| df_index := 3; df_path := "101-7-55-3.pdf"; df_ext := "pdf" |} ])
    as (response & e1 & Hget & _ & _ & Hdisk).
  - reflexivity.
  - vm_compute. reflexivity.
  - vm_compute. reflexivity.
  - right. left.
  - vm_compute in Hget. injection Hget as <- _. exact Hdisk.
Defined.

(** X14 at an answer whose stream breaks after two chunks. *)
Lemma download_step_keeps_delivered_chunks_witness :
  let broken := {| status_code := 200; text := ""; chunks := ["par"; "tial"];
                   stream_error := Some Script.timeout |} in
  exists w',
    download_step Script.requests_get (fun _ e => (None, e))
      "/tmp/gsout" "101" "7" Script.three_candidates [] 0
      (Script.candidate "https://host/55.pdf" "pdf")
      (Script.world [Ok broken] [])
    = (Ok [], w') /\
    stdout w' = [PException Script.timeout] /\
    readme w' = [] /\
    disk w' !! "/tmp/gsout/101-7-55-1.pdf" = Some (Regular "partial").
Proof.
  intros broken.
  apply (download_step_keeps_delivered_chunks Script.requests_get
           (fun _ e => (None, e)) "/tmp/gsout" "101" "7"
           Script.three_candidates [] 0
           (Script.candidate "https://host/55.pdf" "pdf")
           (Script.world [Ok broken] []) broken
           {| Script.answers := []; Script.faults := [] |});
    reflexivity.
Defined.

(** X15 at the scripted run. *)
Lemma readme_outline_follows_sort_courses_witness :
  let w := Script.world Script.session [] in
  let w' := (demo_main w).2 in
  exists courses w0 w1,
    demo_startup w = (Ok tt, w0) /\ demo_inspect_all w0 = (Ok courses, w1) /\
    (forall v, (demo_sort_courses courses v).1 = Ok (sorted_groups courses)) /\
    outline (readme w')
    = RHeader :: concat (map term_outline (sorted_groups courses)).
Proof.
  intros w w'.
  apply (readme_outline_follows_sort_courses Script.requests_get
           Script.os_fault Script.json_loads Script.soup_course_boxes
           Script.soup_course_page remove_dups "1.0"
           "2024-05-01 at 12:00:00 UTC" "/tmp/gsout" "export" w w').
  vm_compute. reflexivity.
Defined.

(** X16 at the scripted run. *)
Lemma submission_lines_are_one_of_one_witness :
  let w := Script.world Script.session [] in
  let w' := (demo_main w).2 in
  submission_lines (stdout w') = [(1, 1, "55")].
Proof.
  intros w w'.
  destruct (submission_lines_are_one_of_one Script.requests_get
              Script.os_fault Script.json_loads Script.soup_course_boxes
              Script.soup_course_page remove_dups "1.0"
              "2024-05-01 at 12:00:00 UTC" "/tmp/gsout" "export" w w')
    as (courses & w0 & w1 & Hstart & Hinspect & Hlines).
  - vm_compute. reflexivity.
  - vm_compute. reflexivity.
Defined.

(** X17 at the scripted run: one of the three candidates is served. *)
Lemma readme_entries_match_file_counts_witness :
  let w := Script.world Script.session [] in
  let w' := (demo_main w).2 in
  file_counts (stdout w') = [1] /\
  submission_entries (readme w') = [("55", false, 1)].
Proof.
  intros w w'.
  destruct (readme_entries_match_file_counts Script.requests_get
              Script.os_fault Script.json_loads Script.soup_course_boxes
              Script.soup_course_page remove_dups "1.0"
              "2024-05-01 at 12:00:00 UTC" "/tmp/gsout" "export" w w')
    as (courses & w0 & w1 & counts & Hstart & Hinspect & Hcounts & Hlen & Hentries).
  - vm_compute. reflexivity.
  - split; vm_compute; reflexivity.
Defined.

(** X18 at a system that refuses to create the README. *)
Lemma main_stops_when_readme_cannot_be_opened_witness :
  demo_main (Script.world Script.session
               [Some (Foreign "PermissionError" "denied")])
  = (Raise (Foreign "PermissionError" "denied"),
     mkWorld {| Script.answers := Script.session; Script.faults := [] |}
       ∅ [PBanner] []).
Proof.
  apply (main_stops_when_readme_cannot_be_opened Script.requests_get
           Script.os_fault Script.json_loads Script.soup_course_boxes
           Script.soup_course_page remove_dups "1.0"
           "2024-05-01 at 12:00:00 UTC" "/tmp/gsout" "export"
           (Script.world Script.session
              [Some (Foreign "PermissionError" "denied")])).
  reflexivity.
Defined.

(** X19 at a course page that times out. *)
Lemma main_stops_when_inspection_fails_witness :
  let w := Script.world [Ok (Script.page "dashboard"); Raise Script.timeout] [] in
  (demo_main w).1 = Raise Script.timeout /\
  readme (demo_main w).2 = [RHeader] /\
  disk (demo_main w).2 !! path_join "/tmp/gsout" "README.md"
  = Some (Regular (render_readme "1.0" "2024-05-01 at 12:00:00 UTC"
                     [RHeader])) /\
  (exists log, stdout (demo_main w).2 = stdout w ++ [PBanner; PInspecting] ++ log /\
               progress_lines log = []) /\
  forall q, q <> path_join "/tmp/gsout" "README.md" ->
    disk (demo_main w).2 !! q = disk w !! q.
Proof.
  intros w.
  apply (main_stops_when_inspection_fails Script.requests_get
           Script.os_fault Script.json_loads Script.soup_course_boxes
           Script.soup_course_page remove_dups "1.0"
           "2024-05-01 at 12:00:00 UTC" "/tmp/gsout" "export" w
           (demo_startup w).2 (demo_inspect_all (demo_startup w).2).2
           Script.timeout);
    vm_compute; reflexivity.
Defined.

(** X20 at the scripted run, where creating the archive succeeds. *)
Lemma main_ends_with_the_archive_witness :
  let w := Script.world Script.session [] in
  exists (w2 : World Script.Env) staged entries,
    (demo_main w).1 = Ok tt /\
    disk (demo_main w).2 = <["export.zip" := Archive entries]> staged /\
    staged = <[path_join "/tmp/gsout" "README.md"
               := Regular (render_readme "1.0" "2024-05-01 at 12:00:00 UTC"
                             (readme w2))]> (disk w2) /\
    entries = dir_entries "/tmp/gsout" staged.
Proof.
  intros w.
  destruct (main_ends_with_the_archive Script.requests_get
              Script.os_fault Script.json_loads Script.soup_course_boxes
              Script.soup_course_page remove_dups "1.0"
              "2024-05-01 at 12:00:00 UTC" "/tmp/gsout" "export" w
              (demo_startup w).2 (demo_inspect_all (demo_startup w).2).2
              [ {| crs_slug := "101"; crs_short_name := "CS 101";
                   crs_long_name := "Introduction"; crs_term := "Fall 2023";
                   crs_instructors := ["Ada"];
                   crs_assignments := [ {| asg_slug := "7";
                                           asg_name := "Homework 1";
                                           asg_grade := "10.0 / 10.0";
                                           asg_submission := "55" |} ] |} ])
    as (w2 & staged & Hexport & Hstaged & Hmain).
  - vm_compute. reflexivity.
  - vm_compute. reflexivity.
  - exists w2, staged, (dir_entries "/tmp/gsout" staged).
    assert (Script.os_fault (OpenW (archive_name "export")) (env w2)
            = (None, env w2)) as Hos.
    { vm_compute in Hexport. injection Hexport as <-. reflexivity. }
    rewrite Hos in Hmain. rewrite Hmain.
    split; [reflexivity|]. split; [reflexivity|]. split; [exact Hstaged|reflexivity].
Defined.

(** X21 at a dashboard without courses. *)
Lemma main_without_courses_witness :
  demo_main (Script.world [Ok (Script.page "nothing")] [])
  = (Ok tt,
     mkWorld {| Script.answers := []; Script.faults := [] |}
       (<["export.zip"
          := Archive [("README.md",
                       render_readme "1.0" "2024-05-01 at 12:00:00 UTC"
                         [RHeader])]]>
          (<[path_join "/tmp/gsout" "README.md"
             := Regular (render_readme "1.0" "2024-05-01 at 12:00:00 UTC"
                           [RHeader])]> ∅))
       [PBanner; PInspecting; PDownloading] [RHeader]).
Proof.
  apply (main_without_courses Script.requests_get
           Script.os_fault Script.json_loads Script.soup_course_boxes
           Script.soup_course_page remove_dups "1.0"
           "2024-05-01 at 12:00:00 UTC" "/tmp/gsout" "export"
           (Script.world [Ok (Script.page "nothing")] [])
           (Script.page "nothing")
           {| Script.answers := [Ok (Script.page "nothing")]; Script.faults := [] |}
           {| Script.answers := []; Script.faults := [] |}
           {| Script.answers := []; Script.faults := [] |});
    reflexivity.
Defined.
